(** * roboStatsCPSLO: the results aggregation engine, embedded and verified

    The Python scripts of the repository fetch competition results from a
    paginated JSON service, classify match and skills records into score
    buckets, reduce the buckets to per-team statistics and write a sorted
    report.  This development embeds those functions and proves (or refutes)
    the properties the specification states about them.

    Conventions of the embedding:
    - a value decoded from the wire is a [json]; Python's dynamic operations
      on it ([d.get(k, v)], [d[k]], iteration, [==], [>], truthiness) are total
      functions into [option], [None] standing for a raised exception;
    - JSON numbers are integers ([Z]); Python's [bool] is a subtype of [int],
      so [True == 1] holds in the embedding too;
    - the division of two integers ([sum(s) / len(s)]) is the exact rational
      ([Q]); Python rounds that quotient to the nearest binary64 value;
    - the remote service is a [world]: the reply to the n-th request issued. *)

From Stdlib Require Import List ZArith QArith Qround String Ascii Bool Lia Lqa.
From Stdlib Require Import Permutation Sorted DecimalString DecimalZ.
Import ListNotations.

Local Open Scope string_scope.
Local Open Scope list_scope.
Local Open Scope Z_scope.

(** ** Wire values *)

#[warnings="-register-all"]
Inductive json : Type :=
| JNull
| JBool (b : bool)
| JInt (z : Z)
| JStr (s : string)
| JArr (items : list json)
| JObj (fields : list (string * json)).

(** The exception monad of a single [try] block: [None] is a raised
    exception. *)
Definition bind_opt {A B : Type} (m : option A) (k : A -> option B) : option B :=
  match m with
  | Some a => k a
  | None => None
  end.

Declare Scope py_scope.
Delimit Scope py_scope with py.
Notation "x <- m ;; k" := (bind_opt m (fun x => k))
  (at level 100, m at next level, right associativity) : py_scope.
Local Open Scope py_scope.

Module Py.

(** Lookup of a key in the fields of an object (first binding). *)
Fixpoint assoc (k : string) (fields : list (string * json)) : option json :=
  match fields with
  | [] => None
  | (k', v) :: rest => if String.eqb k k' then Some v else assoc k rest
  end.

(** [d.get(k, default)]: only a dict has [.get]. *)
Definition get (d : json) (k : string) (default : json) : option json :=
  match d with
  | JObj fields =>
      match assoc k fields with
      | Some v => Some v
      | None => Some default
      end
  | _ => None
  end.

(** [d[k]] with a string key: [KeyError] when absent, [TypeError] on anything
    that is not a dict. *)
Definition getitem (d : json) (k : string) : option json :=
  match d with
  | JObj fields => assoc k fields
  | _ => None
  end.

(** The characters of a string, as one-character strings. *)
Fixpoint chars (s : string) : list json :=
  match s with
  | EmptyString => []
  | String c s' => JStr (String c EmptyString) :: chars s'
  end.

(** Iteration ([for x in v], [enumerate(v)], [list.extend(v)]). *)
Definition iter (v : json) : option (list json) :=
  match v with
  | JArr items => Some items
  | JStr s => Some (chars s)
  | JObj fields => Some (map (fun kv => JStr (fst kv)) fields)
  | _ => None
  end.

(** [v[i]] with a non-negative integer index. *)
Definition index (v : json) (i : nat) : option json :=
  match v with
  | JArr items => nth_error items i
  | JStr s => nth_error (chars s) i
  | _ => None
  end.

(** [len(v)]. *)
Definition len (v : json) : option nat :=
  match v with
  | JArr items => Some (List.length items)
  | JStr s => Some (String.length s)
  | JObj fields => Some (List.length fields)
  | _ => None
  end.

Definition is_str (k : string) (v : json) : bool :=
  match v with
  | JStr s => String.eqb s k
  | _ => false
  end.

(** [k in v] for a string [k]. *)
Definition contains (k : string) (v : json) : option bool :=
  match v with
  | JObj fields =>
      Some (match assoc k fields with Some _ => true | None => false end)
  | JArr items => Some (existsb (is_str k) items)
  | JStr s =>
      Some (match String.index 0 k s with Some _ => true | None => false end)
  | _ => None
  end.

(** The integer a value stands for in a comparison or a sum. *)
Definition as_int (v : json) : option Z :=
  match v with
  | JInt z => Some z
  | JBool b => Some (Z.b2z b)
  | _ => None
  end.

(** [v == n] for an integer [n]: never raises. *)
Definition eq_int (v : json) (n : Z) : bool :=
  match as_int v with
  | Some z => Z.eqb z n
  | None => false
  end.

(** [v == s] for a string [s]: never raises. *)
Definition eq_str (v : json) (s : string) : bool := is_str s v.

(** [v > n] for an integer [n]: [TypeError] unless [v] is a number. *)
Definition gt_int (v : json) (n : Z) : option bool :=
  z <- as_int v ;; Some (Z.gtb z n).

(** Truthiness ([if v:], [not v]). *)
Definition truthy (v : json) : bool :=
  match v with
  | JNull => false
  | JBool b => b
  | JInt z => negb (Z.eqb z 0)
  | JStr s => negb (String.eqb s "")
  | JArr items => match items with [] => false | _ => true end
  | JObj fields => match fields with [] => false | _ => true end
  end.

(** [isinstance(v, dict)]. *)
Definition is_dict (v : json) : bool :=
  match v with
  | JObj _ => true
  | _ => false
  end.

(** [max(s)] of a non-empty list of integers. *)
Definition max_list (s : list Z) : Z :=
  match s with
  | [] => 0
  | x :: rest => fold_left Z.max rest x
  end.

Definition sum_list (s : list Z) : Z := fold_left Z.add s 0.

(** All the elements as integers, or [None] when one is not a number. *)
Fixpoint all_ints (s : list json) : option (list Z) :=
  match s with
  | [] => Some []
  | v :: rest => z <- as_int v ;; zs <- all_ints rest ;; Some (z :: zs)
  end.

End Py.

(** ** Typed records and their wire form

    The statements about well-formed input quantify over these records; the
    classifiers themselves run on the [json] the encoders produce. *)

Record alliance : Type := mkAlliance {
  al_teams : list Z;          (* identifiers of the member teams *)
  al_score : option Z         (* [None]: the "score" field is absent *)
}.

Record match_record : Type := mkMatch {
  m_alliances : list alliance;
  m_round : option Z          (* [None]: the "round" field is absent *)
}.

Definition opt_field (k : string) (v : option Z) : list (string * json) :=
  match v with
  | Some z => [(k, JInt z)]
  | None => []
  end.

Definition team_json (id : Z) : json := JObj [("id", JInt id)].

Definition alliance_json (a : alliance) : json :=
  JObj (("teams", JArr (map team_json (al_teams a))) :: opt_field "score" (al_score a)).

Definition match_json (m : match_record) : json :=
  JObj (("alliances", JArr (map alliance_json (m_alliances m)))
          :: opt_field "round" (m_round m)).

(** The two wire forms of a skills type. *)
Inductive skill_type : Type :=
| TypeTag (tag : string)      (* "type": "driver" *)
| TypeObj (code : Z).         (* "type": {"id": 1} *)

Record skills_record : Type := mkSkill {
  sk_type : skill_type;
  sk_score : option Z         (* [None]: the "score" field is absent *)
}.

Definition skill_type_json (t : skill_type) : json :=
  match t with
  | TypeTag tag => JStr tag
  | TypeObj code => JObj [("id", JInt code)]
  end.

Definition skill_json (s : skills_record) : json :=
  JObj (("type", skill_type_json (sk_type s)) :: opt_field "score" (sk_score s)).

(** ** Score classifier *)

Inductive bucket : Type := Qualification | Elimination.

(** What the body of the loop over the matches does with one match. *)
Inductive outcome : Type :=
| Skipped                          (* [continue] *)
| Raised                           (* an exception, caught and reported *)
| Unclassified                     (* located, but no branch appends *)
| Scored (b : bucket) (score : json).

Module Classifier.

(** [for team in alliance.get("teams", []): if team.get("id") == team_id: ...] *)
Fixpoint team_in (teams : list json) (team_id : Z) : option bool :=
  match teams with
  | [] => Some false
  | t :: rest =>
      id <- Py.get t "id" JNull ;;
      if Py.eq_int id team_id then Some true else team_in rest team_id
  end.

(** [for i, alliance in enumerate(alliances)]: the index of the first alliance
    holding the team. *)
Fixpoint find_alliance (alliances : list json) (i : nat) (team_id : Z)
  : option (option nat) :=
  match alliances with
  | [] => Some None
  | a :: rest =>
      teams <- Py.get a "teams" (JArr []) ;;
      members <- Py.iter teams ;;
      found <- team_in members team_id ;;
      if found then Some (Some i) else find_alliance rest (S i) team_id
  end.

(** The round policy of final-robotevents-skills-calculator.py:
    [if round_num == 1: qual else: elims]. *)
Definition round_policy_1 (round_num score : json) : option outcome :=
  if Py.eq_int round_num 1 then Some (Scored Qualification score)
  else Some (Scored Elimination score).

(** The round policy of vexu-data-accessor-updated.py:
    [if round_num == 1 or round_num == 2: qual elif round_num > 2: elims]. *)
Definition round_policy_12 (round_num score : json) : option outcome :=
  if Py.eq_int round_num 1 || Py.eq_int round_num 2
  then Some (Scored Qualification score)
  else
    above <- Py.gt_int round_num 2 ;;
    if above then Some (Scored Elimination score) else Some Unclassified.

(** Body of the [try] of [extract_match_scores]
    (final-robotevents-skills-calculator.py). *)
Definition match_body (m : json) (team_id : Z) : option outcome :=
  alliances <- Py.get m "alliances" (JArr []) ;;
  als <- Py.iter alliances ;;
  side <- find_alliance als 0 team_id ;;
  match side with
  | None => Some Skipped
  | Some i =>
      alls <- Py.getitem m "alliances" ;;
      a <- Py.index alls i ;;
      score <- Py.get a "score" (JInt 0) ;;
      round_num <- Py.get m "round" (JInt 0) ;;
      round_policy_1 round_num score
  end.

(** Body of the [try] of [extract_scores_from_matches]
    (vexu-data-accessor-updated.py). *)
Definition match_body_updated (m : json) (team_id : Z) : option outcome :=
  has <- Py.contains "alliances" m ;;
  if negb has then Some Skipped
  else
    alls <- Py.getitem m "alliances" ;;
    n <- Py.len alls ;;
    if (n <? 2)%nat then Some Skipped
    else
      als <- Py.iter alls ;;
      side <- find_alliance als 0 team_id ;;
      match side with
      | None => Some Skipped
      | Some i =>
          a <- Py.index alls i ;;
          score <- Py.get a "score" (JInt 0) ;;
          round_num <- Py.get m "round" (JInt 0) ;;
          round_policy_12 round_num score
      end.

(** [try: ... except Exception: print(...)]. *)
Definition guarded (body : option outcome) : outcome :=
  match body with
  | Some o => o
  | None => Raised
  end.

(** The scores an outcome appends to the bucket [b]. *)
Definition appended (b : bucket) (o : outcome) : list json :=
  match o, b with
  | Scored Qualification s, Qualification => [s]
  | Scored Elimination s, Elimination => [s]
  | _, _ => []
  end.

Definition collect (b : bucket) (os : list outcome) : list json :=
  flat_map (appended b) os.

(** [extract_match_scores(matches, team_id)] of
    final-robotevents-skills-calculator.py. *)
Definition extract_match_scores (matches : list json) (team_id : Z)
  : list json * list json :=
  let os := map (fun m => guarded (match_body m team_id)) matches in
  (collect Qualification os, collect Elimination os).

(** [extract_scores_from_matches(matches, team_id)] of
    vexu-data-accessor-updated.py. *)
Definition extract_scores_from_matches (matches : list json) (team_id : Z)
  : list json * list json :=
  let os := map (fun m => guarded (match_body_updated m team_id)) matches in
  (collect Qualification os, collect Elimination os).

(** A match that reaches no bucket because it was skipped or raised. *)
Definition is_skipped (o : outcome) : bool :=
  match o with
  | Skipped | Raised => true
  | _ => false
  end.

Definition skipped_count (body : json -> Z -> option outcome)
  (matches : list json) (team_id : Z) : nat :=
  List.length (filter (fun m => is_skipped (guarded (body m team_id))) matches).

End Classifier.

(** ** Skills classifier *)

Inductive skill_outcome : Type :=
| SkillSkipped                     (* no branch appends, or [continue] *)
| SkillRaised                      (* an exception, caught and reported *)
| Driver (score : json)
| Programming (score : json).

Module Skills.

(** Body of the [try] in the skills loop of [process_team_data]
    (final-robotevents-skills-calculator.py): the type is compared with the
    strings "driver" and "programming". *)
Definition skill_body (skill : json) : option skill_outcome :=
  skill_type <- Py.get skill "type" JNull ;;
  score <- Py.get skill "score" (JInt 0) ;;
  if Py.eq_str skill_type "driver" then Some (Driver score)
  else if Py.eq_str skill_type "programming" then Some (Programming score)
  else Some SkillSkipped.

(** Body of the loop of [extract_combined_skills] (skills-focused-updater.py):
    the type must be a dict, and its "id" is compared with 1 and 2. *)
Definition skill_body_focused (skill : json) : option skill_outcome :=
  if negb (Py.is_dict skill) then Some SkillSkipped
  else
    skill_type <- Py.get skill "type" JNull ;;
    score <- Py.get skill "score" (JInt 0) ;;
    if negb (Py.is_dict skill_type) then Some SkillSkipped
    else
      type_id <- Py.get skill_type "id" (JInt 0) ;;
      if Py.eq_int type_id 1 then Some (Driver score)
      else if Py.eq_int type_id 2 then Some (Programming score)
      else Some SkillSkipped.

Definition guarded (body : option skill_outcome) : skill_outcome :=
  match body with
  | Some o => o
  | None => SkillRaised
  end.

Definition driver_of (o : skill_outcome) : list json :=
  match o with
  | Driver s => [s]
  | _ => []
  end.

Definition programming_of (o : skill_outcome) : list json :=
  match o with
  | Programming s => [s]
  | _ => []
  end.

(** The pair [(driver_scores, programming_scores)] a loop with the given body
    builds. *)
Definition classify_with (body : json -> option skill_outcome)
  (skills : list json) : list json * list json :=
  let os := map (fun s => guarded (body s)) skills in
  (flat_map driver_of os, flat_map programming_of os).

Definition classify : list json -> list json * list json :=
  classify_with skill_body.

Definition classify_focused : list json -> list json * list json :=
  classify_with skill_body_focused.

(** [max(scores) if scores else 0]. *)
Definition best (scores : list Z) : Z :=
  match scores with
  | [] => 0
  | _ => Py.max_list scores
  end.

(** The combined score of one event, when one is recorded:
    [if best_driver > 0 or best_programming > 0:
         combined_score = best_driver + best_programming]. *)
Definition combined_for_event (driver programming : list Z) : option Z :=
  let best_driver := best driver in
  let best_programming := best programming in
  if (best_driver >? 0) || (best_programming >? 0)
  then Some (best_driver + best_programming)
  else None.

(** The entries one event appends to [combined_skills]. *)
Definition combined_entries (driver programming : list Z) : list Z :=
  match combined_for_event driver programming with
  | Some c => [c]
  | None => []
  end.

(** [extract_combined_skills(skills)] of skills-focused-updater.py: the list
    it returns.  [None]: a score that is not a number makes [max], [>] or [+]
    raise a [TypeError] nothing catches. *)
Definition extract_combined_skills (skills : list json) : option (list Z) :=
  let (driver_skills, programming_skills) := classify_focused skills in
  driver <- Py.all_ints driver_skills ;;
  programming <- Py.all_ints programming_skills ;;
  Some (combined_entries driver programming).


End Skills.

(** ** Team aggregate *)

Record TeamData : Type := mkTeam {
  code : string;
  qual_avg : Q;
  best_qual : Z;
  elims_avg : Q;
  skill_avg : Q;
  qual_scores : list Z;
  elims_scores : list Z;
  driver_skills : list Z;
  programming_skills : list Z;
  combined_skills : list Z;
  best_event_name : string;
  best_event_score : Z
}.

(** [TeamData(code)]. *)
Definition new_team (c : string) : TeamData :=
  mkTeam c 0%Q 0 0%Q 0%Q [] [] [] [] [] "" 0.

Module Stats.

(** [sum(s) / len(s)], the exact quotient. *)
Definition average (s : list Z) : Q :=
  (inject_Z (Py.sum_list s) / inject_Z (Z.of_nat (List.length s)))%Q.

(** [TeamData.calculate_stats] (and the same three tests at the end of
    [process_team_data] in vexu-data-accessor-updated.py): a field keeps its
    initial 0 when its sequence is empty. *)
Definition calculate_stats (t : TeamData) : TeamData :=
  let qa := match qual_scores t with [] => qual_avg t | s => average s end in
  let bq := match qual_scores t with [] => best_qual t | s => Py.max_list s end in
  let ea := match elims_scores t with [] => elims_avg t | s => average s end in
  let sa := match combined_skills t with [] => skill_avg t | s => average s end in
  mkTeam (code t) qa bq ea sa (qual_scores t) (elims_scores t)
         (driver_skills t) (programming_skills t) (combined_skills t)
         (best_event_name t) (best_event_score t).



(** Rounding to the nearest integer, ties to even. *)
Definition round_half_even (q : Q) : Z :=
  let f := Qfloor q in
  match Qcompare (q - inject_Z f) (1 # 2) with
  | Lt => f
  | Gt => f + 1
  | Eq => if Z.even f then f else f + 1
  end.

Definition decimal (z : Z) : string := NilZero.string_of_int (Z.to_int z).

(** The format [:.2f] applied to an exact rational. *)
Definition format_2f (q : Q) : string :=
  let c := Z.abs (round_half_even (q * 100)) in
  let cents := c mod 100 in
  (if Qle_bool 0 q then "" else "-")
    ++ decimal (c / 100) ++ "."
    ++ (if (cents <? 10)%Z then "0" else "") ++ decimal cents.

End Stats.

(** ** Best-event tracking *)

Module BestEvent.

(** The running pair [(best_event_name, best_event_score)]. *)
Definition best_state : Type := (string * Z)%type.

Definition initial : best_state := ("", 0).

(** [if score > best_event_score: best_event_score = score;
        best_event_name = event_name]. *)
Definition supersede (st : best_state) (event_name : string) (score : Z)
  : best_state :=
  if score >? snd st then (event_name, score) else st.

(** One event of the loop of vexu-data-accessor-updated.py:
    [if qual_scores: event_best = max(qual_scores); ...]. *)
Definition event_step (st : best_state) (ev : string * list Z) : best_state :=
  match snd ev with
  | [] => st
  | s => supersede st (fst ev) (Py.max_list s)
  end.

Definition run (events : list (string * list Z)) : best_state :=
  fold_left event_step events initial.

(** One event of the loop of final-robotevents-skills-calculator.py: every
    ranking row of the team that carries a "high_score" is offered first, then
    the best qualification score of the matches. *)
Definition event_step_final (st : best_state)
  (ev : string * list Z * list Z) : best_state :=
  let '(name, high_scores, quals) := ev in
  event_step (fold_left (fun s h => supersede s name h) high_scores st)
             (name, quals).

Definition run_final (events : list (string * list Z * list Z)) : best_state :=
  fold_left event_step_final events initial.

(** The best qualification score of an event, when it has one. *)
Definition event_best (ev : string * list Z) : option Z :=
  match snd ev with
  | [] => None
  | s => Some (Py.max_list s)
  end.

(** A score an event offers to the running best, with the event's name. *)
Definition offer : Type := (string * Z)%type.

Definition take (st : best_state) (o : offer) : best_state :=
  supersede st (fst o) (snd o).

(** What an event offers in the loop of vexu-data-accessor-updated.py ... *)
Definition offers (ev : string * list Z) : list offer :=
  match snd ev with
  | [] => []
  | s => [(fst ev, Py.max_list s)]
  end.

(** ... and in the loop of final-robotevents-skills-calculator.py. *)
Definition offers_final (ev : string * list Z * list Z) : list offer :=
  let '(name, high_scores, quals) := ev in
  map (pair name) high_scores ++ offers (name, quals).

(** Two events with the same best qualification score, in both orders. *)
Definition tied : list (string * list Z) := [("Alpha", [50; 20]); ("Beta", [50])].

Definition tied_swapped : list (string * list Z) :=
  [("Beta", [50]); ("Alpha", [50; 20])].

End BestEvent.

(** ** Report builder *)

Inductive sort_field : Type := SkillAvg | QualAvg | BestQual.

Module Report.

(** Insertion before the first element that is not smaller: the ascending
    stable sort Python's [sorted] specifies. *)
Fixpoint insert_by {A : Type} (leb : A -> A -> bool) (x : A) (l : list A)
  : list A :=
  match l with
  | [] => [x]
  | y :: rest => if leb x y then x :: y :: rest else y :: insert_by leb x rest
  end.

Fixpoint sort_by {A : Type} (leb : A -> A -> bool) (l : list A) : list A :=
  match l with
  | [] => []
  | x :: rest => insert_by leb x (sort_by leb rest)
  end.

(** [sorted(l, key=key, reverse=reverse)].  With [reverse=True] CPython
    reverses the list, sorts it stably in ascending order and reverses the
    result, which keeps equal elements in their original order. *)
Definition sorted {A K : Type} (kleb : K -> K -> bool) (key : A -> K)
  (reverse : bool) (l : list A) : list A :=
  let leb := fun a b => kleb (key a) (key b) in
  if reverse then rev (sort_by leb (rev l)) else sort_by leb l.

(** [getattr(t, sort_by)] for the three fields [main] can select. *)
Definition field_key (f : sort_field) (t : TeamData) : Q :=
  match f with
  | SkillAvg => skill_avg t
  | QualAvg => qual_avg t
  | BestQual => inject_Z (best_qual t)
  end.

(** The order in which [generate_spreadsheet(teams, output_file, sort_by)] of
    final-robotevents-skills-calculator.py writes the teams ([teams] is the
    list [teams.values()], in insertion order). *)
Definition sorted_teams (teams : list TeamData) (f : sort_field) : list TeamData :=
  sorted Qle_bool (field_key f) true teams.

(** Tuples compare lexicographically. *)
Definition pair_leb (a b : Q * Q) : bool :=
  negb (Qle_bool (fst b) (fst a))
  || (Qeq_bool (fst a) (fst b) && Qle_bool (snd a) (snd b)).

(** [sort_key] of [generate_spreadsheet] in vexu-data-accessor-updated.py. *)
Definition sort_key (t : TeamData) : Q * Q :=
  if negb (Qle_bool (qual_avg t) 0) then (qual_avg t, skill_avg t)
  else (0%Q, skill_avg t).

(** The order in which vexu-data-accessor-updated.py writes the teams. *)
Definition sorted_teams_updated (teams : list TeamData) : list TeamData :=
  sorted pair_leb sort_key true teams.

(** Two keys neither of which is below the other. *)
Definition same_key {K : Type} (kleb : K -> K -> bool) (a b : K) : bool :=
  kleb a b && kleb b a.

(** Two teams with the same qualification average, in the order in which
    they were entered. *)
Definition team_a : TeamData :=
  mkTeam "1234A" 10%Q 30 0%Q 1%Q [] [] [] [] [] "" 0.

Definition team_b : TeamData :=
  mkTeam "5678B" 10%Q 25 0%Q 5%Q [] [] [] [] [] "" 0.

End Report.

(** ** The plain-text row and its parser (spreadsheet-updater.py)

    A float is rendered by [str] and read back by [float]; the two conversions
    are parameters [float_str] and [float_of_str] of the definitions below. *)

Module Sheet.

(** [str.isspace] on the ASCII range. *)
Definition is_space (c : ascii) : bool :=
  let n := nat_of_ascii c in
  ((9 <=? n) && (n <=? 13) || (28 <=? n) && (n <=? 32))%nat.

Definition is_empty (s : string) : bool :=
  match s with
  | EmptyString => true
  | _ => false
  end.

Fixpoint lstrip (s : string) : string :=
  match s with
  | EmptyString => EmptyString
  | String c s' => if is_space c then lstrip s' else s
  end.

Fixpoint rstrip (s : string) : string :=
  match s with
  | EmptyString => EmptyString
  | String c s' =>
      match rstrip s' with
      | EmptyString => if is_space c then EmptyString else String c EmptyString
      | r => String c r
      end
  end.

(** [s.strip()]. *)
Definition strip (s : string) : string := rstrip (lstrip s).

(** [s.split()] with the word being read in [cur]. *)
Fixpoint split_from (cur : string) (s : string) : list string :=
  match s with
  | EmptyString => if is_empty cur then [] else [cur]
  | String c s' =>
      if is_space c
      then (if is_empty cur then split_from EmptyString s'
            else cur :: split_from EmptyString s')
      else split_from (cur ++ String c EmptyString) s'
  end.

Definition split (s : string) : list string := split_from EmptyString s.

Definition is_letter (c : ascii) : bool :=
  let n := nat_of_ascii c in
  ((65 <=? n) && (n <=? 90) || (97 <=? n) && (n <=? 122))%nat.

(** [re.match(r'^[A-Za-z]+', s)] finds a match. *)
Definition starts_with_letters (s : string) : bool :=
  match s with
  | EmptyString => false
  | String c _ => is_letter c
  end.

(** A non-empty run of decimal digits. *)
Definition digits_value (s : string) : option Z :=
  match s with
  | EmptyString => None
  | _ => option_map Z.of_uint (NilEmpty.uint_of_string s)
  end.

(** An optional sign and decimal digits (the digit-group underscores Python
    also accepts are left out). *)
Definition int_of_word (s : string) : option Z :=
  match s with
  | EmptyString => None
  | String c s' =>
      if Ascii.eqb c "-" then option_map Z.opp (digits_value s')
      else if Ascii.eqb c "+" then digits_value s'
      else digits_value s
  end.

(** [int(s)]: white space around the number is ignored; [None] is a
    [ValueError]. *)
Definition int_of_str (s : string) : option Z := int_of_word (strip s).

(** [str(n)] for an integer. *)
Definition int_str (z : Z) : string := NilZero.string_of_int (Z.to_int z).

(** [format_spreadsheet_row(team, include_event_data)]. *)
Definition format_spreadsheet_row (float_str : Q -> string) (team : TeamData)
  (include_event_data : bool) : string :=
  let sp := " " in
  let c := code team in
  let qa := float_str (qual_avg team) in
  let bq := int_str (best_qual team) in
  let ea := float_str (elims_avg team) in
  let sa := float_str (skill_avg team) in
  if include_event_data then
    c ++ sp ++ qa ++ sp ++ bq ++ sp ++ ea ++ sp ++ sa ++ sp
      ++ c ++ sp ++ bq ++ sp ++ best_event_name team ++ sp
      ++ int_str (best_event_score team) ++ sp
      ++ c ++ sp ++ ea ++ sp ++ c ++ sp ++ ea ++ sp
      ++ c ++ sp ++ sa ++ sp ++ c ++ sp ++ sa
  else
    c ++ sp ++ qa ++ sp ++ bq ++ sp ++ ea ++ sp ++ sa.

(** What the body of the loop of [parse_existing_spreadsheet] does with one
    line. *)
Inductive parsed : Type :=
| NotATeam                          (* [continue] *)
| BadNumber                         (* [ValueError], reported *)
| Team (t : TeamData).

Definition parse_line (float_of_str : string -> option Q) (line : string)
  : parsed :=
  match split (strip line) with
  | p0 :: p1 :: p2 :: p3 :: p4 :: _ =>
      if negb (starts_with_letters p0) then NotATeam
      else
        match float_of_str p1 with
        | None => BadNumber
        | Some qa =>
            match int_of_str p2 with
            | None => BadNumber
            | Some bq =>
                match float_of_str p3 with
                | None => BadNumber
                | Some ea =>
                    match float_of_str p4 with
                    | None => BadNumber
                    | Some sa =>
                        Team (mkTeam p0 qa bq ea sa [] [] [] [] [] "" 0)
                    end
                end
            end
        end
  | _ => NotATeam
  end.

(** [teams[code] = team] on a dict kept in insertion order. *)
Fixpoint dict_set (teams : list (string * TeamData)) (k : string)
  (t : TeamData) : list (string * TeamData) :=
  match teams with
  | [] => [(k, t)]
  | (k', t') :: rest =>
      if String.eqb k k' then (k, t) :: rest else (k', t') :: dict_set rest k t
  end.

(** [parse_existing_spreadsheet] on the lines of the file. *)
Definition parse_existing_spreadsheet (float_of_str : string -> option Q)
  (lines : list string) : list (string * TeamData) :=
  fold_left
    (fun teams line =>
       match parse_line float_of_str line with
       | Team t => dict_set teams (code t) t
       | _ => teams
       end)
    lines [].


(** A word: not empty and free of white space. *)
Fixpoint no_space (s : string) : bool :=
  match s with
  | EmptyString => true
  | String c s' => negb (is_space c) && no_space s'
  end.

Definition is_word (s : string) : bool := negb (is_empty s) && no_space s.



(** A sample pair of conversions, on two values only: the float 20.0 and
    the integer 0 an average holds while its bucket is empty. *)
Definition sample_float_str (q : Q) : string :=
  if Qeq_bool q 20 then "20.0" else "0".

Definition sample_float_of_str (s : string) : option Q :=
  if String.eqb s "20.0" then Some 20%Q
  else if String.eqb s "0" then Some 0%Q
  else None.

(** An aggregate with the statistics 20.0, 30, 0 and 0. *)
Definition sample_team (c : string) : TeamData :=
  mkTeam c 20%Q 30 0%Q 0%Q [10; 20; 30] [] [] [] [] "State Championship" 30.

End Sheet.

(** ** The remote service and the fetchers *)

Module Net.

Inductive endpoint : Type :=
| TeamEvents (team_id : Z)                       (* /teams/{id}/events *)
| EventMatches (event_id : Z)                    (* /events/{id}/matches *)
| EventDivisions (event_id : Z)                  (* /events/{id}/divisions *)
| DivisionMatches (event_id : Z) (division_id : json).
                              (* /events/{id}/divisions/{division}/matches *)

(** The query parameters the fetchers set. *)
Record params : Type := mkParams {
  p_team : option Z;
  p_season : option string;
  p_page : option Z
}.

Record request : Type := mkRequest {
  url : endpoint;
  query : params
}.

Record response : Type := mkResponse {
  status_code : Z;
  retry_after : option string;    (* the Retry-After header, when present *)
  body : option json              (* [None]: [response.json()] raises *)
}.

Inductive reply : Type :=
| ConnectionError                 (* [requests.get] raises *)
| Response (r : response).

(** The service: its reply to the [n]-th request issued (from 0). *)
Definition world : Type := nat -> request -> reply.

(** What a run leaves behind: the number of requests sent and the waits. *)
Record net : Type := mkNet {
  sent : nat;
  slept : list Z
}.

Definition start : net := mkNet 0 [].

Inductive exn : Type := HTTPError | OtherError.

Inductive result (A : Type) : Type :=
| Ok (a : A)
| Raise (e : exn).
Arguments Ok {A} a.
Arguments Raise {A} e.

(** Computations that send requests, wait and may raise. *)
Definition M (A : Type) : Type := net -> result A * net.

Definition ret {A : Type} (a : A) : M A := fun st => (Ok a, st).

Definition raise {A : Type} (e : exn) : M A := fun st => (Raise e, st).

Definition bind {A B : Type} (m : M A) (k : A -> M B) : M B :=
  fun st =>
    match m st with
    | (Ok a, st') => k a st'
    | (Raise e, st') => (Raise e, st')
    end.

(** A dynamic operation of Python: its exception is not an [HTTPError]. *)
Definition lift {A : Type} (o : option A) : M A :=
  match o with
  | Some a => ret a
  | None => raise OtherError
  end.

(** [try: body except ...: handler]. *)
Definition try_except {A : Type} (body : M A) (handler : exn -> M A) : M A :=
  fun st =>
    match body st with
    | (Ok a, st') => (Ok a, st')
    | (Raise e, st') => handler e st'
    end.

Declare Scope net_scope.
Delimit Scope net_scope with net.
Notation "x <- m ;; k" := (bind m (fun x => k))
  (at level 100, m at next level, right associativity) : net_scope.
Local Open Scope net_scope.

(** [requests.get(url, headers=HEADERS, params=params)]. *)
Definition requests_get (w : world) (req : request) : M response :=
  fun st =>
    let st' := mkNet (S (sent st)) (slept st) in
    match w (sent st) req with
    | ConnectionError => (Raise OtherError, st')
    | Response r => (Ok r, st')
    end.

(** [response.raise_for_status()]. *)
Definition raise_for_status (r : response) : M unit :=
  if (400 <=? status_code r) && (status_code r <? 600)
  then raise HTTPError else ret tt.

(** [response.json()]. *)
Definition response_json (r : response) : M json := lift (body r).

(** [time.sleep(t)]: a negative wait is a [ValueError]. *)
Definition sleep (t : Z) : M unit :=
  if t <? 0 then raise OtherError
  else fun st => (Ok tt, mkNet (sent st) (slept st ++ [t])).

(** [int(response.headers.get("Retry-After", 5))]. *)
Definition wait_seconds (r : response) : option Z :=
  match retry_after r with
  | Some s => Sheet.int_of_str s
  | None => Some 5
  end.

(** [params = {}; if team_id: params["team"] = team_id]. *)
Definition team_filter (team_id : option Z) : option Z :=
  match team_id with
  | Some t => if t =? 0 then None else Some t
  | None => None
  end.

(** *** The retrying request of vexu-data-accessor-updated.py *)

(** How one turn of the loop of [api_request] ends. *)
Inductive turn : Type :=
| Return (v : json)              (* [return v]; [JNull] is [None] *)
| Next.                          (* on to the next attempt *)

(** [if attempt < retry_count - 1: time.sleep(2) else: return None]. *)
Definition backoff (retry_count attempt : nat) : M turn :=
  if (Z.of_nat attempt <? Z.of_nat retry_count - 1)
  then (_ <- sleep 2 ;; ret Next)
  else ret (Return JNull).

(** One turn of the loop: the [try] and its two [except] clauses.  The inner
    handler is the clause for [HTTPError], which reads [response]; every other
    exception reaches the outer one. *)
Definition api_attempt (w : world) (req : request) (retry_count attempt : nat)
  : M turn :=
  try_except
    (response <- requests_get w req ;;
     try_except
       (if status_code response =? 429 then
          wait_time <- lift (wait_seconds response) ;;
          _ <- sleep wait_time ;;
          ret Next
        else
          _ <- raise_for_status response ;;
          data <- response_json response ;;
          ret (Return data))
       (fun e =>
          match e with
          | HTTPError =>
              if status_code response =? 404 then ret (Return JNull)
              else backoff retry_count attempt
          | OtherError => raise OtherError
          end))
    (fun _ => backoff retry_count attempt).

(** [for attempt in range(retry_count): ...] followed by [return None]. *)
Fixpoint api_attempts (w : world) (req : request) (retry_count : nat)
  (todo : list nat) (st : net) : json * net :=
  match todo with
  | [] => (JNull, st)
  | attempt :: later =>
      match api_attempt w req retry_count attempt st with
      | (Ok (Return v), st') => (v, st')
      | (Ok Next, st') => api_attempts w req retry_count later st'
      | (Raise _, st') => (JNull, st')
      end
  end.

(** [api_request(url, params, retry_count)]; [JNull] is Python's [None]. *)
Definition api_request (w : world) (req : request) (retry_count : nat)
  (st : net) : json * net :=
  api_attempts w req retry_count (seq 0 retry_count) st.

Definition events_request (team_id : Z) (season_id : string) (page : Z)
  : request :=
  mkRequest (TeamEvents team_id) (mkParams None (Some season_id) (Some page)).

(** [page >= v] for the integer [page]. *)
Definition page_reached (page : Z) (v : json) : option bool :=
  (z <- Py.as_int v ;; Some (page >=? z))%py.

(** [get_team_events(team_id, season_id)] of vexu-data-accessor-updated.py:
    the [while True] loop, entered at [page] with [events] collected.  An
    exception of the body is not caught here.  [None]: the fuel ran out. *)
Fixpoint team_events_loop (fuel : nat) (w : world) (team_id : Z)
  (season_id : string) (page : Z) (events : list json) (st : net)
  : option (result (list json) * net) :=
  match fuel with
  | O => None
  | S fuel' =>
      let (data, st1) := api_request w (events_request team_id season_id page) 3 st in
      if negb (Py.truthy data) then Some (Ok events, st1)
      else
        match bind_opt (Py.get data "data" (JArr [])) Py.iter with
        | None => Some (Raise OtherError, st1)
        | Some items =>
            let events' := events ++ items in
            match bind_opt (bind_opt (Py.getitem data "meta")
                              (fun meta => Py.getitem meta "last_page"))
                           (page_reached page) with
            | None => Some (Raise OtherError, st1)
            | Some true => Some (Ok events', st1)
            | Some false =>
                team_events_loop fuel' w team_id season_id (page + 1) events' st1
            end
        end
  end.

Definition get_team_events_updated (fuel : nat) (w : world) (team_id : Z)
  (season_id : string) (st : net) : option (result (list json) * net) :=
  team_events_loop fuel w team_id season_id 1 [] st.

(** *** The fetchers of final-robotevents-skills-calculator.py *)

(** The part of the loop body of [get_team_events] up to
    [events.extend(data["data"])]: the items of the page and the decoded
    body. *)
Definition fetch_page (w : world) (req : request) : M (list json * json) :=
  response <- requests_get w req ;;
  _ <- raise_for_status response ;;
  data <- response_json response ;;
  items <- lift (bind_opt (Py.getitem data "data") Py.iter) ;;
  ret (items, data).

(** [page >= data["meta"]["last_page"]]. *)
Definition last_page_reached (page : Z) (data : json) : option bool :=
  bind_opt (bind_opt (Py.getitem data "meta")
                     (fun meta => Py.getitem meta "last_page"))
           (page_reached page).

(** [get_team_events(team_id, season_id)]: the whole loop is inside the
    [try], and the handler returns the events collected so far. *)
Fixpoint final_events_loop (fuel : nat) (w : world) (team_id : Z)
  (season_id : string) (page : Z) (events : list json) (st : net)
  : option (list json * net) :=
  match fuel with
  | O => None
  | S fuel' =>
      match fetch_page w (events_request team_id season_id page) st with
      | (Raise _, st1) => Some (events, st1)
      | (Ok (items, data), st1) =>
          let events' := events ++ items in
          match last_page_reached page data with
          | None => Some (events', st1)
          | Some true => Some (events', st1)
          | Some false =>
              final_events_loop fuel' w team_id season_id (page + 1) events' st1
          end
      end
  end.

Definition get_team_events (fuel : nat) (w : world) (team_id : Z)
  (season_id : string) (st : net) : option (list json * net) :=
  final_events_loop fuel w team_id season_id 1 [] st.

(** [range(2, last + 1)]. *)
Definition later_pages (last : Z) : list Z :=
  map (fun i => Z.of_nat i + 2) (seq 0 (Z.to_nat (last - 1))).

(** [l.extend(v)]: [l] must be a list and [v] iterable. *)
Definition extend (l v : json) : option json :=
  match l with
  | JArr items => bind_opt (Py.iter v) (fun more => Some (JArr (items ++ more)))
  | _ => None
  end.

(** [for page in range(2, last + 1): ... matches.extend(...)]. *)
Fixpoint extend_pages (w : world) (page_request : Z -> request)
  (pages : list Z) (found : json) : M json :=
  match pages with
  | [] => ret found
  | page :: later =>
      next_response <- requests_get w (page_request page) ;;
      _ <- raise_for_status next_response ;;
      next <- response_json next_response ;;
      more <- lift (Py.get next "data" (JArr [])) ;;
      found' <- lift (extend found more) ;;
      extend_pages w page_request later found'
  end.

(** ["meta" in data and data["meta"]["last_page"] > 1], with the value of
    [last_page] when the test holds. *)
Definition more_pages (data : json) : option (option Z) :=
  bind_opt (Py.contains "meta" data) (fun has =>
    if negb has then Some None
    else
      bind_opt (bind_opt (Py.getitem data "meta")
                         (fun meta => Py.getitem meta "last_page"))
               (fun v => bind_opt (Py.as_int v) (fun last =>
                  if last >? 1 then Some (Some last) else Some None))).

Definition matches_request (event_id team_id : Z) (page : option Z) : request :=
  mkRequest (EventMatches event_id) (mkParams (Some team_id) None page).

(** [get_team_matches(event_id, team_id)]: what it returns is [matches], or
    the empty list from the handler. *)
Definition get_team_matches (w : world) (event_id team_id : Z) (st : net)
  : json * net :=
  let body :=
    response <- requests_get w (matches_request event_id team_id None) ;;
    _ <- raise_for_status response ;;
    data <- response_json response ;;
    matches <- lift (Py.get data "data" (JArr [])) ;;
    more <- lift (more_pages data) ;;
    match more with
    | Some last =>
        extend_pages w (fun p => matches_request event_id team_id (Some p))
                     (later_pages last) matches
    | None => ret matches
    end in
  match body st with
  | (Ok matches, st') => (matches, st')
  | (Raise _, st') => (JArr [], st')
  end.

(** *** Replies and services used in the statements *)

(** The body of one page of a collection. *)
Definition page_body (items : list json) (last : Z) : json :=
  JObj [("data", JArr items); ("meta", JObj [("last_page", JInt last)])].

Definition page_response (items : list json) (last : Z) : response :=
  mkResponse 200 None (Some (page_body items last)).

(** A reply that makes a fetcher without retries give up: no reply at all, or
    a status [raise_for_status] rejects. *)
Definition failing (rp : reply) : Prop :=
  rp = ConnectionError
  \/ exists r, rp = Response r /\ 400 <= status_code r < 600.

(** From request [n0] on, the service serves the pages [first], [first + 1],
    ... of a team's events, every one announcing [last] pages. *)
Definition serves (w : world) (n0 : nat) (team_id : Z) (season_id : string)
  (first : Z) (pages : list (list json)) (last : Z) : Prop :=
  forall i items,
    nth_error pages i = Some items ->
    w (n0 + i)%nat (events_request team_id season_id (first + Z.of_nat i))
    = Response (page_response items last).

Definition error_response (status : Z) : response := mkResponse status None None.

Definition rate_limited (header : option string) : response :=
  mkResponse 429 header None.

Definition item (n : Z) : json := JObj [("id", JInt n)].

(** A service that serves the first of two pages and then answers 500. *)
Definition second_page_down : world :=
  fun n _ =>
    match n with
    | O => Response (page_response [item 1; item 2] 2)
    | _ => Response (error_response 500)
    end.

(** A service that is rate limited once and then serves the only page. *)
Definition limited_once : world :=
  fun n _ =>
    match n with
    | O => Response (rate_limited (Some "7"))
    | _ => Response (page_response [item 1] 1)
    end.

(** A service that is always rate limited, without a Retry-After header. *)
Definition always_limited : world :=
  fun _ _ => Response (rate_limited None).

End Net.

(** ** Event match resolver (vexu-data-accessor.py) *)

Module Resolver.

Import Net.
Local Open Scope net_scope.

Definition no_params : params := mkParams None None None.

(** A call that handles every exception itself, as a computation. *)
Definition total {A : Type} (f : net -> A * net) : M A :=
  fun st => let (a, st') := f st in (Ok a, st').

(** [get_event_divisions(event_id)]. *)
Definition get_event_divisions (w : world) (event_id : Z) (st : net)
  : json * net :=
  let body :=
    response <- requests_get w (mkRequest (EventDivisions event_id) no_params) ;;
    _ <- raise_for_status response ;;
    data <- response_json response ;;
    lift (Py.get data "data" (JArr [])) in
  match body st with
  | (Ok divisions, st') => (divisions, st')
  | (Raise _, st') => (JArr [], st')
  end.

Definition division_request (event_id : Z) (division_id : json)
  (team_id : option Z) (page : option Z) : request :=
  mkRequest (DivisionMatches event_id division_id)
            (mkParams (team_filter team_id) None page).

(** ["meta" in data and "last_page" in data["meta"]
     and data["meta"]["last_page"] > 1], with the value of [last_page] when
    the test holds. *)
Definition more_pages (data : json) : option (option Z) :=
  bind_opt (Py.contains "meta" data) (fun has_meta =>
    if negb has_meta then Some None
    else
      bind_opt (Py.getitem data "meta") (fun meta =>
        bind_opt (Py.contains "last_page" meta) (fun has_last =>
          if negb has_last then Some None
          else
            bind_opt (Py.getitem meta "last_page") (fun v =>
              bind_opt (Py.as_int v) (fun last =>
                if last >? 1 then Some (Some last) else Some None))))).

(** [get_division_matches(event_id, division_id, team_id)]: the list built in
    [matches], or the empty list from the handler. *)
Definition get_division_matches (w : world) (event_id : Z) (division_id : json)
  (team_id : option Z) (st : net) : json * net :=
  let body :=
    response <- requests_get w (division_request event_id division_id team_id None) ;;
    _ <- raise_for_status response ;;
    data <- response_json response ;;
    first <- lift (Py.get data "data" (JArr [])) ;;
    matches <- lift (extend (JArr []) first) ;;
    more <- lift (more_pages data) ;;
    match more with
    | Some last =>
        extend_pages w
          (fun p => division_request event_id division_id team_id (Some p))
          (later_pages last) matches
    | None => ret matches
    end in
  match body st with
  | (Ok matches, st') => (matches, st')
  | (Raise _, st') => (JArr [], st')
  end.

Definition flat_request (event_id : Z) (team_id : option Z) : request :=
  mkRequest (EventMatches event_id) (mkParams (team_filter team_id) None None).

(** "Approach 1" of [get_event_matches]: [Some matches] when the function
    returns from inside the [try], that is whenever the status is 200 and the
    body decodes; [None] when control falls through to the divisions. *)
Definition flat_attempt (w : world) (event_id : Z) (team_id : option Z)
  : M (option (list json)) :=
  try_except
    (response <- requests_get w (flat_request event_id team_id) ;;
     if status_code response =? 200 then
       data <- response_json response ;;
       items <- lift (bind_opt (Py.get data "data" (JArr [])) Py.iter) ;;
       ret (Some items)
     else ret None)
    (fun _ => ret None).

(** [for division in divisions: ...] with [matches] collected so far.  The
    report line of a non-empty division reads [division['name']]. *)
Fixpoint division_loop (w : world) (event_id : Z) (team_id : option Z)
  (divisions : list json) (matches : list json) : M (list json) :=
  match divisions with
  | [] => ret matches
  | division :: later =>
      division_id <- lift (Py.getitem division "id") ;;
      division_matches <-
        total (get_division_matches w event_id division_id team_id) ;;
      if Py.truthy division_matches then
        _ <- lift (Py.getitem division "name") ;;
        items <- lift (Py.iter division_matches) ;;
        division_loop w event_id team_id later (matches ++ items)
      else division_loop w event_id team_id later matches
  end.

(** [get_event_matches(event_id, team_id)]. *)
Definition get_event_matches (w : world) (event_id : Z) (team_id : option Z)
  : M (list json) :=
  flat <- flat_attempt w event_id team_id ;;
  match flat with
  | Some matches => ret matches
  | None =>
      divisions <- total (get_event_divisions w event_id) ;;
      if Py.truthy divisions then
        items <- lift (Py.iter divisions) ;;
        division_loop w event_id team_id items []
      else ret []
  end.

(** The lists the divisions contribute, in order, each fetched in the state
    its predecessors leave. *)
Fixpoint division_results (w : world) (event_id : Z) (team_id : option Z)
  (division_ids : list json) (st : net) : list json * net :=
  match division_ids with
  | [] => ([], st)
  | division_id :: later =>
      let (found, st1) := get_division_matches w event_id division_id team_id st in
      let (rest, st2) := division_results w event_id team_id later st1 in
      (found :: rest, st2)
  end.

Definition items_of (v : json) : list json :=
  match v with
  | JArr items => items
  | _ => []
  end.

(** A division as the service lists it. *)
Definition division_json (id : Z) (name : string) : json :=
  JObj [("id", JInt id); ("name", JStr name)].

Definition ok_body (items : list json) : response :=
  mkResponse 200 None (Some (JObj [("data", JArr items)])).

Definition numbered (n : nat) (tag : Z) : list json :=
  map (fun i => JObj [("id", JInt (tag + Z.of_nat i))]) (seq 0 n).

(** A service whose event 1 has the divisions 1 and 2, holding 5 and 7
    matches of the team; [flat] is its reply on the flat match listing. *)
Definition two_divisions (flat : response) : world :=
  fun _ req =>
    match url req with
    | EventMatches _ => Response flat
    | EventDivisions _ =>
        Response (ok_body [division_json 1 "Science"; division_json 2 "Technology"])
    | DivisionMatches _ (JInt 1) => Response (ok_body (numbered 5 100))
    | DivisionMatches _ (JInt 2) => Response (ok_body (numbered 7 200))
    | _ => Response (mkResponse 404 None None)
    end.

End Resolver.

(** ** Reading the typed records *)

Module Typed.

(** The alliance lists the team. *)
Definition holds (team_id : Z) (a : alliance) : bool :=
  existsb (fun id => Z.eqb id team_id) (al_teams a).

(** The team is a member of exactly one alliance of the match. *)
Definition in_exactly_one (team_id : Z) (m : match_record) : Prop :=
  List.length (filter (holds team_id) (m_alliances m)) = 1%nat.

(** The first alliance listing the team, with its position counted from [i]. *)
Fixpoint first_side (als : list alliance) (i : nat) (team_id : Z)
  : option (nat * alliance) :=
  match als with
  | [] => None
  | a :: rest =>
      if holds team_id a then Some (i, a) else first_side rest (S i) team_id
  end.

(** The score on the wire: 0 stands in for an absent field. *)
Definition score_or_zero (v : option Z) : Z :=
  match v with
  | Some z => z
  | None => 0
  end.

(** The score of the team's alliance. *)
Definition own_score (team_id : Z) (m : match_record) : json :=
  match first_side (m_alliances m) 0 team_id with
  | Some (_, a) => JInt (score_or_zero (al_score a))
  | None => JInt 0
  end.

(** The round number the classifier reads: 0 when the field is absent. *)
Definition round_of (m : match_record) : Z := score_or_zero (m_round m).

Definition in_qualification_1 (m : match_record) : bool := round_of m =? 1.

Definition in_qualification_12 (m : match_record) : bool :=
  (round_of m =? 1) || (round_of m =? 2).

Definition in_elimination_12 (m : match_record) : bool := round_of m >? 2.

Definition skill_type_eqb (a b : skill_type) : bool :=
  match a, b with
  | TypeTag s, TypeTag s' => String.eqb s s'
  | TypeObj c, TypeObj c' => Z.eqb c c'
  | _, _ => false
  end.

Definition has_type (t : skill_type) (r : skills_record) : bool :=
  skill_type_eqb (sk_type r) t.

Definition skill_points (r : skills_record) : Z := score_or_zero (sk_score r).

(** The scores of the runs of one type, in order. *)
Definition runs_of (t : skill_type) (rs : list skills_record) : list Z :=
  map skill_points (filter (has_type t) rs).

End Typed.

Module Counting.

Import Classifier.

Definition is_unclassified (o : outcome) : bool :=
  match o with
  | Unclassified => true
  | _ => false
  end.

(** The matches the loop with the given body locates and then leaves out of
    both buckets. *)
Definition unclassified_count (body : json -> Z -> option outcome)
  (matches : list json) (team_id : Z) : nat :=
  List.length
    (filter (fun m => is_unclassified (guarded (body m team_id))) matches).

(** Two well-formed matches of team 7: a qualification match and a final. *)
Definition sample_matches : list match_record :=
  [ mkMatch [mkAlliance [7; 3] (Some 30); mkAlliance [8; 9] (Some 10)] (Some 1);
    mkMatch [mkAlliance [4; 5] (Some 12); mkAlliance [7; 6] (Some 25)] (Some 5) ].

(** A match of team 7 whose round number is 0. *)
Definition round_zero_match : match_record :=
  mkMatch [mkAlliance [7; 3] (Some 30); mkAlliance [8; 9] (Some 10)] (Some 0).

End Counting.

Module Samples.

(** A driver run reported with a nested type object, and one with a bare
    tag. *)
Definition object_run : skills_record := mkSkill (TypeObj 1) (Some 50).

Definition tagged_run : skills_record := mkSkill (TypeTag "driver") (Some 40).

(** A qualification match of team 7 whose alliance carries no score. *)
Definition scoreless_match : match_record :=
  mkMatch [mkAlliance [7; 3] None; mkAlliance [8; 9] (Some 10)] (Some 1).

End Samples.

(** ** More of the fetchers *)

Module Paging.

Import Net.

(** A reply that [api_request] answers with its back-off: no reply at all, an
    error status other than 404 and 429, a body that does not decode, or a
    429 whose Retry-After is no non-negative integer. *)
Definition transient (rp : reply) : Prop :=
  match rp with
  | ConnectionError => True
  | Response r =>
      if status_code r =? 429 then
        match wait_seconds r with
        | Some t => t < 0
        | None => True
        end
      else if (400 <=? status_code r) && (status_code r <? 600)
      then status_code r <> 404
      else body r = None
  end.

(** A reply [api_request] returns the body of. *)
Definition delivers (r : response) (data : json) : Prop :=
  status_code r <> 429
  /\ ((400 <=? status_code r) && (status_code r <? 600)) = false
  /\ body r = Some data.

(** A service that announces one more page with every page it serves. *)
Definition endless : world :=
  fun _ req =>
    match p_page (query req) with
    | Some p => Response (page_response [item p] (p + 1))
    | None => Response (page_response [] 2)
    end.

(** The body of a page as a service without paging metadata sends it. *)
Definition bare_body (items : list json) : json := JObj [("data", JArr items)].

(** ["meta" not in data or page >= data["meta"]["last_page"]]. *)
Definition no_more_pages (page : Z) (data : json) : option bool :=
  bind_opt (Py.contains "meta" data) (fun has_meta =>
    if negb has_meta then Some true else last_page_reached page data).

(** [get_division_matches(event_id, division_id, team_id)] of
    vexu-data-accessor-updated.py: the [while True] loop, entered at [page]
    with [matches] collected.  [None]: the fuel ran out. *)
Fixpoint division_matches_loop (fuel : nat) (w : world) (event_id : Z)
  (division_id : json) (team_id : option Z) (page : Z) (matches : list json)
  (st : net) : option (result (list json) * net) :=
  match fuel with
  | O => None
  | S fuel' =>
      let (data, st1) :=
        api_request w
          (Resolver.division_request event_id division_id team_id (Some page))
          3 st in
      if negb (Py.truthy data) then Some (Ok matches, st1)
      else
        match bind_opt (Py.get data "data" (JArr [])) Py.iter with
        | None => Some (Raise OtherError, st1)
        | Some items =>
            let matches' := matches ++ items in
            match no_more_pages page data with
            | None => Some (Raise OtherError, st1)
            | Some true => Some (Ok matches', st1)
            | Some false =>
                division_matches_loop fuel' w event_id division_id team_id
                                      (page + 1) matches' st1
            end
        end
  end.

Definition get_division_matches_updated (fuel : nat) (w : world) (event_id : Z)
  (division_id : json) (team_id : option Z) (st : net)
  : option (result (list json) * net) :=
  division_matches_loop fuel w event_id division_id team_id 1 [] st.

(** From request [n0] on, the service serves the pages of the matches of a
    team at an event: the first request carries no page number, the later
    ones the numbers 2, 3, ... *)
Definition serves_matches (w : world) (n0 : nat) (event_id team_id : Z)
  (first : list json) (rest : list (list json)) (last : Z) : Prop :=
  w n0 (matches_request event_id team_id None)
  = Response (page_response first last)
  /\ forall i items,
       nth_error rest i = Some items ->
       w (S n0 + i)%nat
         (matches_request event_id team_id (Some (Z.of_nat i + 2)))
       = Response (page_response items last).

End Paging.

Module PagingSamples.

Import Net.

(** A service that serves the two pages of a collection. *)
Definition two_pages : world :=
  fun n _ =>
    match n with
    | O => Response (page_response [item 1; item 2] 2)
    | _ => Response (page_response [item 3] 2)
    end.

(** A service that fails twice and then serves the only page. *)
Definition third_time_lucky : world :=
  fun n _ =>
    match n with
    | O => ConnectionError
    | S O => Response (error_response 503)
    | _ => Response (page_response [item 1] 1)
    end.

(** A service that serves one page without paging metadata. *)
Definition no_meta : world :=
  fun _ _ => Response (mkResponse 200 None (Some (Paging.bare_body [item 1]))).

End PagingSamples.

(** ** The other score classifiers *)

Module Variants.

Import Classifier.

(** Body of the [try] of [extract_scores_from_matches] in
    vexu-data-accessor.py: the guard on the alliances of the updated accessor
    with the round test of the calculator. *)
Definition match_body_vexu (m : json) (team_id : Z) : option outcome :=
  has <- Py.contains "alliances" m ;;
  if negb has then Some Skipped
  else
    alls <- Py.getitem m "alliances" ;;
    n <- Py.len alls ;;
    if (n <? 2)%nat then Some Skipped
    else
      als <- Py.iter alls ;;
      side <- find_alliance als 0 team_id ;;
      match side with
      | None => Some Skipped
      | Some i =>
          a <- Py.index alls i ;;
          score <- Py.get a "score" (JInt 0) ;;
          round_num <- Py.get m "round" (JInt 0) ;;
          round_policy_1 round_num score
      end.

(** [extract_scores_from_matches(matches, team_id)] of vexu-data-accessor.py. *)
Definition extract_scores_from_matches_vexu (matches : list json) (team_id : Z)
  : list json * list json :=
  let os := map (fun m => guarded (match_body_vexu m team_id)) matches in
  (collect Qualification os, collect Elimination os).

(** The match is an object whose "alliances" has two entries or more. *)
Definition has_two_alliances (m : json) : bool :=
  match m with
  | JObj fields =>
      match Py.assoc "alliances" fields with
      | Some alls =>
          match Py.len alls with
          | Some n => (2 <=? n)%nat
          | None => false
          end
      | None => false
      end
  | _ => false
  end.

(** What an operation of Python raises, as far as a handler for
    [(KeyError, IndexError)] tells the exceptions apart. *)
Inductive exc : Type := KeyError | IndexError | TypeError.

Inductive res (A : Type) : Type :=
| Got (a : A)
| Exc (e : exc).
Arguments Got {A} a.
Arguments Exc {A} e.

Definition and_then {A B : Type} (m : res A) (k : A -> res B) : res B :=
  match m with
  | Got a => k a
  | Exc e => Exc e
  end.

(** [d[k]] with a string key. *)
Definition getitem (d : json) (k : string) : res json :=
  match d with
  | JObj fields =>
      match Py.assoc k fields with
      | Some v => Got v
      | None => Exc KeyError
      end
  | _ => Exc TypeError
  end.

(** [v[i]] with a non-negative integer index. *)
Definition index (v : json) (i : nat) : res json :=
  match v with
  | JArr items =>
      match nth_error items i with
      | Some x => Got x
      | None => Exc IndexError
      end
  | JStr s =>
      match nth_error (Py.chars s) i with
      | Some x => Got x
      | None => Exc IndexError
      end
  | JObj _ => Exc KeyError
  | _ => Exc TypeError
  end.

Definition iter (v : json) : res (list json) :=
  match Py.iter v with
  | Some items => Got items
  | None => Exc TypeError
  end.

(** [[t["id"] for t in teams]]. *)
Fixpoint ids_of (teams : list json) : res (list json) :=
  match teams with
  | [] => Got []
  | t :: rest =>
      and_then (getitem t "id") (fun id =>
        and_then (ids_of rest) (fun ids => Got (id :: ids)))
  end.

(** [[t["id"] for t in match["alliances"][i]["teams"]]]. *)
Definition side_ids (m : json) (i : nat) : res (list json) :=
  and_then (getitem m "alliances") (fun alls =>
    and_then (index alls i) (fun a =>
      and_then (getitem a "teams") (fun teams =>
        and_then (iter teams) ids_of))).

(** [team_id in ids]. *)
Definition member (team_id : Z) (ids : list json) : bool :=
  existsb (fun id => Py.eq_int id team_id) ids.

(** Body of the [try] of [extract_scores] (spreadsheet-updater.py and
    skills-focused-updater.py). *)
Definition red_blue_body (m : json) (team_id : Z) : res outcome :=
  and_then (side_ids m 0) (fun red_teams =>
    and_then (side_ids m 1) (fun blue_teams =>
      let team_on_red := member team_id red_teams in
      let team_on_blue := member team_id blue_teams in
      if negb (team_on_red || team_on_blue) then Got Skipped
      else
        let alliance_idx := if team_on_red then 0%nat else 1%nat in
        and_then (getitem m "alliances") (fun alls =>
          and_then (index alls alliance_idx) (fun a =>
            and_then (getitem a "score") (fun score =>
              and_then (getitem m "round") (fun round_num =>
                if Py.eq_int round_num 1 then Got (Scored Qualification score)
                else Got (Scored Elimination score))))))).

(** [extract_scores(matches, team_id)]: the handler takes [KeyError] and
    [IndexError] only.  [None]: another exception leaves the function. *)
Fixpoint extract_scores (matches : list json) (team_id : Z)
  : option (list json * list json) :=
  match matches with
  | [] => Some ([], [])
  | m :: rest =>
      match red_blue_body m team_id with
      | Exc TypeError => None
      | r =>
          let o := match r with Got o => o | Exc _ => Raised end in
          match extract_scores rest team_id with
          | Some (quals, elims) =>
              Some (appended Qualification o ++ quals,
                    appended Elimination o ++ elims)
          | None => None
          end
      end
  end.

(** Body of the loop of [extract_skills_scores] (spreadsheet-updater.py):
    [if "score" in skill: scores.append(skill["score"])], every exception
    caught. *)
Definition skill_score_of (skill : json) : list json :=
  match Py.contains "score" skill with
  | Some true =>
      match Py.getitem skill "score" with
      | Some v => [v]
      | None => []
      end
  | _ => []
  end.

Definition extract_skills_scores (skills : list json) : list json :=
  flat_map skill_score_of skills.

(** The score [extract_scores] finds for a typed match: that of the first
    alliance if it lists the team, else that of the second if that one does,
    provided the score and the round are on the wire. *)
Definition red_blue_score (team_id : Z) (m : match_record) : option (bucket * Z) :=
  match m_alliances m, m_round m with
  | red :: blue :: _, Some r =>
      let b := if r =? 1 then Qualification else Elimination in
      if Typed.holds team_id red then option_map (pair b) (al_score red)
      else if Typed.holds team_id blue then option_map (pair b) (al_score blue)
      else None
  | _, _ => None
  end.

Definition scores_in (b : bucket) (team_id : Z) (ms : list match_record)
  : list json :=
  flat_map (fun m =>
              match red_blue_score team_id m, b with
              | Some (Qualification, s), Qualification => [JInt s]
              | Some (Elimination, s), Elimination => [JInt s]
              | _, _ => []
              end) ms.

End Variants.

(** ** More of the sheet and of the entry script *)

Module SheetMore.

Import Sheet.


(** [teams.get(code)] on the dict [parse_existing_spreadsheet] builds. *)
Fixpoint dict_get (teams : list (string * TeamData)) (k : string)
  : option TeamData :=
  match teams with
  | [] => None
  | (k', t) :: rest => if String.eqb k k' then Some t else dict_get rest k
  end.

(** An entry as the parser makes it: filed under its own code, which begins
    with a letter, and with nothing but the four statistics set. *)
Definition parsed_entry (kt : string * TeamData) : Prop :=
  code (snd kt) = fst kt
  /\ starts_with_letters (fst kt) = true
  /\ qual_scores (snd kt) = [] /\ elims_scores (snd kt) = []
  /\ combined_skills (snd kt) = []
  /\ best_event_name (snd kt) = "" /\ best_event_score (snd kt) = 0.

(** [s.split(sep)] for a separator of one character, with the piece being
    read in [cur]. *)
Fixpoint split_on_from (sep : ascii) (cur : string) (s : string) : list string :=
  match s with
  | EmptyString => [cur]
  | String c s' =>
      if Ascii.eqb c sep then cur :: split_on_from sep EmptyString s'
      else split_on_from sep (cur ++ String c EmptyString) s'
  end.

Definition split_on (sep : ascii) (s : string) : list string :=
  split_on_from sep EmptyString s.

(** [[code.strip() for code in teams_input.split(",")]] of [main]. *)
Definition team_codes (teams_input : string) : list string :=
  map strip (split_on "," teams_input).

Fixpoint no_comma (s : string) : bool :=
  match s with
  | EmptyString => true
  | String c s' => negb (Ascii.eqb c ",") && no_comma s'
  end.

(** [format_spreadsheet_row(team)] of vexu-data-accessor-updated.py: the
    averages with two decimals, and no event columns. *)
Definition format_spreadsheet_row_updated (team : TeamData) : string :=
  let sp := " " in
  let c := code team in
  let qa := Stats.format_2f (qual_avg team) in
  let bq := int_str (best_qual team) in
  let ea := Stats.format_2f (elims_avg team) in
  let sa := Stats.format_2f (skill_avg team) in
  c ++ sp ++ qa ++ sp ++ bq ++ sp ++ ea ++ sp ++ sa ++ sp
    ++ c ++ sp ++ bq ++ sp ++ c ++ sp ++ bq ++ sp
    ++ c ++ sp ++ ea ++ sp ++ c ++ sp ++ ea ++ sp
    ++ c ++ sp ++ sa ++ sp ++ c ++ sp ++ sa.

End SheetMore.

Module SheetSamples.


End SheetSamples.

Module MoreSamples.

(** Three teams as the updated accessor may have to order them. *)
Definition no_matches : TeamData :=
  mkTeam "11A" 0%Q 0 0%Q 90%Q [] [] [] [] [90] "" 0.

Definition three_teams : list TeamData :=
  [MoreSamples.no_matches; Report.team_a; Report.team_b].


End MoreSamples.

(** ** The aggregation loop of the accessors *)

Module Aggregate.

(** An event of the listing, as far as the loop reads it. *)
Record event_ref : Type := mkEvent {
  ev_id : Z;
  ev_name : string;
  ev_start : option string;       (* [None]: the "start" field is absent *)
  ev_end : option string          (* [None]: the "end" field is absent *)
}.

Definition text_or_empty (v : option string) : json :=
  match v with
  | Some s => JStr s
  | None => JStr ""
  end.

(** The dict appended to [team.events]. *)
Definition stored_event (e : event_ref) : json :=
  JObj [("id", JInt (ev_id e)); ("name", JStr (ev_name e));
        ("start_date", text_or_empty (ev_start e));
        ("end_date", text_or_empty (ev_end e))].

(** An event with what [get_event_matches] and [get_team_skills] returned
    for it. *)
Record fetched : Type := mkFetched {
  f_event : event_ref;
  f_matches : list json;
  f_skills : list json
}.

(** The [TeamData] of the accessors: the statistics and the events. *)
Record accessor_team : Type := mkAccessor {
  stats : TeamData;
  events : list json
}.

Definition with_scores (t : TeamData) (quals elims : list Z) : TeamData :=
  mkTeam (code t) (qual_avg t) (best_qual t) (elims_avg t) (skill_avg t)
         (qual_scores t ++ quals) (elims_scores t ++ elims)
         (driver_skills t) (programming_skills t) (combined_skills t)
         (best_event_name t) (best_event_score t).

Definition with_best_event (t : TeamData) (name : string) (score : Z) : TeamData :=
  mkTeam (code t) (qual_avg t) (best_qual t) (elims_avg t) (skill_avg t)
         (qual_scores t) (elims_scores t)
         (driver_skills t) (programming_skills t) (combined_skills t)
         name score.

Definition with_skills (t : TeamData) (drivers programmings combined : list Z)
  : TeamData :=
  mkTeam (code t) (qual_avg t) (best_qual t) (elims_avg t) (skill_avg t)
         (qual_scores t) (elims_scores t)
         (driver_skills t ++ drivers) (programming_skills t ++ programmings)
         (combined_skills t ++ combined)
         (best_event_name t) (best_event_score t).

(** The block [if matches: ...] of the loop, with the classifier of the
    script.  [None]: a score that is no number, which makes [max], [>] or the
    [sum] of the final statistics raise a [TypeError] nothing catches. *)
Definition absorb_matches
  (extract : list json -> Z -> list json * list json) (team_id : Z)
  (t : TeamData) (event_name : string) (matches : list json)
  : option TeamData :=
  match matches with
  | [] => Some t
  | _ =>
      let (qual_json, elims_json) := extract matches team_id in
      quals <- Py.all_ints qual_json ;;
      elims <- Py.all_ints elims_json ;;
      let t1 := with_scores t quals elims in
      match quals with
      | [] => Some t1
      | _ =>
          let event_best := Py.max_list quals in
          if event_best >? best_event_score t1
          then Some (with_best_event t1 event_name event_best)
          else Some t1
      end
  end.

(** The block [if skills: ...] of the loop. *)
Definition absorb_skills (t : TeamData) (skills : list json) : option TeamData :=
  match skills with
  | [] => Some t
  | _ =>
      let (driver_json, programming_json) := Skills.classify skills in
      drivers <- Py.all_ints driver_json ;;
      programmings <- Py.all_ints programming_json ;;
      Some (with_skills t drivers programmings
              (Skills.combined_entries drivers programmings))
  end.

(** One turn of [for event in events:]. *)
Definition process_event
  (extract : list json -> Z -> list json * list json) (team_id : Z)
  (a : accessor_team) (f : fetched) : option accessor_team :=
  let evs := events a ++ [stored_event (f_event f)] in
  t1 <- absorb_matches extract team_id (stats a) (ev_name (f_event f))
          (f_matches f) ;;
  t2 <- absorb_skills t1 (f_skills f) ;;
  Some (mkAccessor t2 evs).

Fixpoint process_events
  (extract : list json -> Z -> list json * list json) (team_id : Z)
  (a : accessor_team) (fs : list fetched) : option accessor_team :=
  match fs with
  | [] => Some a
  | f :: rest =>
      a' <- process_event extract team_id a f ;;
      process_events extract team_id a' rest
  end.

(** [process_team_data] from the listing of the events on: the loop and the
    final statistics. *)
Definition aggregate
  (extract : list json -> Z -> list json * list json) (team_id : Z)
  (team_code : string) (fs : list fetched) : option accessor_team :=
  a <- process_events extract team_id (mkAccessor (new_team team_code) []) fs ;;
  Some (mkAccessor (Stats.calculate_stats (stats a)) (events a)).

(** What the loop keeps true of the statistics: the summary fields are still
    unset, and the best event is the best qualification score so far, taken
    from one of the events seen. *)
Definition tracked (names : list string) (t : TeamData) : Prop :=
  best_qual t = 0
  /\ best_event_score t = Z.max 0 (Skills.best (qual_scores t))
  /\ (best_event_score t = 0 -> best_event_name t = "")
  /\ (0 < best_event_score t -> In (best_event_name t) names).

(** A qualification match of team 7 with the given score. *)
Definition qualification_of (score : Z) : json :=
  match_json (mkMatch [mkAlliance [7] (Some score); mkAlliance [8] (Some 0)]
                      (Some 1)).

(** Two events of team 7. *)
Definition two_events : list fetched :=
  [ mkFetched (mkEvent 1 "Kickoff" None None)
              [qualification_of 20; qualification_of 35] [];
    mkFetched (mkEvent 2 "State" (Some "2025-03-01") None)
              [qualification_of 30]
              [skill_json (mkSkill (TypeTag "driver") (Some 40))] ].

End Aggregate.

(** * Properties *)

(** ** Score classifier *)

Section ClassifierFacts.

Import Classifier Typed.

Variable team_id : Z.

Lemma team_in_encoded (ids : list Z) :
  team_in (map team_json ids) team_id
  = Some (existsb (fun id => Z.eqb id team_id) ids).
Proof.
  induction ids as [|id ids IH]; [reflexivity|].
  cbn [map team_in existsb]. unfold team_json at 1. cbn.
  unfold Py.eq_int; cbn. destruct (id =? team_id); [reflexivity|exact IH].
Qed.

Lemma get_teams_encoded (a : alliance) :
  Py.get (alliance_json a) "teams" (JArr [])
  = Some (JArr (map team_json (al_teams a))).
Proof. reflexivity. Qed.

Lemma get_score_encoded (a : alliance) :
  Py.get (alliance_json a) "score" (JInt 0)
  = Some (JInt (score_or_zero (al_score a))).
Proof. destruct a as [ts [z|]]; reflexivity. Qed.

Lemma get_round_encoded (m : match_record) :
  Py.get (match_json m) "round" (JInt 0) = Some (JInt (round_of m)).
Proof. destruct m as [als [z|]]; reflexivity. Qed.

Lemma find_alliance_encoded (als : list alliance) (i : nat) :
  find_alliance (map alliance_json als) i team_id
  = Some (option_map fst (first_side als i team_id)).
Proof.
  revert i; induction als as [|a als IH]; intro i; [reflexivity|].
  cbn [map find_alliance first_side].
  rewrite get_teams_encoded. cbn [bind_opt Py.iter].
  rewrite team_in_encoded. cbn [bind_opt].
  unfold holds. destruct (existsb _ (al_teams a)); [reflexivity|apply IH].
Qed.

Lemma first_side_nth (als : list alliance) (i j : nat) (a : alliance) :
  first_side als i team_id = Some (j, a) ->
  (i <= j)%nat /\ nth_error als (j - i) = Some a.
Proof.
  revert i; induction als as [|b als IH]; intros i H; [discriminate|].
  cbn in H. destruct (holds team_id b).
  - injection H as <- <-. split; [lia|]. now rewrite Nat.sub_diag.
  - apply IH in H as [Hle Hn]. split; [lia|].
    replace (j - i)%nat with (S (j - S i)) by lia. exact Hn.
Qed.

Lemma first_side_found (als : list alliance) (i : nat) :
  (0 < List.length (filter (holds team_id) als))%nat ->
  exists j a, first_side als i team_id = Some (j, a).
Proof.
  revert i; induction als as [|b als IH]; intros i H; [cbn in H; lia|].
  cbn in *. destruct (holds team_id b); [now eauto|]. now apply IH.
Qed.

(** The body of the first classifier on a well-formed match whose team is
    found. *)
Lemma match_body_located (m : match_record) (j : nat) (a : alliance) :
  first_side (m_alliances m) 0 team_id = Some (j, a) ->
  match_body (match_json m) team_id
  = Some (Scored (if in_qualification_1 m then Qualification else Elimination)
                 (own_score team_id m)).
Proof.
  intro H. unfold match_body, own_score. rewrite H.
  change (Py.get (match_json m) "alliances" (JArr []))
    with (Some (JArr (map alliance_json (m_alliances m)))).
  cbn [bind_opt Py.iter]. rewrite find_alliance_encoded, H. cbn [option_map fst bind_opt].
  change (Py.getitem (match_json m) "alliances")
    with (Some (JArr (map alliance_json (m_alliances m)))).
  cbn [bind_opt Py.index]. rewrite nth_error_map.
  apply first_side_nth in H as [_ Hn]. rewrite Nat.sub_0_r in Hn. rewrite Hn.
  cbn [option_map bind_opt]. rewrite get_score_encoded. cbn [bind_opt].
  rewrite get_round_encoded. cbn [bind_opt].
  unfold round_policy_1, in_qualification_1, Py.eq_int. cbn.
  now destruct (round_of m =? 1).
Qed.

(** The body of the second classifier on a well-formed match with two
    alliances or more whose team is found. *)
Lemma match_body_updated_located (m : match_record) (j : nat) (a : alliance) :
  (2 <= List.length (m_alliances m))%nat ->
  first_side (m_alliances m) 0 team_id = Some (j, a) ->
  match_body_updated (match_json m) team_id
  = Some (if in_qualification_12 m then Scored Qualification (own_score team_id m)
          else if in_elimination_12 m then Scored Elimination (own_score team_id m)
          else Unclassified).
Proof.
  intros Hlen H. unfold match_body_updated, own_score. rewrite H.
  change (Py.contains "alliances" (match_json m)) with (Some true).
  cbn [bind_opt negb].
  change (Py.getitem (match_json m) "alliances")
    with (Some (JArr (map alliance_json (m_alliances m)))).
  cbn [bind_opt Py.len Py.iter]. rewrite length_map.
  destruct (Nat.ltb_spec (List.length (m_alliances m)) 2) as [Hlt|_]; [lia|].
  rewrite find_alliance_encoded, H. cbn [option_map fst bind_opt Py.index].
  rewrite nth_error_map.
  apply first_side_nth in H as [_ Hn]. rewrite Nat.sub_0_r in Hn. rewrite Hn.
  cbn [option_map bind_opt]. rewrite get_score_encoded. cbn [bind_opt].
  rewrite get_round_encoded. cbn [bind_opt].
  unfold round_policy_12, in_qualification_12, in_elimination_12, Py.eq_int, Py.gt_int.
  cbn. destruct ((round_of m =? 1) || (round_of m =? 2)); [reflexivity|].
  now destruct (round_of m >? 2).
Qed.

End ClassifierFacts.

Section ClassifierLists.

Import Classifier Typed Counting.

Variable team_id : Z.

Lemma partition_lengths (os : list outcome) :
  (List.length (collect Qualification os) + List.length (collect Elimination os)
   + List.length (filter is_skipped os)
   + List.length (filter is_unclassified os) = List.length os)%nat.
Proof.
  induction os as [|o os IH]; [reflexivity|].
  unfold collect in *. cbn [flat_map filter]. rewrite !length_app.
  destruct o as [| | |[|] s]; cbn; lia.
Qed.

Lemma filter_map_length {A B : Type} (f : A -> B) (p : B -> bool) (l : list A) :
  List.length (filter p (map f l)) = List.length (filter (fun a => p (f a)) l).
Proof.
  induction l as [|a l IH]; [reflexivity|].
  cbn. destruct (p (f a)); cbn; now rewrite IH.
Qed.

Lemma round_policy_1_classifies (round_num score : json) (o : outcome) :
  round_policy_1 round_num score = Some o -> is_unclassified o = false.
Proof.
  unfold round_policy_1. destruct (Py.eq_int round_num 1); now intros [= <-].
Qed.

Lemma match_body_classifies (m : json) :
  is_unclassified (guarded (match_body m team_id)) = false.
Proof.
  unfold match_body.
  destruct (Py.get m "alliances" (JArr [])) as [alliances|]; [|reflexivity].
  cbn [bind_opt]. destruct (Py.iter alliances) as [als|]; [|reflexivity].
  cbn [bind_opt]. destruct (find_alliance als 0 team_id) as [[i|]|]; try reflexivity.
  cbn [bind_opt]. destruct (Py.getitem m "alliances") as [alls|]; [|reflexivity].
  cbn [bind_opt]. destruct (Py.index alls i) as [a|]; [|reflexivity].
  cbn [bind_opt]. destruct (Py.get a "score" (JInt 0)) as [score|]; [|reflexivity].
  cbn [bind_opt]. destruct (Py.get m "round" (JInt 0)) as [round_num|]; [|reflexivity].
  cbn [bind_opt]. destruct (round_policy_1 round_num score) as [o|] eqn:E; [|reflexivity].
  cbn. now apply round_policy_1_classifies in E.
Qed.

Lemma none_unclassified (matches : list json) :
  List.length
    (filter (fun m => is_unclassified (guarded (match_body m team_id))) matches)
  = 0%nat.
Proof.
  induction matches as [|m ms IH]; [reflexivity|].
  cbn [filter]. now rewrite match_body_classifies.
Qed.

(** Whatever the input, every match is in one bucket or was skipped. *)
Lemma extract_match_scores_lengths (matches : list json) :
  (List.length (fst (extract_match_scores matches team_id))
   + List.length (snd (extract_match_scores matches team_id))
   = List.length matches - skipped_count match_body matches team_id)%nat.
Proof.
  unfold extract_match_scores, skipped_count. cbn [fst snd].
  pose proof (partition_lengths (map (fun m => guarded (match_body m team_id)) matches)) as H.
  rewrite length_map, !filter_map_length in H.
  rewrite none_unclassified in H. lia.
Qed.

(** The same count for the second classifier, which can also leave a located
    match out of both buckets. *)
Lemma extract_scores_from_matches_lengths (matches : list json) :
  (List.length (fst (extract_scores_from_matches matches team_id))
   + List.length (snd (extract_scores_from_matches matches team_id))
   = List.length matches - skipped_count match_body_updated matches team_id
     - unclassified_count match_body_updated matches team_id)%nat.
Proof.
  unfold extract_scores_from_matches, skipped_count, unclassified_count. cbn [fst snd].
  pose proof (partition_lengths
                (map (fun m => guarded (match_body_updated m team_id)) matches)) as H.
  rewrite length_map, !filter_map_length in H. lia.
Qed.

Lemma located_of_exactly_one (m : match_record) :
  in_exactly_one team_id m ->
  exists j a, first_side (m_alliances m) 0 team_id = Some (j, a).
Proof.
  unfold in_exactly_one. intro H. apply first_side_found. lia.
Qed.

Lemma extract_match_scores_typed (ms : list match_record) :
  Forall (in_exactly_one team_id) ms ->
  extract_match_scores (map match_json ms) team_id
  = (map (own_score team_id) (filter in_qualification_1 ms),
     map (own_score team_id) (filter (fun m => negb (in_qualification_1 m)) ms)).
Proof.
  unfold extract_match_scores. rewrite map_map.
  induction 1 as [|m ms Hm _ IH]; [reflexivity|].
  destruct (located_of_exactly_one m Hm) as (j & a & Hloc).
  cbn [map filter]. rewrite (match_body_located team_id m j a Hloc).
  injection IH as IHq IHe. unfold collect in *. cbn [flat_map guarded].
  rewrite IHq, IHe. now destruct (in_qualification_1 m).
Qed.

Lemma extract_scores_from_matches_typed (ms : list match_record) :
  Forall (in_exactly_one team_id) ms ->
  Forall (fun m => (2 <= List.length (m_alliances m))%nat) ms ->
  extract_scores_from_matches (map match_json ms) team_id
  = (map (own_score team_id) (filter in_qualification_12 ms),
     map (own_score team_id) (filter in_elimination_12 ms)).
Proof.
  unfold extract_scores_from_matches. rewrite map_map.
  induction 1 as [|m ms Hm _ IH]; intro H2; [reflexivity|].
  inversion H2 as [|? ? Hlen H2']; subst.
  destruct (located_of_exactly_one m Hm) as (j & a & Hloc).
  cbn [map filter]. rewrite (match_body_updated_located team_id m j a Hlen Hloc).
  specialize (IH H2'). injection IH as IHq IHe. unfold collect in *.
  cbn [flat_map guarded]. rewrite IHq, IHe.
  unfold in_qualification_12, in_elimination_12.
  destruct ((round_of m =? 1) || (round_of m =? 2)) eqn:Eq.
  - replace (round_of m >? 2) with false by lia. reflexivity.
  - now destruct (round_of m >? 2).
Qed.

End ClassifierLists.

(** C2 (amended).  For matches in each of which the team is a member of
    exactly one alliance, the calculator's classifier puts the alliance's
    score into the qualification bucket iff the round number is 1 and into the
    elimination bucket iff it is anything else (0 when the field is absent), so
    the two buckets hold one score per match; the updated accessor's
    classifier, on matches with two alliances or more, puts it into the
    qualification bucket iff the round is 1 or 2, into the elimination bucket
    iff it is above 2, and into neither otherwise.  On any input the bucket
    lengths add up to the input length minus the skipped matches (and, for
    the updated classifier, minus the located matches left unclassified). *)
Theorem classification_by_round (team_id : Z) (ms : list match_record) :
  Forall (Typed.in_exactly_one team_id) ms ->
  Classifier.extract_match_scores (map match_json ms) team_id
  = (map (Typed.own_score team_id) (filter Typed.in_qualification_1 ms),
     map (Typed.own_score team_id)
         (filter (fun m => negb (Typed.in_qualification_1 m)) ms))
  /\ (Forall (fun m => (2 <= List.length (m_alliances m))%nat) ms ->
      Classifier.extract_scores_from_matches (map match_json ms) team_id
      = (map (Typed.own_score team_id) (filter Typed.in_qualification_12 ms),
         map (Typed.own_score team_id) (filter Typed.in_elimination_12 ms)))
  /\ (forall matches : list json,
        (List.length (fst (Classifier.extract_match_scores matches team_id))
         + List.length (snd (Classifier.extract_match_scores matches team_id))
         = List.length matches
           - Classifier.skipped_count Classifier.match_body matches team_id)%nat)
  /\ (forall matches : list json,
        (List.length (fst (Classifier.extract_scores_from_matches matches team_id))
         + List.length (snd (Classifier.extract_scores_from_matches matches team_id))
         = List.length matches
           - Classifier.skipped_count Classifier.match_body_updated matches team_id
           - Counting.unclassified_count Classifier.match_body_updated matches team_id)%nat).
Proof.
  intro H. split; [|split; [|split]].
  - now apply extract_match_scores_typed.
  - intro H2. now apply extract_scores_from_matches_typed.
  - apply extract_match_scores_lengths.
  - apply extract_scores_from_matches_lengths.
Qed.

Lemma classification_by_round_witness :
  Forall (Typed.in_exactly_one 7) Counting.sample_matches
  /\ Classifier.extract_match_scores (map match_json Counting.sample_matches) 7
     = ([JInt 30], [JInt 25]).
Proof.
  assert (H : Forall (Typed.in_exactly_one 7) Counting.sample_matches)
    by (repeat constructor).
  split; [exact H|].
  exact (proj1 (classification_by_round 7 Counting.sample_matches H)).
Defined.

(** C2, as stated, fails: a match of team 7 with round number 0 goes to the
    elimination bucket of the first classifier although 0 is not above 1, and
    to neither bucket of the second although it is not skipped as malformed. *)
Lemma classification_round_zero :
  Typed.in_exactly_one 7 Counting.round_zero_match
  /\ Typed.round_of Counting.round_zero_match = 0
  /\ Classifier.extract_match_scores [match_json Counting.round_zero_match] 7
     = ([], [JInt 30])
  /\ Classifier.extract_scores_from_matches [match_json Counting.round_zero_match] 7
     = ([], [])
  /\ Classifier.skipped_count Classifier.match_body_updated
       [match_json Counting.round_zero_match] 7 = 0%nat.
Proof. repeat split. Qed.

(** ** Maxima, sums and means *)




Lemma fold_add_shift (l : list Z) (x : Z) :
  fold_left Z.add l x = x + fold_left Z.add l 0.
Proof.
  revert x; induction l as [|a l IH]; intro x; cbn; [lia|].
  rewrite (IH (x + a)), (IH a). lia.
Qed.

Lemma sum_list_cons (x : Z) (l : list Z) :
  Py.sum_list (x :: l) = x + Py.sum_list l.
Proof. unfold Py.sum_list. cbn. apply fold_add_shift. Qed.

Lemma sum_list_app (l l' : list Z) :
  Py.sum_list (l ++ l') = Py.sum_list l + Py.sum_list l'.
Proof.
  induction l as [|a l IH]; [reflexivity|].
  cbn [app]. rewrite !sum_list_cons, IH. lia.
Qed.

Lemma sum_list_nonneg (l : list Z) :
  Forall (fun x => 0 <= x) l -> 0 <= Py.sum_list l.
Proof.
  induction 1 as [|x l Hx _ IH]; [reflexivity|]. rewrite sum_list_cons. lia.
Qed.


(** ** Skills classifier *)

Section SkillsFacts.

Import Skills Typed.

Lemma skill_body_encoded (r : skills_record) :
  guarded (skill_body (skill_json r))
  = if has_type (TypeTag "driver") r then Driver (JInt (skill_points r))
    else if has_type (TypeTag "programming") r then Programming (JInt (skill_points r))
    else SkillSkipped.
Proof.
  destruct r as [[tag|c] sc]; unfold skill_body, has_type, skill_points.
  - replace (Py.get (skill_json (mkSkill (TypeTag tag) sc)) "type" JNull)
      with (Some (JStr tag)) by reflexivity.
    replace (Py.get (skill_json (mkSkill (TypeTag tag) sc)) "score" (JInt 0))
      with (Some (JInt (score_or_zero sc))) by (destruct sc; reflexivity).
    cbn. destruct (tag =? "driver")%string; [reflexivity|].
    now destruct (tag =? "programming")%string.
  - replace (Py.get (skill_json (mkSkill (TypeObj c) sc)) "score" (JInt 0))
      with (Some (JInt (score_or_zero sc))) by (destruct sc; reflexivity).
    reflexivity.
Qed.

Lemma skill_body_focused_encoded (r : skills_record) :
  guarded (skill_body_focused (skill_json r))
  = if has_type (TypeObj 1) r then Driver (JInt (skill_points r))
    else if has_type (TypeObj 2) r then Programming (JInt (skill_points r))
    else SkillSkipped.
Proof.
  destruct r as [[tag|c] sc]; unfold skill_body_focused, has_type, skill_points.
  - replace (Py.get (skill_json (mkSkill (TypeTag tag) sc)) "score" (JInt 0))
      with (Some (JInt (score_or_zero sc))) by (destruct sc; reflexivity).
    reflexivity.
  - replace (Py.get (skill_json (mkSkill (TypeObj c) sc)) "score" (JInt 0))
      with (Some (JInt (score_or_zero sc))) by (destruct sc; reflexivity).
    cbn. unfold Py.eq_int. cbn. destruct (c =? 1); [reflexivity|].
    now destruct (c =? 2).
Qed.

Lemma tag_driver_not_programming (r : skills_record) :
  has_type (TypeTag "driver") r = true -> has_type (TypeTag "programming") r = false.
Proof.
  destruct r as [[tag|c] sc]; unfold has_type; cbn; [|discriminate].
  intro H. apply String.eqb_eq in H. now subst.
Qed.

Lemma code_1_not_2 (r : skills_record) :
  has_type (TypeObj 1) r = true -> has_type (TypeObj 2) r = false.
Proof.
  destruct r as [[tag|c] sc]; unfold has_type; cbn; [discriminate|]. lia.
Qed.

(** A loop whose body routes by two exclusive tests yields the two filtered
    score lists. *)
Lemma classify_with_filters (body : json -> option skill_outcome)
  (d p : skills_record -> bool) (rs : list skills_record) :
  (forall r, guarded (body (skill_json r))
             = if d r then Driver (JInt (skill_points r))
               else if p r then Programming (JInt (skill_points r))
               else SkillSkipped) ->
  (forall r, d r = true -> p r = false) ->
  classify_with body (map skill_json rs)
  = (map (fun r => JInt (skill_points r)) (filter d rs),
     map (fun r => JInt (skill_points r)) (filter p rs)).
Proof.
  intros Hbody Hex. unfold classify_with. rewrite map_map.
  induction rs as [|r rs IH]; [reflexivity|].
  injection IH as IHd IHp. cbn [map flat_map filter].
  rewrite Hbody, IHd, IHp. destruct (d r) eqn:Ed.
  - now rewrite (Hex r Ed).
  - now destruct (p r).
Qed.

Lemma classify_encoded (rs : list skills_record) :
  classify (map skill_json rs)
  = (map JInt (runs_of (TypeTag "driver") rs),
     map JInt (runs_of (TypeTag "programming") rs)).
Proof.
  unfold runs_of. rewrite !map_map.
  apply classify_with_filters;
    [apply skill_body_encoded|apply tag_driver_not_programming].
Qed.

Lemma classify_focused_encoded (rs : list skills_record) :
  classify_focused (map skill_json rs)
  = (map JInt (runs_of (TypeObj 1) rs), map JInt (runs_of (TypeObj 2) rs)).
Proof.
  unfold runs_of. rewrite !map_map.
  apply classify_with_filters;
    [apply skill_body_focused_encoded|apply code_1_not_2].
Qed.

End SkillsFacts.

Lemma all_ints_of_ints (zs : list Z) : Py.all_ints (map JInt zs) = Some zs.
Proof.
  induction zs as [|z zs IH]; [reflexivity|]. cbn. now rewrite IH.
Qed.

(** C3 (amended).  Each script accepts one wire form of the skills type: the
    calculator's loop routes the records tagged with the bare strings
    "driver" and "programming" and skips every record whose type is a nested
    object; the skills-focused updater routes the records whose type is an
    object with code 1 or 2 and skips every record whose type is a bare
    string.  A record without a score counts as 0. *)
Theorem skills_by_wire_form (rs : list skills_record) :
  Skills.classify (map skill_json rs)
  = (map JInt (Typed.runs_of (TypeTag "driver") rs),
     map JInt (Typed.runs_of (TypeTag "programming") rs))
  /\ Skills.classify_focused (map skill_json rs)
     = (map JInt (Typed.runs_of (TypeObj 1) rs),
        map JInt (Typed.runs_of (TypeObj 2) rs))
  /\ Skills.extract_combined_skills (map skill_json rs)
     = Some (Skills.combined_entries (Typed.runs_of (TypeObj 1) rs)
                                     (Typed.runs_of (TypeObj 2) rs)).
Proof.
  split; [apply classify_encoded|]. split; [apply classify_focused_encoded|].
  unfold Skills.extract_combined_skills. rewrite classify_focused_encoded.
  now rewrite !all_ints_of_ints.
Qed.

(** C3, as stated, fails: the calculator's loop drops a driver run whose type
    is the nested object with code 1, and the skills-focused updater drops a
    driver run whose type is the bare string "driver". *)
Lemma skills_other_form_dropped :
  Skills.classify [skill_json Samples.object_run] = ([], [])
  /\ Skills.classify_focused [skill_json Samples.tagged_run] = ([], [])
  /\ Skills.classify_focused [skill_json Samples.object_run] = ([JInt 50], [])
  /\ Skills.classify [skill_json Samples.tagged_run] = ([JInt 40], []).
Proof. repeat split. Qed.

(** ** Combined score of an event *)




(** ** Summary statistics *)

Lemma quotient_antitone (a n m : Z) :
  0 <= a -> 0 < n -> n <= m ->
  (inject_Z a / inject_Z m <= inject_Z a / inject_Z n)%Q.
Proof.
  intros Ha Hn Hm. destruct n as [|n|n]; try lia. destruct m as [|m|m]; try lia.
  unfold Qle, Qdiv, Qmult, Qinv, inject_Z. cbn. nia.
Qed.

Lemma quotient_strict (a n m : Z) :
  0 < a -> 0 < n -> n < m ->
  (inject_Z a / inject_Z m < inject_Z a / inject_Z n)%Q.
Proof.
  intros Ha Hn Hm. destruct n as [|n|n]; try lia. destruct m as [|m|m]; try lia.
  unfold Qlt, Qdiv, Qmult, Qinv, inject_Z. cbn. nia.
Qed.

(** A further 0 in a bucket of non-negative scores never raises its average,
    and lowers it when some score is positive. *)
Lemma average_with_zero (s : list Z) :
  Forall (fun x => 0 <= x) s ->
  (Stats.average (s ++ [0%Z]) <= Stats.average s)%Q
  /\ (0 < Py.sum_list s -> (Stats.average (s ++ [0%Z]) < Stats.average s)%Q).
Proof.
  intro H. pose proof (sum_list_nonneg s H) as Hs.
  unfold Stats.average. rewrite sum_list_app, length_app. cbn [List.length].
  replace (Py.sum_list s + Py.sum_list [0]) with (Py.sum_list s)
    by (unfold Py.sum_list at 3; cbn; lia).
  destruct s as [|x l].
  - split; [apply Qle_refl|]. unfold Py.sum_list; cbn; lia.
  - cbn [List.length] in *. split.
    + apply quotient_antitone; lia.
    + intro Hpos. apply quotient_strict; lia.
Qed.



(** C10.  A match whose located alliance has no "score" field puts the score
    0 into the bucket of its round, and a skills run with a recognised type
    tag and no "score" field puts 0 into the bucket of its type: the records
    are not skipped.  The bucket grows by one entry, and the extra 0 never
    raises the average of a bucket of non-negative scores and lowers it as
    soon as one score is positive. *)
Theorem absent_score_counts (team_id : Z) (m : match_record) (j : nat)
  (a : alliance) (other : list skills_record) (s : list Z) :
  Typed.first_side (m_alliances m) 0 team_id = Some (j, a) ->
  al_score a = None ->
  Forall (fun x => 0 <= x) s ->
  Classifier.extract_match_scores [match_json m] team_id
  = (if Typed.in_qualification_1 m then ([JInt 0], []) else ([], [JInt 0]))
  /\ Classifier.skipped_count Classifier.match_body [match_json m] team_id = 0%nat
  /\ Skills.classify (map skill_json (other ++ [mkSkill (TypeTag "driver") None]))
     = (fst (Skills.classify (map skill_json other)) ++ [JInt 0],
        snd (Skills.classify (map skill_json other)))
  /\ Skills.classify
       (map skill_json (other ++ [mkSkill (TypeTag "programming") None]))
     = (fst (Skills.classify (map skill_json other)),
        snd (Skills.classify (map skill_json other)) ++ [JInt 0])
  /\ List.length (s ++ [0]) = S (List.length s)
  /\ (Stats.average (s ++ [0%Z]) <= Stats.average s)%Q
  /\ (0 < Py.sum_list s -> (Stats.average (s ++ [0%Z]) < Stats.average s)%Q).
Proof.
  intros Hloc Hscore Hs.
  assert (Hbody := match_body_located team_id m j a Hloc).
  assert (Hown : Typed.own_score team_id m = JInt 0).
  { unfold Typed.own_score. now rewrite Hloc, Hscore. }
  rewrite Hown in Hbody.
  split.
  { unfold Classifier.extract_match_scores. cbn [map]. rewrite Hbody.
    now destruct (Typed.in_qualification_1 m). }
  split.
  { unfold Classifier.skipped_count. cbn [filter]. rewrite Hbody.
    now destruct (Typed.in_qualification_1 m). }
  split.
  { rewrite !classify_encoded. unfold Typed.runs_of.
    rewrite !filter_app, !map_app. cbn. now rewrite app_nil_r. }
  split.
  { rewrite !classify_encoded. unfold Typed.runs_of.
    rewrite !filter_app, !map_app. cbn. now rewrite app_nil_r. }
  split; [rewrite length_app; cbn; lia|].
  now apply average_with_zero.
Qed.

Lemma absent_score_counts_witness :
  Typed.first_side (m_alliances Samples.scoreless_match) 0 7
  = Some (0%nat, mkAlliance [7; 3] None)
  /\ Classifier.extract_match_scores [match_json Samples.scoreless_match] 7
     = ([JInt 0], []).
Proof.
  split; [reflexivity|].
  assert (Hs : Forall (fun x => 0 <= x) [10; 20]) by (repeat constructor; lia).
  exact (proj1 (absent_score_counts 7 Samples.scoreless_match 0
                  (mkAlliance [7; 3] None) [] [10; 20] eq_refl eq_refl Hs)).
Defined.

(** ** Best-event tracking *)

Section BestEventFacts.

Import BestEvent.

Lemma take_spec (st : best_state) (o : offer) :
  (snd st < snd o -> take st o = o) /\ (snd o <= snd st -> take st o = st).
Proof.
  unfold take, supersede. destruct o as [name score]. cbn.
  destruct (Z.gtb_spec score (snd st)); split; intro; try reflexivity; lia.
Qed.

(** The state after a sequence of offers: its score bounds the initial score
    and every offer, and it is the initial state or one of the offers. *)
Lemma take_all_spec (os : list offer) (st : best_state) :
  let r := fold_left take os st in
  snd st <= snd r
  /\ (forall o, In o os -> snd o <= snd r)
  /\ (r = st \/ (In r os /\ snd st < snd r)).
Proof.
  revert st; induction os as [|o os IH]; intro st; cbn zeta.
  - cbn. split; [lia|]. split; [contradiction|now left].
  - cbn [fold_left]. specialize (IH (take st o)). cbn zeta in IH.
    destruct IH as (H1 & H2 & H3).
    destruct (take_spec st o) as [Hgt Hle].
    destruct (Z.lt_ge_cases (snd st) (snd o)) as [Hlt|Hge].
    + rewrite (Hgt Hlt) in *. split; [lia|]. split.
      * intros o' [<-|Hin]; [lia|now apply H2].
      * right. destruct H3 as [->|[Hin Hlt']]; [split; [now left|lia]|].
        split; [now right|lia].
    + rewrite (Hle Hge) in *. split; [lia|]. split.
      * intros o' [<-|Hin]; [lia|now apply H2].
      * destruct H3 as [->|[Hin Hlt']]; [now left|right]. split; [now right|lia].
Qed.

(** The final score does not depend on the order of the offers. *)
Lemma take_all_score_perm (os os' : list offer) (st : best_state) :
  Permutation os os' ->
  snd (fold_left take os st) = snd (fold_left take os' st).
Proof.
  intro HP.
  destruct (take_all_spec os st) as (H1 & H2 & H3).
  destruct (take_all_spec os' st) as (H1' & H2' & H3').
  cbn zeta in *. apply Z.le_antisymm.
  - destruct H3 as [->|[Hin _]]; [exact H1'|].
    apply H2'. now apply (Permutation_in _ HP).
  - destruct H3' as [->|[Hin _]]; [exact H1|].
    apply H2. now apply (Permutation_in _ (Permutation_sym HP)).
Qed.

(** Nor does the name, when the offers that reach the final score agree on
    it. *)
Lemma take_all_perm (os os' : list offer) (st : best_state) :
  Permutation os os' ->
  (forall o1 o2, In o1 os -> In o2 os ->
                 snd o1 = snd (fold_left take os st) ->
                 snd o2 = snd (fold_left take os st) -> fst o1 = fst o2) ->
  fold_left take os st = fold_left take os' st.
Proof.
  intros HP Hties.
  pose proof (take_all_score_perm os os' st HP) as Hscore.
  destruct (take_all_spec os st) as (H1 & H2 & H3).
  destruct (take_all_spec os' st) as (H1' & H2' & H3').
  cbn zeta in *.
  destruct H3 as [E|[Hin Hlt]], H3' as [E'|[Hin' Hlt']].
  - now rewrite E, E'.
  - rewrite E in Hscore. lia.
  - rewrite E' in Hscore. lia.
  - apply (Permutation_in _ (Permutation_sym HP)) in Hin'.
    apply injective_projections; [|exact Hscore].
    apply Hties; auto.
Qed.

Lemma event_step_offers (st : best_state) (ev : string * list Z) :
  event_step st ev = fold_left take (offers ev) st.
Proof. destruct ev as [name [|x l]]; reflexivity. Qed.

Lemma run_offers (events : list (string * list Z)) (st : best_state) :
  fold_left event_step events st = fold_left take (flat_map offers events) st.
Proof.
  revert st; induction events as [|ev events IH]; intro st; [reflexivity|].
  cbn [fold_left flat_map]. now rewrite fold_left_app, IH, event_step_offers.
Qed.

Lemma event_step_final_offers (st : best_state) (ev : string * list Z * list Z) :
  event_step_final st ev = fold_left take (offers_final ev) st.
Proof.
  destruct ev as [[name hs] quals]. unfold event_step_final, offers_final.
  rewrite fold_left_app, event_step_offers. f_equal.
  revert st; induction hs as [|h hs IH]; intro st; [reflexivity|].
  cbn [map fold_left]. apply IH.
Qed.

Lemma run_final_offers (events : list (string * list Z * list Z)) (st : best_state) :
  fold_left event_step_final events st
  = fold_left take (flat_map offers_final events) st.
Proof.
  revert st; induction events as [|ev events IH]; intro st; [reflexivity|].
  cbn [fold_left flat_map]. now rewrite fold_left_app, IH, event_step_final_offers.
Qed.

Lemma in_offers (events : list (string * list Z)) (o : offer) :
  In o (flat_map offers events) ->
  exists ev, In ev events /\ event_best ev = Some (snd o) /\ fst ev = fst o.
Proof.
  rewrite in_flat_map. intros (ev & Hin & Ho). exists ev. split; [exact Hin|].
  destruct ev as [name [|x l]]; [contradiction|].
  destruct Ho as [<-|[]]. now split.
Qed.

End BestEventFacts.

(** C6 (amended).  An event's best qualification score replaces the running
    best-event name and score iff it is strictly greater than the running
    best score.  After all events the best-event score is the same for every
    order of the events (also in the calculator's loop, which offers the
    ranking high scores too); the best-event name is the same for every order
    provided the events that reach the final score bear one name. *)
Theorem best_event_order (events events' : list (string * list Z)) :
  Permutation events events' ->
  snd (BestEvent.run events) = snd (BestEvent.run events')
  /\ ((forall e1 e2, In e1 events -> In e2 events ->
         BestEvent.event_best e1 = Some (snd (BestEvent.run events)) ->
         BestEvent.event_best e2 = Some (snd (BestEvent.run events)) ->
         fst e1 = fst e2) ->
      BestEvent.run events = BestEvent.run events')
  /\ (forall st ev b, BestEvent.event_best ev = Some b ->
        (snd st < b -> BestEvent.event_step st ev = (fst ev, b))
        /\ (b <= snd st -> BestEvent.event_step st ev = st))
  /\ (forall st ev, BestEvent.event_best ev = None ->
        BestEvent.event_step st ev = st)
  /\ (forall finals finals' : list (string * list Z * list Z),
        Permutation finals finals' ->
        snd (BestEvent.run_final finals) = snd (BestEvent.run_final finals')).
Proof.
  intro HP.
  assert (HPo : Permutation (flat_map BestEvent.offers events)
                            (flat_map BestEvent.offers events'))
    by now apply Permutation_flat_map.
  unfold BestEvent.run. rewrite !run_offers.
  split; [now apply take_all_score_perm|]. split.
  { intro Hties. apply take_all_perm; [exact HPo|].
    intros o1 o2 H1 H2 E1 E2.
    apply in_offers in H1 as (e1 & Hin1 & Hb1 & <-).
    apply in_offers in H2 as (e2 & Hin2 & Hb2 & <-).
    apply Hties; auto; congruence. }
  split.
  { intros st [name s] b Hb. rewrite event_step_offers.
    unfold BestEvent.event_best, BestEvent.offers in *. cbn [fst snd] in *.
    destruct s as [|x l]; [discriminate|]. injection Hb as <-.
    cbn [fold_left]. apply (take_spec st (name, Py.max_list (x :: l))). }
  split.
  { intros st [name s] Hb. unfold BestEvent.event_best in Hb. cbn in Hb.
    now destruct s. }
  intros finals finals' HPf. unfold BestEvent.run_final.
  rewrite !run_final_offers. apply take_all_score_perm.
  now apply Permutation_flat_map.
Qed.

Lemma best_event_order_witness :
  Permutation BestEvent.tied BestEvent.tied_swapped
  /\ snd (BestEvent.run BestEvent.tied) = snd (BestEvent.run BestEvent.tied_swapped).
Proof.
  assert (HP : Permutation BestEvent.tied BestEvent.tied_swapped)
    by apply perm_swap.
  split; [exact HP|].
  exact (proj1 (best_event_order BestEvent.tied BestEvent.tied_swapped HP)).
Defined.

(** C6, as stated, fails: two events tied on their best qualification score
    give the best-event name of whichever is processed first. *)
Lemma best_event_name_depends_on_order :
  Permutation BestEvent.tied BestEvent.tied_swapped
  /\ BestEvent.run BestEvent.tied = ("Alpha", 50)
  /\ BestEvent.run BestEvent.tied_swapped = ("Beta", 50).
Proof. split; [apply perm_swap|split; reflexivity]. Qed.

(** ** Report builder *)

Section StableSort.

Import Report.

Context {A : Type} (leb : A -> A -> bool).

Hypothesis leb_total : forall a b, leb a b = true \/ leb b a = true.
Hypothesis leb_trans : forall a b c, leb a b = true -> leb b c = true -> leb a c = true.

Local Abbreviation le := (fun a b : A => leb a b = true).
Local Abbreviation eqv k := (fun a : A => leb a k && leb k a).

Lemma insert_by_perm (x : A) (l : list A) : Permutation (x :: l) (insert_by leb x l).
Proof.
  induction l as [|y l IH]; [apply Permutation_refl|].
  cbn. destruct (leb x y); [apply Permutation_refl|].
  eapply perm_trans; [apply perm_swap|]. now apply perm_skip.
Qed.

Lemma sort_by_perm (l : list A) : Permutation l (sort_by leb l).
Proof.
  induction l as [|x l IH]; [apply perm_nil|].
  cbn. eapply perm_trans; [apply perm_skip, IH|apply insert_by_perm].
Qed.

Lemma insert_by_sorted (x : A) (l : list A) :
  StronglySorted le l -> StronglySorted le (insert_by leb x l).
Proof.
  induction 1 as [|y l Hs IH Hall]; cbn.
  - constructor; constructor.
  - destruct (leb x y) eqn:E.
    + constructor; [now constructor|]. constructor; [exact E|].
      eapply Forall_impl; [|exact Hall]. intros z Hz. exact (leb_trans _ _ _ E Hz).
    + constructor; [exact IH|].
      apply (Permutation_Forall (insert_by_perm x l)). constructor; [|exact Hall].
      destruct (leb_total x y) as [H|H]; [congruence|exact H].
Qed.

Lemma sort_by_sorted (l : list A) : StronglySorted le (sort_by leb l).
Proof.
  induction l as [|x l IH]; [constructor|]. cbn. now apply insert_by_sorted.
Qed.

(** Insertion keeps the elements of one key class in their order. *)
Lemma insert_by_stable (k x : A) (l : list A) :
  filter (eqv k) (insert_by leb x l) = filter (eqv k) (x :: l).
Proof.
  induction l as [|y l IH]; [reflexivity|].
  cbn [insert_by]. destruct (leb x y) eqn:E; [reflexivity|].
  cbn [filter] in *. rewrite IH.
  destruct (eqv k x) eqn:Ex; [|reflexivity].
  destruct (eqv k y) eqn:Ey; [|reflexivity].
  apply andb_prop in Ex as [Hxk Hkx], Ey as [Hyk Hky].
  rewrite (leb_trans _ _ _ Hxk Hky) in E. discriminate.
Qed.

Lemma sort_by_stable (k : A) (l : list A) :
  filter (eqv k) (sort_by leb l) = filter (eqv k) l.
Proof.
  induction l as [|x l IH]; [reflexivity|].
  cbn [sort_by]. rewrite insert_by_stable. cbn [filter]. now rewrite IH.
Qed.

Lemma filter_rev (p : A -> bool) (l : list A) :
  filter p (rev l) = rev (filter p l).
Proof.
  induction l as [|x l IH]; [reflexivity|].
  cbn [rev filter]. rewrite filter_app, IH. cbn [filter].
  destruct (p x); [reflexivity|now rewrite app_nil_r].
Qed.

Lemma sorted_snoc (R : A -> A -> Prop) (l : list A) (x : A) :
  StronglySorted R l -> Forall (fun y => R y x) l -> StronglySorted R (l ++ [x]).
Proof.
  induction 1 as [|y l Hs IH Hall]; intro H; cbn.
  - constructor; constructor.
  - inversion H as [|? ? Hyx Hl]; subst. constructor; [now apply IH|].
    apply Forall_app. split; [exact Hall|now constructor].
Qed.

Lemma sorted_rev (l : list A) :
  StronglySorted le l -> StronglySorted (fun a b => le b a) (rev l).
Proof.
  induction 1 as [|y l Hs IH Hall]; [constructor|].
  cbn [rev]. apply sorted_snoc; [exact IH|]. now apply Forall_rev.
Qed.

(** The descending sort: a stable rearrangement in decreasing order. *)
Lemma descending_sort_spec (l : list A) :
  let out := rev (sort_by leb (rev l)) in
  Permutation l out
  /\ StronglySorted (fun a b => le b a) out
  /\ forall k, filter (eqv k) out = filter (eqv k) l.
Proof.
  cbn zeta. split; [|split].
  - eapply perm_trans; [apply Permutation_rev|].
    eapply perm_trans; [apply sort_by_perm|apply Permutation_rev].
  - apply sorted_rev, sort_by_sorted.
  - intro k. now rewrite filter_rev, sort_by_stable, filter_rev, rev_involutive.
Qed.

End StableSort.

Lemma strongly_sorted_impl {A : Type} (R R' : A -> A -> Prop) (l : list A) :
  (forall a b, R a b -> R' a b) -> StronglySorted R l -> StronglySorted R' l.
Proof.
  intro H. induction 1 as [|x l Hs IH Hall]; constructor; [exact IH|].
  eapply Forall_impl; [|exact Hall]. intros; now apply H.
Qed.

Lemma Qle_bool_total (a b : Q) : Qle_bool a b = true \/ Qle_bool b a = true.
Proof.
  rewrite !Qle_bool_iff. destruct (Qlt_le_dec a b) as [H|H]; [left|right]; lra.
Qed.

Lemma Qle_bool_trans (a b c : Q) :
  Qle_bool a b = true -> Qle_bool b c = true -> Qle_bool a c = true.
Proof. rewrite !Qle_bool_iff. lra. Qed.

Lemma same_key_Qeq (a b : Q) : Qle_bool a b && Qle_bool b a = Qeq_bool a b.
Proof.
  apply eq_true_iff_eq. rewrite andb_true_iff, !Qle_bool_iff, Qeq_bool_iff.
  split; [intros []; lra|intro; split; lra].
Qed.

Lemma pair_leb_iff (a b : Q * Q) :
  Report.pair_leb a b = true
  <-> (fst a < fst b \/ (fst a == fst b /\ snd a <= snd b))%Q.
Proof.
  unfold Report.pair_leb.
  rewrite orb_true_iff, negb_true_iff, andb_true_iff, Qeq_bool_iff, Qle_bool_iff.
  rewrite <- not_true_iff_false, Qle_bool_iff. split.
  - intros [H|H]; [left; lra|now right].
  - intros [H|H]; [left; lra|now right].
Qed.

Lemma pair_leb_total (a b : Q * Q) :
  Report.pair_leb a b = true \/ Report.pair_leb b a = true.
Proof.
  rewrite !pair_leb_iff.
  destruct (Q_dec (fst a) (fst b)) as [[H|H]|H]; [left; now left|right; now left|].
  destruct (Qlt_le_dec (snd b) (snd a)) as [H'|H'].
  - right; right. split; lra.
  - left; right. split; lra.
Qed.

Lemma pair_leb_trans (a b c : Q * Q) :
  Report.pair_leb a b = true -> Report.pair_leb b c = true ->
  Report.pair_leb a c = true.
Proof.
  rewrite !pair_leb_iff. intros [H|[H H']] [G|[G G']].
  - left; lra.
  - left; lra.
  - left; lra.
  - right; split; lra.
Qed.

(** C9 (amended).  For each selectable sort key the calculator's report
    builder writes the teams in descending order of that key alone and keeps
    the teams that are equal on the key in their input order.  The updated
    accessor has no selectable key: it writes the teams in descending
    lexicographic order of the pair (qualification average when positive,
    else 0; skill average), and keeps only the teams equal on the whole pair
    in their input order. *)
Theorem report_order (teams : list TeamData) (f : sort_field) :
  let out := Report.sorted_teams teams f in
  let out' := Report.sorted_teams_updated teams in
  Permutation teams out
  /\ StronglySorted
       (fun a b => (Report.field_key f b <= Report.field_key f a)%Q) out
  /\ (forall t0,
        filter (fun t => Qeq_bool (Report.field_key f t) (Report.field_key f t0)) out
        = filter (fun t => Qeq_bool (Report.field_key f t) (Report.field_key f t0))
                 teams)
  /\ Permutation teams out'
  /\ StronglySorted
       (fun a b => Report.pair_leb (Report.sort_key b) (Report.sort_key a) = true)
       out'
  /\ (forall t0,
        filter (fun t => Report.same_key Report.pair_leb
                           (Report.sort_key t) (Report.sort_key t0)) out'
        = filter (fun t => Report.same_key Report.pair_leb
                             (Report.sort_key t) (Report.sort_key t0)) teams).
Proof.
  cbn zeta. unfold Report.sorted_teams, Report.sorted_teams_updated, Report.sorted.
  destruct (descending_sort_spec
              (fun a b => Qle_bool (Report.field_key f a) (Report.field_key f b))
              (fun a b => Qle_bool_total _ _)
              (fun a b c => Qle_bool_trans _ _ _) teams) as (HP & HS & HF).
  destruct (descending_sort_spec
              (fun a b => Report.pair_leb (Report.sort_key a) (Report.sort_key b))
              (fun a b => pair_leb_total _ _)
              (fun a b c => pair_leb_trans _ _ _) teams) as (HP' & HS' & HF').
  cbn zeta in *.
  split; [exact HP|]. split.
  { eapply strongly_sorted_impl; [|exact HS]. cbn beta. intros a b H.
    now apply Qle_bool_iff. }
  split.
  { intro t0.
    pose proof (filter_ext
      (fun t => Qle_bool (Report.field_key f t) (Report.field_key f t0)
                && Qle_bool (Report.field_key f t0) (Report.field_key f t))
      (fun t => Qeq_bool (Report.field_key f t) (Report.field_key f t0))
      (fun t => same_key_Qeq _ _)) as E.
    rewrite <- !E. exact (HF t0). }
  split; [exact HP'|]. split; [exact HS'|].
  intro t0. exact (HF' t0).
Qed.

(** C9, as stated, fails for the updated accessor: two teams with the same
    qualification average are written in the order of their skill averages,
    not in their input order. *)
Lemma report_order_breaks_ties_by_skill :
  (qual_avg Report.team_a == qual_avg Report.team_b)%Q
  /\ Report.sorted_teams_updated [Report.team_a; Report.team_b]
     = [Report.team_b; Report.team_a]
  /\ Report.sorted_teams [Report.team_a; Report.team_b] QualAvg
     = [Report.team_a; Report.team_b].
Proof. repeat split. Qed.

(** ** The plain-text row and its parser *)

Section SheetFacts.

Import Sheet.

Lemma append_assoc (a b c : string) : ((a ++ b) ++ c = a ++ (b ++ c))%string.
Proof. induction a as [|x a IH]; [reflexivity|]. cbn. now rewrite IH. Qed.

Lemma append_empty (a : string) : (a ++ "" = a)%string.
Proof. induction a as [|x a IH]; [reflexivity|]. cbn. now rewrite IH. Qed.

Lemma rstrip_word (s : string) : no_space s = true -> rstrip s = s.
Proof.
  induction s as [|c s IH]; [reflexivity|].
  cbn. intro H. apply andb_prop in H as [Hc Hs].
  rewrite (IH Hs). apply negb_true_iff in Hc. rewrite Hc. now destruct s.
Qed.

Lemma strip_word (s : string) : no_space s = true -> strip s = s.
Proof.
  intro H. unfold strip. destruct s as [|c s]; [reflexivity|].
  pose proof H as H'. cbn in H'. apply andb_prop in H' as [Hc _].
  apply negb_true_iff in Hc. cbn [lstrip]. rewrite Hc. now apply rstrip_word.
Qed.

Lemma split_from_cons (cur : string) (c : ascii) (s : string) :
  split_from cur (String c s)
  = if is_space c
    then (if is_empty cur then split_from EmptyString s
          else cur :: split_from EmptyString s)
    else split_from (cur ++ String c EmptyString) s.
Proof. reflexivity. Qed.

Lemma split_from_rstrip (s cur : string) :
  split_from cur (rstrip s) = split_from cur s.
Proof.
  revert cur; induction s as [|c s IH]; intro cur; [reflexivity|].
  cbn [rstrip]. destruct (rstrip s) as [|c' r] eqn:E.
  - rewrite (split_from_cons cur c s). destruct (is_space c) eqn:Ec.
    + rewrite <- !IH. cbn. now destruct (is_empty cur).
    + rewrite <- IH. rewrite split_from_cons, Ec. reflexivity.
  - rewrite !(split_from_cons cur c). now rewrite !IH.
Qed.

Lemma split_lstrip (s : string) : split (lstrip s) = split s.
Proof.
  unfold split. induction s as [|c s IH]; [reflexivity|].
  cbn [lstrip]. destruct (is_space c) eqn:E; [|reflexivity].
  rewrite split_from_cons, E. exact IH.
Qed.

(** White space around a line does not change its words. *)
Lemma split_strip (s : string) : split (strip s) = split s.
Proof.
  unfold strip, split at 1. rewrite split_from_rstrip. apply split_lstrip.
Qed.

Lemma split_from_word (w cur s : string) :
  no_space w = true -> split_from cur (w ++ s) = split_from (cur ++ w) s.
Proof.
  revert cur; induction w as [|c w IH]; intros cur H.
  - cbn. now rewrite append_empty.
  - cbn in H. apply andb_prop in H as [Hc Hw]. apply negb_true_iff in Hc.
    cbn [append split_from]. rewrite Hc, (IH _ Hw), append_assoc. reflexivity.
Qed.

(** A word followed by a blank is the next word of the line. *)
Lemma split_word_blank (w s : string) :
  is_word w = true -> split (w ++ " " ++ s) = w :: split s.
Proof.
  unfold is_word, split. intro H. apply andb_prop in H as [He Hw].
  rewrite (split_from_word w "" _ Hw). cbn [append split_from].
  change (is_space " ") with true. cbn iota.
  apply negb_true_iff in He. now rewrite He.
Qed.

Lemma digits_no_space (d : Decimal.uint) :
  no_space (NilEmpty.string_of_uint d) = true.
Proof. induction d; cbn; auto. Qed.

Lemma digits_head (d : Decimal.uint) :
  d <> Decimal.Nil ->
  exists c s, NilEmpty.string_of_uint d = String c s
              /\ Ascii.eqb c "-" = false /\ Ascii.eqb c "+" = false.
Proof. destruct d; [congruence|..]; intros _; cbn; eauto. Qed.


Lemma int_str_pos (p : positive) :
  int_str (Z.pos p) = NilEmpty.string_of_uint (Pos.to_uint p).
Proof.
  unfold int_str. cbn. unfold NilZero.string_of_uint.
  pose proof (DecimalPos.Unsigned.to_uint_nonnil p).
  now destruct (Pos.to_uint p).
Qed.

Lemma int_str_neg (p : positive) :
  int_str (Z.neg p) = String "-" (NilEmpty.string_of_uint (Pos.to_uint p)).
Proof.
  unfold int_str. cbn. unfold NilZero.string_of_uint.
  pose proof (DecimalPos.Unsigned.to_uint_nonnil p).
  now destruct (Pos.to_uint p).
Qed.


(** [str] of an integer is a word ... *)
Lemma int_str_word (z : Z) : is_word (int_str z) = true.
Proof.
  destruct z as [|p|p]; [reflexivity| |].
  - rewrite int_str_pos. unfold is_word. rewrite digits_no_space.
    destruct (digits_head _ (DecimalPos.Unsigned.to_uint_nonnil p)) as (c & s & -> & _).
    reflexivity.
  - rewrite int_str_neg. unfold is_word. cbn. apply digits_no_space.
Qed.


Lemma word_head (w : string) :
  is_word w = true -> exists c s, w = String c s.
Proof. destruct w; [discriminate|eauto]. Qed.

(** The first five words of a row. *)
Lemma row_words (float_str : Q -> string) (t : TeamData) :
  is_word (code t) = true ->
  is_word (float_str (qual_avg t)) = true ->
  is_word (float_str (elims_avg t)) = true ->
  is_word (float_str (skill_avg t)) = true ->
  exists rest,
    split (strip (format_spreadsheet_row float_str t true
                    ++ String (ascii_of_nat 10) EmptyString))
    = code t :: float_str (qual_avg t) :: int_str (best_qual t)
        :: float_str (elims_avg t) :: float_str (skill_avg t) :: rest.
Proof.
  intros Hc Hq He Hs. rewrite split_strip. unfold format_spreadsheet_row.
  cbn zeta iota. rewrite !append_assoc.
  rewrite (split_word_blank _ _ Hc), (split_word_blank _ _ Hq),
    (split_word_blank _ _ (int_str_word _)), (split_word_blank _ _ He),
    (split_word_blank _ _ Hs).
  eauto.
Qed.

End SheetFacts.


(** A row whose first word does not begin with a letter is no team entry. *)
Lemma digit_code_skipped (float_str : Q -> string)
  (float_of_str : string -> option Q) (t : TeamData) :
  Sheet.is_word (code t) = true ->
  Sheet.starts_with_letters (code t) = false ->
  Sheet.is_word (float_str (qual_avg t)) = true ->
  Sheet.is_word (float_str (elims_avg t)) = true ->
  Sheet.is_word (float_str (skill_avg t)) = true ->
  Sheet.parse_line float_of_str
    (Sheet.format_spreadsheet_row float_str t true
       ++ String (ascii_of_nat 10) EmptyString)
  = Sheet.NotATeam.
Proof.
  intros Hc Hl Hq He Hs.
  destruct (row_words float_str t Hc Hq He Hs) as [rest E].
  unfold Sheet.parse_line. rewrite E, Hl. reflexivity.
Qed.




(** ** Event match resolver *)

Section ResolverFacts.

Import Net Resolver.

Variable w : world.

Lemma extend_list (l : list json) (v : json) (r : json) :
  extend (JArr l) v = Some r -> exists l', r = JArr l'.
Proof.
  unfold extend. destruct (Py.iter v) as [more|]; [|discriminate].
  cbn. intros [= <-]. eauto.
Qed.

Lemma extend_pages_list (page_request : Z -> request) (pages : list Z) :
  forall (l : list json) (st st' : net) (v : json),
    extend_pages w page_request pages (JArr l) st = (Ok v, st') ->
    exists l', v = JArr l'.
Proof.
  induction pages as [|p pages IH]; intros l st st' v H.
  - cbn in H. injection H as <- _. eauto.
  - cbn [extend_pages] in H. unfold bind in H.
    destruct (requests_get w (page_request p) st) as [[r|e] st1]; [|discriminate].
    destruct (raise_for_status r st1) as [[u|e] st2]; [|discriminate].
    destruct (response_json r st2) as [[next|e] st3]; [|discriminate].
    destruct (lift (Py.get next "data" (JArr [])) st3) as [[more|e] st4]; [|discriminate].
    destruct (extend (JArr l) more) as [found'|] eqn:E; [|discriminate].
    destruct (extend_list _ _ _ E) as [l' ->]. cbn in H. eapply IH; exact H.
Qed.

(** A division always contributes a list. *)
Lemma get_division_matches_list (event_id : Z) (division_id : json)
  (team_id : option Z) (st : net) :
  exists l, fst (get_division_matches w event_id division_id team_id st) = JArr l.
Proof.
  unfold get_division_matches, bind.
  destruct (requests_get w _ st) as [[r|e] st1]; [|cbn; eauto].
  destruct (raise_for_status r st1) as [[u|e] st2]; [|cbn; eauto].
  destruct (response_json r st2) as [[data|e] st3]; [|cbn; eauto].
  destruct (lift (Py.get data "data" (JArr [])) st3) as [[first|e] st4]; [|cbn; eauto].
  destruct (extend (JArr []) first) as [m|] eqn:E; [|cbn; eauto].
  destruct (extend_list _ _ _ E) as [l ->]. cbn [lift ret].
  destruct (Resolver.more_pages data) as [[last|]|]; cbn [lift ret raise]; [| |cbn; eauto].
  - destruct (extend_pages w _ (later_pages last) (JArr l) st4) as [[v|e] st5] eqn:Ep;
      [|cbn; eauto].
    destruct (extend_pages_list _ _ _ _ _ _ Ep) as [l' ->]. cbn; eauto.
  - cbn; eauto.
Qed.

(** The loop over well-formed divisions appends what each division
    contributes. *)
Lemma division_loop_concat (event_id : Z) (team_id : option Z)
  (divs : list (Z * string)) :
  forall (acc : list json) (st st' : net) (founds : list json),
    division_results w event_id team_id (map (fun d => JInt (fst d)) divs) st
    = (founds, st') ->
    division_loop w event_id team_id
      (map (fun d => division_json (fst d) (snd d)) divs) acc st
    = (Ok (acc ++ List.concat (map items_of founds)), st').
Proof.
  induction divs as [|[id name] divs IH]; intros acc st st' founds H.
  - cbn in H. injection H as <- <-. cbn. now rewrite app_nil_r.
  - cbn [map division_results fst snd] in H.
    destruct (get_division_matches w event_id (JInt id) team_id st) as [found st1] eqn:Ed.
    destruct (division_results w event_id team_id _ st1) as [rest st2] eqn:Er.
    injection H as <- <-.
    cbn [map division_loop fst snd]. unfold bind at 1.
    change (lift (Py.getitem (division_json id name) "id") st) with (Ok (JInt id), st).
    cbn iota. unfold bind at 1, total at 1. rewrite Ed.
    destruct (get_division_matches_list event_id (JInt id) team_id st) as [l El].
    rewrite Ed in El. cbn in El. subst found.
    specialize (IH (acc ++ l) st1 st2 rest Er).
    cbn [map List.concat items_of]. rewrite app_assoc.
    destruct l as [|x l].
    + cbn [Py.truthy]. rewrite app_nil_r in *. exact IH.
    + cbn [Py.truthy]. unfold bind at 1.
      change (lift (Py.getitem (division_json id name) "name") st1)
        with (Ok (JStr name), st1).
      cbn iota. unfold bind at 1. cbn [Py.iter lift ret]. exact IH.
Qed.

End ResolverFacts.

Section ResolverContract.

Import Net Resolver.

Variables (w : world) (event_id : Z) (team_id : option Z) (st : net).

Local Abbreviation st1 := (mkNet (S (sent st)) (slept st)).

Lemma flat_attempt_returns (r : response) (data : json) (items : list json) :
  w (sent st) (flat_request event_id team_id) = Response r ->
  status_code r = 200 ->
  body r = Some data ->
  bind_opt (Py.get data "data" (JArr [])) Py.iter = Some items ->
  flat_attempt w event_id team_id st = (Ok (Some items), st1).
Proof.
  intros Hw Hs Hb Hi. unfold flat_attempt, try_except, bind, requests_get.
  rewrite Hw, Hs. cbn [Z.eqb Pos.eqb]. unfold response_json. rewrite Hb.
  cbn [lift ret]. rewrite Hi. reflexivity.
Qed.

Lemma flat_attempt_falls_through :
  (w (sent st) (flat_request event_id team_id) = ConnectionError
   \/ exists r, w (sent st) (flat_request event_id team_id) = Response r
                /\ status_code r <> 200) ->
  flat_attempt w event_id team_id st = (Ok None, st1).
Proof.
  intros [Hw|(r & Hw & Hs)]; unfold flat_attempt, try_except, bind, requests_get;
    rewrite Hw; [reflexivity|].
  apply Z.eqb_neq in Hs. now rewrite Hs.
Qed.

Lemma resolve_by_divisions (divs : list (Z * string)) (st2 st3 : net)
  (founds : list json) :
  flat_attempt w event_id team_id st = (Ok None, st1) ->
  get_event_divisions w event_id st1
  = (JArr (map (fun d => division_json (fst d) (snd d)) divs), st2) ->
  division_results w event_id team_id (map (fun d => JInt (fst d)) divs) st2
  = (founds, st3) ->
  get_event_matches w event_id team_id st
  = (Ok (List.concat (map items_of founds)), st3).
Proof.
  intros Hf Hd Hr. unfold get_event_matches, bind at 1. rewrite Hf.
  cbn iota. unfold bind at 1, total. rewrite Hd.
  destruct divs as [|d divs'].
  - cbn in Hr. injection Hr as <- <-. reflexivity.
  - set (ds := d :: divs') in *. cbn [Py.truthy map].
    replace (Py.truthy (JArr (map (fun d0 => division_json (fst d0) (snd d0)) ds)))
      with true by reflexivity.
    unfold bind at 1. cbn [Py.iter lift ret].
    exact (division_loop_concat w event_id team_id ds [] st2 st3 founds Hr).
Qed.

End ResolverContract.

(** C1 (amended).  The resolver requests the event's flat match listing
    filtered by the team and returns it whenever the reply has status 200 and
    decodes, also when the listing is empty; no division is then consulted.
    When the request fails or the status is not 200, it lists the divisions,
    requests each division's match listing filtered by the team and returns
    the concatenation of the divisions' results.  With a flat endpoint that
    answers 404 and 2 divisions holding 5 and 7 matches of the team, it
    returns 12 matches. *)
Theorem match_resolution (w : Net.world) (event_id : Z) (team_id : option Z)
  (st : Net.net) :
  let st1 := Net.mkNet (S (Net.sent st)) (Net.slept st) in
  (forall r data items,
      w (Net.sent st) (Resolver.flat_request event_id team_id) = Net.Response r ->
      Net.status_code r = 200 ->
      Net.body r = Some data ->
      bind_opt (Py.get data "data" (JArr [])) Py.iter = Some items ->
      Resolver.get_event_matches w event_id team_id st = (Net.Ok items, st1))
  /\ (forall divs st2 founds st3,
        (w (Net.sent st) (Resolver.flat_request event_id team_id)
         = Net.ConnectionError
         \/ exists r, w (Net.sent st) (Resolver.flat_request event_id team_id)
                      = Net.Response r /\ Net.status_code r <> 200) ->
        Resolver.get_event_divisions w event_id st1
        = (JArr (map (fun d => Resolver.division_json (fst d) (snd d)) divs), st2) ->
        Resolver.division_results w event_id team_id
          (map (fun d => JInt (fst d)) divs) st2 = (founds, st3) ->
        Resolver.get_event_matches w event_id team_id st
        = (Net.Ok (List.concat (map Resolver.items_of founds)), st3))
  /\ Resolver.get_event_matches
       (Resolver.two_divisions (Net.mkResponse 404 None None)) 1 (Some 7) Net.start
     = (Net.Ok (Resolver.numbered 5 100 ++ Resolver.numbered 7 200), Net.mkNet 4 [])
  /\ List.length (Resolver.numbered 5 100 ++ Resolver.numbered 7 200) = 12%nat.
Proof.
  cbn zeta. split; [|split; [|split; reflexivity]].
  - intros r data items Hw Hs Hb Hi.
    unfold Resolver.get_event_matches, Net.bind.
    now rewrite (flat_attempt_returns w event_id team_id st r data items Hw Hs Hb Hi).
  - intros divs st2 founds st3 Hflat Hd Hr.
    apply (resolve_by_divisions w event_id team_id st divs st2 st3 founds);
      [now apply flat_attempt_falls_through|exact Hd|exact Hr].
Qed.

Lemma match_resolution_witness :
  Resolver.get_event_matches
    (Resolver.two_divisions (Resolver.ok_body [JObj [("id", JInt 1)]]))
    1 (Some 7) Net.start
  = (Net.Ok [JObj [("id", JInt 1)]], Net.mkNet 1 []).
Proof.
  exact (proj1 (match_resolution
                  (Resolver.two_divisions (Resolver.ok_body [JObj [("id", JInt 1)]]))
                  1 (Some 7) Net.start)
               (Resolver.ok_body [JObj [("id", JInt 1)]])
               (JObj [("data", JArr [JObj [("id", JInt 1)]])])
               [JObj [("id", JInt 1)]] eq_refl eq_refl eq_refl eq_refl).
Defined.

(** C1, as stated, fails: when the flat endpoint answers 200 with an empty
    collection, the resolver returns the empty list after that one request,
    although the two divisions of the event hold 5 and 7 matches of the
    team. *)
Lemma empty_flat_listing_is_returned :
  Resolver.get_event_matches
    (Resolver.two_divisions (Resolver.ok_body [])) 1 (Some 7) Net.start
  = (Net.Ok [], Net.mkNet 1 [])
  /\ List.length
       (Resolver.items_of
          (fst (Resolver.get_division_matches
                  (Resolver.two_divisions (Resolver.ok_body []))
                  1 (JInt 1) (Some 7) Net.start))) = 5%nat
  /\ List.length
       (Resolver.items_of
          (fst (Resolver.get_division_matches
                  (Resolver.two_divisions (Resolver.ok_body []))
                  1 (JInt 2) (Some 7) Net.start))) = 7%nat.
Proof. repeat split. Qed.

(** ** Fetchers *)

Section FetcherFacts.

Import Net.

Variable w : world.

Lemma api_attempt_not_found (req : request) (retry_count attempt : nat)
  (st : net) (r : response) :
  w (sent st) req = Response r ->
  status_code r = 404 ->
  api_attempt w req retry_count attempt st
  = (Ok (Return JNull), mkNet (S (sent st)) (slept st)).
Proof.
  intros Hw Hs.
  unfold api_attempt, try_except, bind, requests_get, raise_for_status.
  rewrite Hw, Hs. reflexivity.
Qed.

Lemma api_attempt_rate_limited (req : request) (retry_count attempt : nat)
  (st : net) (r : response) (t : Z) :
  w (sent st) req = Response r ->
  status_code r = 429 ->
  wait_seconds r = Some t ->
  0 <= t ->
  api_attempt w req retry_count attempt st
  = (Ok Next, mkNet (S (sent st)) (slept st ++ [t])).
Proof.
  intros Hw Hs Ht Hpos.
  unfold api_attempt, try_except, bind, requests_get.
  rewrite Hw, Hs. cbn [Z.eqb Pos.eqb]. rewrite Ht. cbn [lift ret].
  unfold sleep. destruct (Z.ltb_spec t 0); [lia|reflexivity].
Qed.

(** Every turn of the loop sends exactly one request. *)
Lemma api_attempt_sends_one (req : request) (retry_count attempt : nat) (st : net) :
  sent (snd (api_attempt w req retry_count attempt st)) = S (sent st).
Proof.
  unfold api_attempt, try_except, bind, requests_get, backoff, raise_for_status,
    response_json, lift, sleep, ret, raise.
  destruct (w (sent st) req) as [|r]; cbn.
  - now destruct (Z.of_nat attempt <? Z.of_nat retry_count - 1).
  - destruct (status_code r =? 429).
    + destruct (wait_seconds r) as [t|]; cbn.
      * destruct (t <? 0); cbn;
          [now destruct (Z.of_nat attempt <? Z.of_nat retry_count - 1)|reflexivity].
      * now destruct (Z.of_nat attempt <? Z.of_nat retry_count - 1).
    + destruct ((400 <=? status_code r) && (status_code r <? 600)); cbn.
      * destruct (status_code r =? 404); cbn; [reflexivity|].
        now destruct (Z.of_nat attempt <? Z.of_nat retry_count - 1).
      * destruct (body r); cbn; [reflexivity|].
        now destruct (Z.of_nat attempt <? Z.of_nat retry_count - 1).
Qed.

Lemma api_attempts_bound (req : request) (retry_count : nat) (todo : list nat) :
  forall st,
    (sent (snd (api_attempts w req retry_count todo st))
     <= sent st + List.length todo)%nat.
Proof.
  induction todo as [|a todo IH]; intro st; cbn [api_attempts List.length]; [cbn; lia|].
  pose proof (api_attempt_sends_one req retry_count a st) as H1.
  destruct (api_attempt w req retry_count a st) as [[[v|]|e] st'];
    cbn [snd] in *; try lia.
  specialize (IH st'). lia.
Qed.

(** The retry ceiling: a call sends [retry_count] requests at most. *)
Lemma api_request_bound (req : request) (retry_count : nat) (st : net) :
  (sent (snd (api_request w req retry_count st)) <= sent st + retry_count)%nat.
Proof.
  unfold api_request.
  pose proof (api_attempts_bound req retry_count (seq 0 retry_count) st) as H.
  now rewrite length_seq in H.
Qed.

Lemma api_attempt_error (req : request) (retry_count attempt : nat)
  (st : net) (r : response) :
  w (sent st) req = Response r ->
  400 <= status_code r < 600 ->
  status_code r <> 404 ->
  status_code r <> 429 ->
  api_attempt w req retry_count attempt st
  = backoff retry_count attempt (mkNet (S (sent st)) (slept st)).
Proof.
  intros Hw [Hlo Hhi] H404 H429.
  unfold api_attempt, try_except, bind, requests_get, raise_for_status.
  rewrite Hw. apply Z.eqb_neq in H404, H429. rewrite H429.
  destruct (Z.leb_spec 400 (status_code r)); [|lia].
  destruct (Z.ltb_spec (status_code r) 600); [|lia].
  cbn. rewrite H404. unfold backoff.
  now destruct (Z.of_nat attempt <? Z.of_nat retry_count - 1).
Qed.

(** A service that keeps answering 429: every attempt waits, and the call
    ends with [None]. *)
Lemma api_attempts_limited (req : request) (retry_count : nat) (r : response)
  (t : Z) (todo : list nat) :
  (forall n, w n req = Response r) ->
  status_code r = 429 ->
  wait_seconds r = Some t ->
  0 <= t ->
  forall st,
    api_attempts w req retry_count todo st
    = (JNull, mkNet (sent st + List.length todo)
                    (slept st ++ repeat t (List.length todo))).
Proof.
  intros Hw Hs Ht Hpos.
  induction todo as [|a todo IH]; intro st; cbn [api_attempts List.length repeat].
  - rewrite Nat.add_0_r, app_nil_r. now destruct st.
  - rewrite (api_attempt_rate_limited req retry_count a st r t (Hw _) Hs Ht Hpos).
    rewrite IH. cbn [sent slept]. rewrite <- app_assoc. cbn [app].
    do 2 f_equal. lia.
Qed.

(** A service that keeps answering an error status: the attempts are two
    seconds apart, and the call ends with [None] after the last one. *)
Lemma api_attempts_erroring (req : request) (retry_count : nat) (r : response) :
  (forall n, w n req = Response r) ->
  400 <= status_code r < 600 ->
  status_code r <> 404 ->
  status_code r <> 429 ->
  forall (k a : nat) (st : net),
    (a + S k = retry_count)%nat ->
    api_attempts w req retry_count (seq a (S k)) st
    = (JNull, mkNet (sent st + S k) (slept st ++ repeat 2 k)).
Proof.
  intros Hw Hr H404 H429.
  induction k as [|k IH]; intros a st Ha.
  - cbn [seq api_attempts].
    rewrite (api_attempt_error req retry_count a st r (Hw _) Hr H404 H429).
    unfold backoff.
    destruct (Z.ltb_spec (Z.of_nat a) (Z.of_nat retry_count - 1)); [lia|].
    cbn. rewrite app_nil_r. do 2 f_equal. lia.
  - change (seq a (S (S k))) with (a :: seq (S a) (S k)). cbn [api_attempts].
    rewrite (api_attempt_error req retry_count a st r (Hw _) Hr H404 H429).
    unfold backoff.
    destruct (Z.ltb_spec (Z.of_nat a) (Z.of_nat retry_count - 1)); [|lia].
    cbn [bind sleep ret Z.ltb Z.compare sent slept].
    rewrite (IH (S a) (mkNet (S (sent st)) (slept st ++ [2]))) by lia.
    cbn [sent slept repeat]. rewrite <- app_assoc. cbn [app].
    do 2 f_equal. lia.
Qed.

Lemma fetch_page_fails (req : request) (st : net) :
  failing (w (sent st) req) ->
  exists e, fetch_page w req st = (Raise e, mkNet (S (sent st)) (slept st)).
Proof.
  intros [Hw|(r & Hw & Hlo & Hhi)];
    unfold fetch_page, bind, requests_get, raise_for_status; rewrite Hw.
  - eauto.
  - destruct (Z.leb_spec 400 (status_code r)); [|lia].
    destruct (Z.ltb_spec (status_code r) 600); [|lia]. cbn. eauto.
Qed.

Lemma fetch_page_serves (req : request) (st : net) (items : list json) (last : Z) :
  w (sent st) req = Response (page_response items last) ->
  fetch_page w req st
  = (Ok (items, page_body items last), mkNet (S (sent st)) (slept st)).
Proof.
  intro Hw. unfold fetch_page, bind, requests_get. rewrite Hw. reflexivity.
Qed.

(** The loop of the calculator's [get_team_events] over pages that are
    served, up to a request that fails: the events of the served pages. *)
Lemma final_events_loop_partial (team_id : Z) (season_id : string) (last : Z)
  (sl : list Z) (pages : list (list json)) :
  forall (fuel : nat) (first : Z) (events : list json) (n0 : nat),
    serves w n0 team_id season_id first pages last ->
    first + Z.of_nat (List.length pages) <= last ->
    failing (w (n0 + List.length pages)%nat
               (events_request team_id season_id
                  (first + Z.of_nat (List.length pages)))) ->
    (List.length pages < fuel)%nat ->
    final_events_loop fuel w team_id season_id first events (mkNet n0 sl)
    = Some (events ++ List.concat pages,
            mkNet (S (n0 + List.length pages)) sl).
Proof.
  induction pages as [|items pages IH]; intros fuel first events n0 Hs Hl Hf Hfuel;
    (destruct fuel as [|fuel]; [cbn in Hfuel; lia|]); cbn [final_events_loop].
  - cbn [List.length] in *. rewrite Nat.add_0_r, Z.add_0_r in Hf.
    destruct (fetch_page_fails _ (mkNet n0 sl) Hf) as [e ->].
    cbn. now rewrite app_nil_r, Nat.add_0_r.
  - pose proof (Hs 0%nat items eq_refl) as H0.
    rewrite Nat.add_0_r, Z.add_0_r in H0.
    rewrite (fetch_page_serves _ (mkNet n0 sl) items last H0).
    cbn [List.length] in *.
    replace (last_page_reached first (page_body items last)) with (Some false).
    2:{ unfold last_page_reached, page_reached. cbn.
        destruct (Z.geb_spec first last); [lia|reflexivity]. }
    cbn [sent slept]. rewrite (IH fuel (first + 1) (events ++ items) (S n0)).
    + cbn [List.concat]. rewrite app_assoc. do 3 f_equal. lia.
    + intros i its Hn. specialize (Hs (S i) its Hn).
      replace (n0 + S i)%nat with (S n0 + i)%nat in Hs by lia.
      replace (first + Z.of_nat (S i)) with (first + 1 + Z.of_nat i) in Hs by lia.
      exact Hs.
    + lia.
    + replace (S n0 + List.length pages)%nat with (n0 + S (List.length pages))%nat by lia.
      replace (first + 1 + Z.of_nat (List.length pages))
        with (first + Z.of_nat (S (List.length pages))) by lia.
      exact Hf.
    + lia.
Qed.

End FetcherFacts.

(** C7 (amended).  The calculator's [get_team_events] has no retry: when a
    page request gets no reply or an error status (404 and 429 included)
    after some pages were served, it returns the events of the served pages,
    possibly none, instead of raising.  The updated accessor's [api_request]
    returns [None] at once on a 404, waits the Retry-After seconds (5 without
    the header) on a 429 and goes on to the next attempt, sends at most
    [retry_count] requests, and returns [None] when they are used up; the
    paginated loop built on it then returns the events collected so far. *)
Theorem partial_results_contract (w : Net.world) (team_id : Z)
  (season_id : string) :
  (forall pages last n0 sl fuel,
      Net.serves w n0 team_id season_id 1 pages last ->
      1 + Z.of_nat (List.length pages) <= last ->
      Net.failing (w (n0 + List.length pages)%nat
                     (Net.events_request team_id season_id
                        (1 + Z.of_nat (List.length pages)))) ->
      (List.length pages < fuel)%nat ->
      Net.get_team_events fuel w team_id season_id (Net.mkNet n0 sl)
      = Some (List.concat pages, Net.mkNet (S (n0 + List.length pages)) sl))
  /\ (forall req retry_count st r,
        w (Net.sent st) req = Net.Response r ->
        Net.status_code r = 404 ->
        Net.api_request w req (S retry_count) st
        = (JNull, Net.mkNet (S (Net.sent st)) (Net.slept st)))
  /\ (forall req retry_count st r t,
        w (Net.sent st) req = Net.Response r ->
        Net.status_code r = 429 ->
        Net.wait_seconds r = Some t ->
        0 <= t ->
        Net.api_request w req (S retry_count) st
        = Net.api_attempts w req (S retry_count) (seq 1 retry_count)
            (Net.mkNet (S (Net.sent st)) (Net.slept st ++ [t])))
  /\ (forall r, Net.retry_after r = None -> Net.wait_seconds r = Some 5)
  /\ (forall req retry_count st,
        (Net.sent (snd (Net.api_request w req retry_count st))
         <= Net.sent st + retry_count)%nat)
  /\ (forall fuel page events st data st',
        Net.api_request w (Net.events_request team_id season_id page) 3 st
        = (data, st') ->
        Py.truthy data = false ->
        Net.team_events_loop (S fuel) w team_id season_id page events st
        = Some (Net.Ok events, st'))
  /\ (forall req retry_count st r t,
        (forall n, w n req = Net.Response r) ->
        Net.status_code r = 429 ->
        Net.wait_seconds r = Some t ->
        0 <= t ->
        Net.api_request w req retry_count st
        = (JNull, Net.mkNet (Net.sent st + retry_count)
                            (Net.slept st ++ repeat t retry_count)))
  /\ (forall req retry_count st r,
        (forall n, w n req = Net.Response r) ->
        400 <= Net.status_code r < 600 ->
        Net.status_code r <> 404 ->
        Net.status_code r <> 429 ->
        Net.api_request w req (S retry_count) st
        = (JNull, Net.mkNet (Net.sent st + S retry_count)
                            (Net.slept st ++ repeat 2 retry_count)))
  /\ Net.api_request Net.always_limited
       (Net.events_request team_id season_id 1) 3 Net.start
     = (JNull, Net.mkNet 3 [5; 5; 5]).
Proof.
  split; [|split; [|split; [|split; [|split; [|split; [|split; [|split]]]]]]].
  - intros pages last n0 sl fuel Hs Hl Hf Hfuel. unfold Net.get_team_events.
    now rewrite (final_events_loop_partial w team_id season_id last sl pages
                   fuel 1 [] n0 Hs Hl Hf Hfuel).
  - intros req rc st r Hw Hs. unfold Net.api_request.
    cbn [seq Net.api_attempts].
    now rewrite (api_attempt_not_found w req (S rc) 0 st r Hw Hs).
  - intros req rc st r t Hw Hs Ht Hpos. unfold Net.api_request.
    cbn [seq Net.api_attempts].
    now rewrite (api_attempt_rate_limited w req (S rc) 0 st r t Hw Hs Ht Hpos).
  - intros r Hr. unfold Net.wait_seconds. now rewrite Hr.
  - apply api_request_bound.
  - intros fuel page events st data st' Ha Ht. cbn [Net.team_events_loop].
    now rewrite Ha, Ht.
  - intros req rc st r t Hw Hs Ht Hpos. unfold Net.api_request.
    rewrite (api_attempts_limited w req rc r t (seq 0 rc) Hw Hs Ht Hpos).
    now rewrite length_seq.
  - intros req rc st r Hw Hr H404 H429. unfold Net.api_request.
    now apply api_attempts_erroring with (r := r).
  - reflexivity.
Qed.

Lemma partial_results_contract_witness :
  Net.get_team_events 5 Net.second_page_down 7 "190" Net.start
  = Some ([Net.item 1; Net.item 2], Net.mkNet 2 []).
Proof.
  assert (Hs : Net.serves Net.second_page_down 0 7 "190" 1
                 [[Net.item 1; Net.item 2]] 2).
  { intros [|[|i]] items H; cbn in H; try discriminate.
    injection H as <-. reflexivity. }
  assert (Hf : Net.failing (Net.second_page_down (0 + 1)%nat
                              (Net.events_request 7 "190" (1 + Z.of_nat 1)))).
  { right. exists (Net.error_response 500). split; [reflexivity|cbn; lia]. }
  exact (proj1 (partial_results_contract Net.second_page_down 7 "190")
               [[Net.item 1; Net.item 2]] 2 0%nat [] 5%nat Hs
               ltac:(cbn; lia) Hf ltac:(cbn; lia)).
Defined.

(** C7, as stated, fails for the calculator's fetchers: when the second page
    of a listing answers 500, [get_team_matches] returns the empty list and
    not the matches of the first page (as [get_team_events] does with its
    events); and a 429 is not retried: [get_team_events] gives up after its
    single request, without waiting, where the updated accessor waits the 7
    seconds asked for and obtains the page. *)
Lemma failed_page_drops_matches :
  Net.get_team_matches Net.second_page_down 1 7 Net.start
  = (JArr [], Net.mkNet 2 [])
  /\ Net.get_team_events 5 Net.second_page_down 7 "190" Net.start
     = Some ([Net.item 1; Net.item 2], Net.mkNet 2 [])
  /\ Net.get_team_events 5 Net.limited_once 7 "190" Net.start
     = Some ([], Net.mkNet 1 [])
  /\ Net.get_team_events_updated 5 Net.limited_once 7 "190" Net.start
     = Some (Net.Ok [Net.item 1], Net.mkNet 2 [7]).
Proof. repeat split. Qed.

(** * Further properties of the code *)

(** ** Pagination *)

Section PagingFacts.

Import Net Paging.

Variable w : world.

(** The loop of the calculator's [get_team_events] over pages that are all
    served, the last one being the page the service announces as last. *)
Lemma final_events_loop_complete (team_id : Z) (season_id : string) (last : Z)
  (sl : list Z) (pages : list (list json)) :
  forall (fuel : nat) (first : Z) (events : list json) (n0 : nat),
    pages <> [] ->
    serves w n0 team_id season_id first pages last ->
    first + Z.of_nat (List.length pages) = last + 1 ->
    (List.length pages <= fuel)%nat ->
    final_events_loop fuel w team_id season_id first events (mkNet n0 sl)
    = Some (events ++ List.concat pages, mkNet (n0 + List.length pages) sl).
Proof.
  induction pages as [|items pages IH]; intros fuel first events n0 Hne Hs Hl Hfuel;
    [congruence|].
  destruct fuel as [|fuel]; [cbn in Hfuel; lia|]. cbn [final_events_loop].
  pose proof (Hs 0%nat items eq_refl) as H0.
  rewrite Nat.add_0_r, Z.add_0_r in H0.
  rewrite (fetch_page_serves w _ (mkNet n0 sl) items last H0).
  cbn [List.length] in *. unfold last_page_reached, page_reached. cbn.
  destruct pages as [|items' pages].
  - cbn [List.length Z.of_nat Pos.of_succ_nat] in *.
    destruct (Z.geb_spec first last); [|lia].
    cbn. rewrite app_nil_r. repeat f_equal. lia.
  - cbn [List.length] in Hl. destruct (Z.geb_spec first last); [lia|].
    rewrite (IH fuel (first + 1) (events ++ items) (S n0)).
    + cbn [List.concat List.length]. rewrite <- app_assoc.
      replace (S n0 + S (List.length pages))%nat
        with (n0 + S (S (List.length pages)))%nat by lia.
      reflexivity.
    + discriminate.
    + intros i its Hn. specialize (Hs (S i) its Hn).
      replace (n0 + S i)%nat with (S n0 + i)%nat in Hs by lia.
      replace (first + Z.of_nat (S i)) with (first + 1 + Z.of_nat i) in Hs by lia.
      exact Hs.
    + cbn [List.length]. lia.
    + cbn [List.length] in *. lia.
Qed.

Lemma fetch_page_inv (req : request) (st st' : net) (items : list json)
  (data : json) :
  fetch_page w req st = (Ok (items, data), st') ->
  st' = mkNet (S (sent st)) (slept st)
  /\ exists r, w (sent st) req = Response r /\ body r = Some data.
Proof.
  unfold fetch_page, bind, requests_get, raise_for_status, response_json, lift.
  destruct (w (sent st) req) as [|r] eqn:Hw; [discriminate|].
  destruct ((400 <=? status_code r) && (status_code r <? 600)); [discriminate|].
  cbn. destruct (body r) as [d|] eqn:Hb; [|discriminate]. cbn.
  destruct (bind_opt (Py.getitem d "data") Py.iter); [|discriminate].
  cbn. intros [= <- <- <-]. split; [reflexivity|]. exists r. now split.
Qed.

Lemma fetch_page_sends_one (req : request) (st : net) :
  snd (fetch_page w req st) = mkNet (S (sent st)) (slept st).
Proof.
  unfold fetch_page, bind, requests_get, raise_for_status, response_json, lift.
  destruct (w (sent st) req) as [|r]; [reflexivity|].
  destruct ((400 <=? status_code r) && (status_code r <? 600)); [reflexivity|].
  cbn. destruct (body r) as [d|]; [|reflexivity]. cbn.
  now destruct (bind_opt (Py.getitem d "data") Py.iter).
Qed.

(** When no reply announces more than [bound] pages, the loop ends, and it
    sends one request per page up to the bound. *)
Lemma final_events_loop_ends (team_id : Z) (season_id : string) (bound : Z) :
  (forall n req r data page,
      w n req = Response r -> body r = Some data ->
      last_page_reached page data = Some false -> page < bound) ->
  forall (fuel : nat) (page : Z) (events : list json) (st : net),
    (Z.to_nat (bound - page) < fuel)%nat ->
    exists found st',
      final_events_loop fuel w team_id season_id page events st
      = Some (found, st')
      /\ (sent st' <= sent st + Z.to_nat (bound - page) + 1)%nat
      /\ slept st' = slept st.
Proof.
  intro Hb. induction fuel as [|fuel IH]; intros page events st Hfuel; [lia|].
  cbn [final_events_loop].
  pose proof (fetch_page_sends_one (events_request team_id season_id page) st) as Hst.
  destruct (fetch_page w (events_request team_id season_id page) st)
    as [[[items data]|e] st1] eqn:Ef; cbn [snd] in Hst; subst st1.
  - destruct (fetch_page_inv _ _ _ _ _ Ef) as (_ & r & Hw & Hbody).
    destruct (last_page_reached page data) as [[|]|] eqn:El.
    + do 2 eexists. split; [reflexivity|]. cbn. split; [lia|reflexivity].
    + pose proof (Hb _ _ _ _ _ Hw Hbody El) as Hlt.
      destruct (IH (page + 1) (events ++ items) (mkNet (S (sent st)) (slept st)))
        as (found & st' & E & Hs & Hsl); [lia|].
      exists found, st'. split; [exact E|]. cbn [sent slept] in *. split; [lia|exact Hsl].
    + do 2 eexists. split; [reflexivity|]. cbn. split; [lia|reflexivity].
  - do 2 eexists. split; [reflexivity|]. cbn. split; [lia|reflexivity].
Qed.

End PagingFacts.

Section MatchPagingFacts.

Import Net Paging.

Variable w : world.

Lemma more_pages_of_page_body (items : list json) (last : Z) :
  more_pages (page_body items last)
  = Some (if last >? 1 then Some last else None).
Proof. unfold more_pages. cbn. now destruct (last >? 1). Qed.

(** The later pages, all served. *)
Lemma extend_pages_served (page_request : Z -> request) (last : Z) (sl : list Z)
  (rest : list (list json)) :
  forall (a : nat) (acc : list json) (n : nat),
    (forall i items,
        nth_error rest i = Some items ->
        w (n + i)%nat (page_request (Z.of_nat (a + i) + 2))
        = Response (page_response items last)) ->
    extend_pages w page_request
      (map (fun i => Z.of_nat i + 2) (seq a (List.length rest)))
      (JArr acc) (mkNet n sl)
    = (Ok (JArr (acc ++ List.concat rest)), mkNet (n + List.length rest) sl).
Proof.
  induction rest as [|items rest IH]; intros a acc n Hs.
  - cbn. now rewrite app_nil_r, Nat.add_0_r.
  - cbn [List.length seq map extend_pages]. unfold bind at 1, requests_get at 1.
    pose proof (Hs 0%nat items eq_refl) as H0. rewrite !Nat.add_0_r in H0.
    cbn [sent slept]. rewrite H0. cbn.
    rewrite (IH (S a) (acc ++ items) (S n)).
    + cbn [List.concat]. rewrite <- app_assoc.
      replace (S n + List.length rest)%nat with (n + S (List.length rest))%nat by lia.
      reflexivity.
    + intros i its Hn. specialize (Hs (S i) its Hn).
      replace (n + S i)%nat with (S n + i)%nat in Hs by lia.
      replace (a + S i)%nat with (S a + i)%nat in Hs by lia. exact Hs.
Qed.

(** The later pages, served up to a request that fails while pages are still
    due. *)
Lemma extend_pages_broken (page_request : Z -> request) (last : Z) (sl : list Z)
  (rest : list (list json)) (due : nat) :
  forall (a : nat) (acc : list json) (n : nat),
    (forall i items,
        nth_error rest i = Some items ->
        w (n + i)%nat (page_request (Z.of_nat (a + i) + 2))
        = Response (page_response items last)) ->
    failing (w (n + List.length rest)%nat
               (page_request (Z.of_nat (a + List.length rest) + 2))) ->
    exists e,
      extend_pages w page_request
        (map (fun i => Z.of_nat i + 2) (seq a (List.length rest + S due)))
        (JArr acc) (mkNet n sl)
      = (Raise e, mkNet (S (n + List.length rest)) sl).
Proof.
  induction rest as [|items rest IH]; intros a acc n Hs Hf.
  - cbn [List.length Nat.add seq map extend_pages].
    rewrite !Nat.add_0_r in Hf. unfold bind at 1, requests_get at 1.
    cbn [sent slept]. rewrite Nat.add_0_r.
    destruct Hf as [Hw|(r & Hw & Hlo & Hhi)]; rewrite Hw; [eauto|].
    unfold bind at 1, raise_for_status.
    destruct (Z.leb_spec 400 (status_code r)); [|lia].
    destruct (Z.ltb_spec (status_code r) 600); [|lia]. cbn. eauto.
  - cbn [List.length Nat.add seq map extend_pages]. unfold bind at 1, requests_get at 1.
    pose proof (Hs 0%nat items eq_refl) as H0. rewrite !Nat.add_0_r in H0.
    cbn [sent slept]. rewrite H0. cbn.
    destruct (IH (S a) (acc ++ items) (S n)) as [e He].
    + intros i its Hn. specialize (Hs (S i) its Hn).
      replace (n + S i)%nat with (S n + i)%nat in Hs by lia.
      replace (a + S i)%nat with (S a + i)%nat in Hs by lia. exact Hs.
    + cbn [List.length] in Hf.
      replace (S n + List.length rest)%nat with (n + S (List.length rest))%nat by lia.
      replace (S a + List.length rest)%nat with (a + S (List.length rest))%nat by lia.
      exact Hf.
    + exists e. rewrite He.
      replace (S n + List.length rest)%nat with (n + S (List.length rest))%nat by lia.
      reflexivity.
Qed.

(** [get_team_matches] once its first request is served. *)
Lemma get_team_matches_first_served (event_id team_id : Z) (first : list json)
  (last : Z) (st : net) :
  w (sent st) (matches_request event_id team_id None)
  = Response (page_response first last) ->
  get_team_matches w event_id team_id st
  = match (if last >? 1
           then extend_pages w
                  (fun p => matches_request event_id team_id (Some p))
                  (later_pages last) (JArr first)
           else ret (JArr first)) (mkNet (S (sent st)) (slept st)) with
    | (Ok matches, st') => (matches, st')
    | (Raise _, st') => (JArr [], st')
    end.
Proof.
  intro H0.
  unfold get_team_matches, bind, requests_get, raise_for_status, response_json.
  rewrite H0. cbn [status_code page_response body]. cbn [Z.leb Z.ltb Z.compare Pos.compare Pos.compare_cont andb ret lift].
  change (Py.get (page_body first last) "data" (JArr [])) with (Some (JArr first)).
  cbn [lift ret]. rewrite more_pages_of_page_body. cbn [lift ret].
  now destruct (last >? 1).
Qed.

End MatchPagingFacts.

(** X1.  When the service serves every page of a team's events, the
    calculator's [get_team_events] returns the events of all the pages in
    page order, after one request per page. *)
Theorem team_events_all_pages (w : Net.world) (team_id : Z) (season_id : string)
  (pages : list (list json)) (n0 : nat) (sl : list Z) (fuel : nat) :
  pages <> [] ->
  Net.serves w n0 team_id season_id 1 pages (Z.of_nat (List.length pages)) ->
  (List.length pages <= fuel)%nat ->
  Net.get_team_events fuel w team_id season_id (Net.mkNet n0 sl)
  = Some (List.concat pages, Net.mkNet (n0 + List.length pages) sl).
Proof.
  intros Hne Hs Hfuel. unfold Net.get_team_events.
  rewrite (final_events_loop_complete w team_id season_id
             (Z.of_nat (List.length pages)) sl pages fuel 1 [] n0 Hne Hs);
    [reflexivity|lia|exact Hfuel].
Qed.

Lemma team_events_all_pages_witness :
  Net.get_team_events 2 PagingSamples.two_pages 7 "190" Net.start
  = Some ([Net.item 1; Net.item 2; Net.item 3], Net.mkNet 2 []).
Proof.
  assert (Hs : Net.serves PagingSamples.two_pages 0 7 "190" 1
                 [[Net.item 1; Net.item 2]; [Net.item 3]] 2).
  { intros [|[|[|i]]] items H; cbn in H; try discriminate;
      injection H as <-; reflexivity. }
  exact (team_events_all_pages PagingSamples.two_pages 7 "190"
           [[Net.item 1; Net.item 2]; [Net.item 3]] 0 [] 2
           ltac:(discriminate) Hs ltac:(cbn; lia)).
Defined.

(** X2.  When no reply of the service announces more than [bound] pages, the
    calculator's [get_team_events] returns, whatever the replies are, after
    at most [bound] requests (one when [bound] is below 1) and without
    waiting. *)
Theorem team_events_ends (w : Net.world) (team_id : Z) (season_id : string)
  (bound : Z) (st : Net.net) (fuel : nat) :
  (forall n req r data page,
      w n req = Net.Response r -> Net.body r = Some data ->
      Net.last_page_reached page data = Some false -> page < bound) ->
  (Z.to_nat (bound - 1) < fuel)%nat ->
  exists events st',
    Net.get_team_events fuel w team_id season_id st = Some (events, st')
    /\ (Net.sent st' <= Net.sent st + Z.to_nat (bound - 1) + 1)%nat
    /\ Net.slept st' = Net.slept st.
Proof.
  intros Hb Hfuel. unfold Net.get_team_events.
  exact (final_events_loop_ends w team_id season_id bound Hb fuel 1 [] st Hfuel).
Qed.

Lemma team_events_ends_witness :
  exists events st',
    Net.get_team_events 5 PagingSamples.two_pages 7 "190" Net.start
    = Some (events, st')
    /\ (Net.sent st' <= 2)%nat.
Proof.
  assert (Hb : forall n req r data page,
             PagingSamples.two_pages n req = Net.Response r ->
             Net.body r = Some data ->
             Net.last_page_reached page data = Some false -> page < 2).
  { intros [|n] req r data page Hw Hbody Hl; cbn in Hw; injection Hw as <-;
      cbn in Hbody; injection Hbody as <-;
      unfold Net.last_page_reached, Net.page_reached in Hl; cbn in Hl;
      destruct (Z.geb_spec page 2); try discriminate; lia. }
  destruct (team_events_ends PagingSamples.two_pages 7 "190" 2 Net.start 5 Hb
              ltac:(cbn; lia)) as (events & st' & E & Hs & _).
  exists events, st'. split; [exact E|exact Hs].
Defined.

(** X3.  The loop of the calculator's [get_team_events] has no bound of its
    own: against a service that answers every page request with a page that
    announces a later last page, it does not return, however long it runs. *)
Theorem team_events_never_ends (w : Net.world) (team_id : Z)
  (season_id : string) :
  (forall n page, exists items last,
      w n (Net.events_request team_id season_id page)
      = Net.Response (Net.page_response items last) /\ page < last) ->
  forall fuel page events st,
    Net.final_events_loop fuel w team_id season_id page events st = None.
Proof.
  intro Hw. induction fuel as [|fuel IH]; intros page events st; [reflexivity|].
  cbn [Net.final_events_loop].
  destruct (Hw (Net.sent st) page) as (items & last & Hr & Hlt).
  rewrite (fetch_page_serves w _ st items last Hr).
  unfold Net.last_page_reached, Net.page_reached. cbn.
  destruct (Z.geb_spec page last); [lia|]. apply IH.
Qed.

Lemma team_events_never_ends_witness :
  Net.get_team_events 1000 Paging.endless 7 "190" Net.start = None.
Proof.
  assert (Hw : forall n page, exists items last,
             Paging.endless n (Net.events_request 7 "190" page)
             = Net.Response (Net.page_response items last) /\ page < last).
  { intros n page. exists [Net.item page], (page + 1). split; [reflexivity|lia]. }
  exact (team_events_never_ends Paging.endless 7 "190" Hw 1000%nat 1 [] Net.start).
Defined.

(** X4.  When the service serves every page of a team's matches at an event,
    the calculator's [get_team_matches] returns the matches of all the pages
    in page order, after one request per page. *)
Theorem team_matches_all_pages (w : Net.world) (event_id team_id : Z)
  (first : list json) (rest : list (list json)) (last : Z) (n0 : nat)
  (sl : list Z) :
  Paging.serves_matches w n0 event_id team_id first rest last ->
  List.length rest = Z.to_nat (last - 1) ->
  Net.get_team_matches w event_id team_id (Net.mkNet n0 sl)
  = (JArr (first ++ List.concat rest), Net.mkNet (S n0 + List.length rest) sl).
Proof.
  intros [H0 Hs] Hlen.
  rewrite (get_team_matches_first_served w event_id team_id first last
             (Net.mkNet n0 sl) H0). cbn [Net.sent Net.slept].
  destruct (Z.gtb_spec last 1) as [Hgt|Hle].
  - unfold Net.later_pages. rewrite <- Hlen.
    now rewrite (extend_pages_served w _ last sl rest 0 first (S n0)).
  - destruct rest; [|cbn in Hlen; lia]. cbn. now rewrite app_nil_r, Nat.add_0_r.
Qed.

Lemma team_matches_all_pages_witness :
  Net.get_team_matches PagingSamples.two_pages 1 7 Net.start
  = (JArr [Net.item 1; Net.item 2; Net.item 3], Net.mkNet 2 []).
Proof.
  assert (Hs : Paging.serves_matches PagingSamples.two_pages 0 1 7
                 [Net.item 1; Net.item 2] [[Net.item 3]] 2).
  { split; [reflexivity|]. intros [|[|i]] items H; cbn in H; try discriminate.
    injection H as <-. reflexivity. }
  exact (team_matches_all_pages PagingSamples.two_pages 1 7
           [Net.item 1; Net.item 2] [[Net.item 3]] 2 0 [] Hs eq_refl).
Defined.

(** X5.  The calculator's [get_team_matches] is all or nothing: when a request
    for one of the later pages fails after the pages before it were served,
    it returns the empty list. *)
Theorem team_matches_all_or_nothing (w : Net.world) (event_id team_id : Z)
  (first : list json) (rest : list (list json)) (last : Z) (n0 : nat)
  (sl : list Z) :
  Paging.serves_matches w n0 event_id team_id first rest last ->
  (List.length rest < Z.to_nat (last - 1))%nat ->
  Net.failing
    (w (S n0 + List.length rest)%nat
       (Net.matches_request event_id team_id
          (Some (Z.of_nat (List.length rest) + 2)))) ->
  Net.get_team_matches w event_id team_id (Net.mkNet n0 sl)
  = (JArr [], Net.mkNet (S (S n0 + List.length rest)) sl).
Proof.
  intros [H0 Hs] Hlen Hf.
  rewrite (get_team_matches_first_served w event_id team_id first last
             (Net.mkNet n0 sl) H0). cbn [Net.sent Net.slept].
  destruct (Z.gtb_spec last 1) as [Hgt|Hle]; [|lia].
  unfold Net.later_pages.
  replace (Z.to_nat (last - 1))
    with (List.length rest + S (Z.to_nat (last - 1) - List.length rest - 1))%nat
    by lia.
  destruct (extend_pages_broken w
              (fun p => Net.matches_request event_id team_id (Some p)) last sl rest
              (Z.to_nat (last - 1) - List.length rest - 1) 0 first (S n0))
    as [e ->]; [exact Hs|exact Hf|reflexivity].
Qed.

Lemma team_matches_all_or_nothing_witness :
  Net.get_team_matches Net.second_page_down 1 7 Net.start
  = (JArr [], Net.mkNet 2 []).
Proof.
  assert (Hs : Paging.serves_matches Net.second_page_down 0 1 7
                 [Net.item 1; Net.item 2] [] 2).
  { split; [reflexivity|]. intros [|i] items H; discriminate. }
  assert (Hf : Net.failing
                 (Net.second_page_down (1 + 0)%nat
                    (Net.matches_request 1 7 (Some (Z.of_nat 0 + 2))))).
  { right. exists (Net.error_response 500). split; [reflexivity|cbn; lia]. }
  exact (team_matches_all_or_nothing Net.second_page_down 1 7
           [Net.item 1; Net.item 2] [] 2 0 [] Hs ltac:(cbn; lia) Hf).
Defined.

(** ** The retrying request *)

Section RetryFacts.

Import Net Paging.

Variables (w : world) (req : request).

Lemma api_attempt_transient (retry_count attempt : nat) (st : net) :
  transient (w (sent st) req) ->
  api_attempt w req retry_count attempt st
  = backoff retry_count attempt (mkNet (S (sent st)) (slept st)).
Proof.
  unfold transient, api_attempt, try_except, bind, requests_get, raise_for_status,
    response_json, lift, sleep, ret, raise.
  destruct (w (sent st) req) as [|r]; [reflexivity|].
  destruct (status_code r =? 429) eqn:E429.
  - destruct (wait_seconds r) as [t|]; [|reflexivity].
    intro Ht. destruct (Z.ltb_spec t 0); [reflexivity|lia].
  - destruct ((400 <=? status_code r) && (status_code r <? 600)).
    + intro H404. apply Z.eqb_neq in H404. cbn. rewrite H404. unfold backoff.
      now destruct (Z.of_nat attempt <? Z.of_nat retry_count - 1).
    + now intros ->.
Qed.

Lemma api_attempt_delivers (retry_count attempt : nat) (st : net)
  (r : response) (data : json) :
  w (sent st) req = Response r ->
  delivers r data ->
  api_attempt w req retry_count attempt st
  = (Ok (Return data), mkNet (S (sent st)) (slept st)).
Proof.
  intros Hw (H429 & Hok & Hbody).
  unfold api_attempt, try_except, bind, requests_get, raise_for_status, response_json.
  rewrite Hw. apply Z.eqb_neq in H429. rewrite H429, Hok, Hbody. reflexivity.
Qed.

(** After [k] transient failures the next attempt, if it is still due,
    delivers. *)
Lemma api_attempts_recover (retry_count : nat) (r : response) (data : json) :
  forall (k a m : nat) (st : net),
    (a + m = retry_count)%nat ->
    (k < m)%nat ->
    (forall j, (j < k)%nat -> transient (w (sent st + j)%nat req)) ->
    w (sent st + k)%nat req = Response r ->
    delivers r data ->
    api_attempts w req retry_count (seq a m) st
    = (data, mkNet (sent st + S k) (slept st ++ repeat 2 k)).
Proof.
  induction k as [|k IH]; intros a m st Ha Hk Ht Hw Hd;
    (destruct m as [|m]; [lia|]); cbn [seq api_attempts].
  - rewrite Nat.add_0_r in Hw. rewrite (api_attempt_delivers _ a st r data Hw Hd).
    cbn. rewrite app_nil_r. do 2 f_equal. lia.
  - rewrite api_attempt_transient.
    2:{ specialize (Ht 0%nat). rewrite Nat.add_0_r in Ht. apply Ht. lia. }
    unfold backoff.
    destruct (Z.ltb_spec (Z.of_nat a) (Z.of_nat retry_count - 1)); [|lia].
    cbn [bind sleep ret Z.ltb Z.compare sent slept].
    rewrite (IH (S a) m (mkNet (S (sent st)) (slept st ++ [2]))).
    + cbn [sent slept repeat]. rewrite <- app_assoc. cbn [app].
      replace (S (sent st) + S k)%nat with (sent st + S (S k))%nat by lia.
      reflexivity.
    + lia.
    + lia.
    + intros j Hj. cbn [sent]. specialize (Ht (S j)).
      replace (S (sent st) + j)%nat with (sent st + S j)%nat by lia.
      apply Ht. lia.
    + cbn [sent]. replace (S (sent st) + k)%nat with (sent st + S k)%nat by lia.
      exact Hw.
    + exact Hd.
Qed.

End RetryFacts.

(** X6.  [api_request] recovers from transient failures: when the first [k]
    attempts get no reply, an error status other than 404 and 429, an
    undecodable body or a 429 without a usable Retry-After, and attempt
    [k + 1] is within the ceiling and gets a good reply, the call returns the
    body of that reply after [k + 1] requests and [k] waits of 2 seconds. *)
Theorem api_request_recovers (w : Net.world) (req : Net.request)
  (retry_count k : nat) (st : Net.net) (r : Net.response) (data : json) :
  (k < retry_count)%nat ->
  (forall j, (j < k)%nat -> Paging.transient (w (Net.sent st + j)%nat req)) ->
  w (Net.sent st + k)%nat req = Net.Response r ->
  Paging.delivers r data ->
  Net.api_request w req retry_count st
  = (data, Net.mkNet (Net.sent st + S k) (Net.slept st ++ repeat 2 k)).
Proof.
  intros Hk Ht Hw Hd. unfold Net.api_request.
  now apply (api_attempts_recover w req retry_count r data k 0 retry_count st).
Qed.

Lemma api_request_recovers_witness :
  Net.api_request PagingSamples.third_time_lucky
    (Net.events_request 7 "190" 1) 3 Net.start
  = (Net.page_body [Net.item 1] 1, Net.mkNet 3 [2; 2]).
Proof.
  assert (Ht : forall j, (j < 2)%nat ->
             Paging.transient
               (PagingSamples.third_time_lucky (0 + j)%nat
                  (Net.events_request 7 "190" 1))).
  { intros [|[|j]] Hj; cbn; [exact I|discriminate|lia]. }
  assert (Hd : Paging.delivers (Net.page_response [Net.item 1] 1)
                 (Net.page_body [Net.item 1] 1)).
  { repeat split. discriminate. }
  exact (api_request_recovers PagingSamples.third_time_lucky
           (Net.events_request 7 "190" 1) 3 2 Net.start
           (Net.page_response [Net.item 1] 1) (Net.page_body [Net.item 1] 1)
           ltac:(lia) Ht eq_refl Hd).
Defined.

Section UpdatedPagingFacts.

Import Net Paging.

Variable w : world.

Lemma api_request_delivers (req : request) (st : net) (r : response)
  (data : json) :
  w (sent st) req = Response r ->
  delivers r data ->
  api_request w req 3 st = (data, mkNet (S (sent st)) (slept st)).
Proof.
  intros Hw Hd. unfold api_request.
  assert (Hw' : w (sent st + 0)%nat req = Response r) by now rewrite Nat.add_0_r.
  assert (Ht : forall j, (j < 0)%nat -> transient (w (sent st + j)%nat req))
    by (intros j Hj; lia).
  rewrite (api_attempts_recover w req 3 r data 0 0 3 st eq_refl ltac:(lia) Ht Hw' Hd).
  cbn [repeat]. rewrite app_nil_r. replace (sent st + 1)%nat with (S (sent st)) by lia.
  reflexivity.
Qed.

Lemma page_response_delivers (items : list json) (last : Z) :
  delivers (page_response items last) (page_body items last).
Proof. repeat split. discriminate. Qed.

(** The loop of the updated accessor's [get_team_events] over pages that are
    all served at the first attempt. *)
Lemma team_events_loop_complete (team_id : Z) (season_id : string) (last : Z)
  (sl : list Z) (pages : list (list json)) :
  forall (fuel : nat) (first : Z) (events : list json) (n0 : nat),
    pages <> [] ->
    serves w n0 team_id season_id first pages last ->
    first + Z.of_nat (List.length pages) = last + 1 ->
    (List.length pages <= fuel)%nat ->
    team_events_loop fuel w team_id season_id first events (mkNet n0 sl)
    = Some (Ok (events ++ List.concat pages), mkNet (n0 + List.length pages) sl).
Proof.
  induction pages as [|items pages IH]; intros fuel first events n0 Hne Hs Hl Hfuel;
    [congruence|].
  destruct fuel as [|fuel]; [cbn in Hfuel; lia|]. cbn [team_events_loop].
  pose proof (Hs 0%nat items eq_refl) as H0.
  rewrite Nat.add_0_r, Z.add_0_r in H0.
  rewrite (api_request_delivers _ (mkNet n0 sl) _ _ H0 (page_response_delivers items last)).
  cbn [sent slept]. unfold page_reached. cbn.
  destruct pages as [|items' pages].
  - cbn [List.length Z.of_nat Pos.of_succ_nat] in *.
    destruct (Z.geb_spec first last); [|lia].
    cbn. rewrite app_nil_r. replace (n0 + 1)%nat with (S n0) by lia. reflexivity.
  - cbn [List.length] in Hl. destruct (Z.geb_spec first last); [lia|].
    rewrite (IH fuel (first + 1) (events ++ items) (S n0)).
    + cbn [List.concat List.length]. rewrite <- app_assoc.
      replace (S n0 + S (List.length pages))%nat
        with (n0 + S (S (List.length pages)))%nat by lia.
      reflexivity.
    + discriminate.
    + intros i its Hn. specialize (Hs (S i) its Hn).
      replace (n0 + S i)%nat with (S n0 + i)%nat in Hs by lia.
      replace (first + Z.of_nat (S i)) with (first + 1 + Z.of_nat i) in Hs by lia.
      exact Hs.
    + cbn [List.length]. lia.
    + cbn [List.length] in *. lia.
Qed.

End UpdatedPagingFacts.

(** X7.  When the service serves every page of a team's events at the first
    attempt, the updated accessor's [get_team_events] returns the events of
    all the pages in page order, after one request per page and without
    waiting. *)
Theorem team_events_updated_all_pages (w : Net.world) (team_id : Z)
  (season_id : string) (pages : list (list json)) (n0 : nat) (sl : list Z)
  (fuel : nat) :
  pages <> [] ->
  Net.serves w n0 team_id season_id 1 pages (Z.of_nat (List.length pages)) ->
  (List.length pages <= fuel)%nat ->
  Net.get_team_events_updated fuel w team_id season_id (Net.mkNet n0 sl)
  = Some (Net.Ok (List.concat pages), Net.mkNet (n0 + List.length pages) sl).
Proof.
  intros Hne Hs Hfuel. unfold Net.get_team_events_updated.
  rewrite (team_events_loop_complete w team_id season_id
             (Z.of_nat (List.length pages)) sl pages fuel 1 [] n0 Hne Hs);
    [reflexivity|lia|exact Hfuel].
Qed.

Lemma team_events_updated_all_pages_witness :
  Net.get_team_events_updated 2 PagingSamples.two_pages 7 "190" Net.start
  = Some (Net.Ok [Net.item 1; Net.item 2; Net.item 3], Net.mkNet 2 []).
Proof.
  assert (Hs : Net.serves PagingSamples.two_pages 0 7 "190" 1
                 [[Net.item 1; Net.item 2]; [Net.item 3]] 2).
  { intros [|[|[|i]]] items H; cbn in H; try discriminate;
      injection H as <-; reflexivity. }
  exact (team_events_updated_all_pages PagingSamples.two_pages 7 "190"
           [[Net.item 1; Net.item 2]; [Net.item 3]] 0 [] 2
           ltac:(discriminate) Hs ltac:(cbn; lia)).
Defined.

(** X8.  A good reply whose body carries the items but no "meta" object is
    handled differently by two fetchers of the updated accessor:
    [get_team_events] reads [data["meta"]] unguarded and raises, while
    [get_division_matches] tests for the key and returns the items. *)
Theorem page_without_meta (w : Net.world) (team_id event_id : Z)
  (season_id : string) (division_id : json) (team : option Z) (fuel : nat)
  (st : Net.net) (r : Net.response) (fields : list (string * json))
  (items : list json) :
  (forall req, w (Net.sent st) req = Net.Response r) ->
  Paging.delivers r (JObj fields) ->
  Py.assoc "data" fields = Some (JArr items) ->
  Py.assoc "meta" fields = None ->
  Net.get_team_events_updated (S fuel) w team_id season_id st
  = Some (Net.Raise Net.OtherError, Net.mkNet (S (Net.sent st)) (Net.slept st))
  /\ Paging.get_division_matches_updated (S fuel) w event_id division_id team st
     = Some (Net.Ok items, Net.mkNet (S (Net.sent st)) (Net.slept st)).
Proof.
  intros Hw Hd Hdata Hmeta.
  assert (Ht : Py.truthy (JObj fields) = true)
    by (destruct fields; [discriminate|reflexivity]).
  split.
  - unfold Net.get_team_events_updated. cbn [Net.team_events_loop].
    rewrite (api_request_delivers w _ st r (JObj fields) (Hw _) Hd), Ht.
    cbn [negb Py.get Py.getitem]. rewrite Hdata, Hmeta. reflexivity.
  - unfold Paging.get_division_matches_updated. cbn [Paging.division_matches_loop].
    rewrite (api_request_delivers w _ st r (JObj fields) (Hw _) Hd), Ht.
    cbn [negb Py.get]. rewrite Hdata. cbn [bind_opt Py.iter].
    unfold Paging.no_more_pages. cbn [Py.contains]. rewrite Hmeta. reflexivity.
Qed.

Lemma page_without_meta_witness :
  Net.get_team_events_updated 1 PagingSamples.no_meta 7 "190" Net.start
  = Some (Net.Raise Net.OtherError, Net.mkNet 1 [])
  /\ Paging.get_division_matches_updated 1 PagingSamples.no_meta 1 (JInt 1)
       (Some 7) Net.start
     = Some (Net.Ok [Net.item 1], Net.mkNet 1 []).
Proof.
  assert (Hd : Paging.delivers
                 (Net.mkResponse 200 None (Some (Paging.bare_body [Net.item 1])))
                 (JObj [("data", JArr [Net.item 1])])).
  { repeat split. discriminate. }
  exact (page_without_meta PagingSamples.no_meta 7 1 "190" (JInt 1) (Some 7) 0
           Net.start _ [("data", JArr [Net.item 1])] [Net.item 1]
           (fun _ => eq_refl) Hd eq_refl eq_refl).
Defined.

(** ** The other score classifiers *)

Section VariantFacts.

Import Classifier Variants.

Variable team_id : Z.

Lemma len_iter (v : json) (n : nat) :
  Py.len v = Some n -> exists items, Py.iter v = Some items.
Proof. destruct v; cbn; try discriminate; eauto. Qed.

(** On one match the accessor's body gives what the calculator's gives, when
    the match has two alliances or more, and nothing otherwise. *)
Lemma match_body_vexu_spec (b : bucket) (m : json) :
  appended b (guarded (match_body_vexu m team_id))
  = if has_two_alliances m
    then appended b (guarded (match_body m team_id))
    else [].
Proof.
  unfold match_body_vexu, match_body, has_two_alliances.
  destruct m as [| | |s|items|fields]; try reflexivity.
  - cbn. now destruct (String.index 0 "alliances" s).
  - cbn. now destruct (existsb (Py.is_str "alliances") items).
  - cbn [Py.contains Py.getitem Py.get].
    destruct (Py.assoc "alliances" fields) as [alls|]; [|reflexivity].
    cbn [bind_opt negb]. destruct (Py.len alls) as [n|] eqn:El; [|reflexivity].
    cbn [bind_opt]. destruct (len_iter _ _ El) as [als Hi]. rewrite Hi.
    destruct (Nat.ltb_spec n 2) as [Hlt|Hge].
    + destruct (Nat.leb_spec 2 n); [lia|reflexivity].
    + destruct (Nat.leb_spec 2 n); [|lia]. cbn [bind_opt].
      destruct (find_alliance als 0 team_id) as [[i|]|]; reflexivity.
Qed.

Lemma ids_of_encoded (ids : list Z) :
  ids_of (map team_json ids) = Got (map JInt ids).
Proof.
  induction ids as [|id ids IH]; [reflexivity|].
  cbn [map ids_of]. rewrite IH. reflexivity.
Qed.

Lemma member_encoded (a : alliance) :
  member team_id (map JInt (al_teams a)) = Typed.holds team_id a.
Proof.
  unfold member, Typed.holds. induction (al_teams a) as [|id ids IH]; [reflexivity|].
  cbn. now rewrite IH.
Qed.

Lemma get_score_strict (a : alliance) :
  getitem (alliance_json a) "score"
  = match al_score a with Some z => Got (JInt z) | None => Exc KeyError end.
Proof. destruct a as [ts [z|]]; reflexivity. Qed.

Lemma get_round_strict (m : match_record) :
  getitem (match_json m) "round"
  = match m_round m with Some z => Got (JInt z) | None => Exc KeyError end.
Proof. destruct m as [als [z|]]; reflexivity. Qed.

(** The body of [extract_scores] on a typed match: the score it finds, or a
    skip the handler takes. *)
Lemma red_blue_body_typed (m : match_record) :
  match red_blue_score team_id m with
  | Some (b, s) => red_blue_body (match_json m) team_id = Got (Scored b (JInt s))
  | None =>
      red_blue_body (match_json m) team_id = Got Skipped
      \/ red_blue_body (match_json m) team_id = Exc KeyError
      \/ red_blue_body (match_json m) team_id = Exc IndexError
  end.
Proof.
  destruct m as [als round]. unfold red_blue_score, red_blue_body, side_ids.
  cbn [m_alliances m_round].
  change (getitem (match_json (mkMatch als round)) "alliances")
    with (Got (JArr (map alliance_json als))).
  cbn [and_then].
  destruct als as [|red [|blue als]]; cbn [map index nth_error and_then].
  - right; right; reflexivity.
  - change (getitem (alliance_json red) "teams")
      with (Got (JArr (map team_json (al_teams red)))).
    cbn [and_then iter Py.iter]. rewrite ids_of_encoded. cbn [and_then].
    right; right; reflexivity.
  - change (getitem (alliance_json red) "teams")
      with (Got (JArr (map team_json (al_teams red)))).
    change (getitem (alliance_json blue) "teams")
      with (Got (JArr (map team_json (al_teams blue)))).
    cbn [and_then iter Py.iter]. rewrite !ids_of_encoded. cbn [and_then].
    rewrite !member_encoded.
    pose proof (get_round_strict (mkMatch (red :: blue :: als) round)) as Hr.
    cbn [m_round] in Hr.
    destruct (Typed.holds team_id red) eqn:Hred.
    + cbn [orb negb nth_error and_then]. rewrite get_score_strict.
      destruct (al_score red) as [s|]; cbn [and_then option_map].
      * rewrite Hr. destruct round as [r|]; cbn [and_then].
        -- unfold Py.eq_int. cbn. now destruct (r =? 1).
        -- right; left; reflexivity.
      * destruct round; right; left; reflexivity.
    + destruct (Typed.holds team_id blue) eqn:Hblue.
      * cbn [orb negb nth_error and_then]. rewrite get_score_strict.
        destruct (al_score blue) as [s|]; cbn [and_then option_map].
        -- rewrite Hr. destruct round as [r|]; cbn [and_then].
           ++ unfold Py.eq_int. cbn. now destruct (r =? 1).
           ++ right; left; reflexivity.
        -- destruct round; right; left; reflexivity.
      * cbn [orb negb]. destruct round; left; reflexivity.
Qed.

End VariantFacts.

(** X9.  The classifier of vexu-data-accessor.py differs from the
    calculator's only by its guard: on any list of matches it returns what
    the calculator's classifier returns on the matches that are objects with
    two alliances or more. *)
Theorem vexu_classifier_is_guarded_calculator (matches : list json) (team_id : Z) :
  Variants.extract_scores_from_matches_vexu matches team_id
  = Classifier.extract_match_scores
      (filter Variants.has_two_alliances matches) team_id.
Proof.
  unfold Variants.extract_scores_from_matches_vexu, Classifier.extract_match_scores,
    Classifier.collect.
  induction matches as [|m ms IH]; [reflexivity|].
  injection IH as IHq IHe. cbn [map flat_map filter].
  rewrite IHq, IHe, !match_body_vexu_spec.
  destruct (Variants.has_two_alliances m); reflexivity.
Qed.

(** X10.  On well-formed matches [extract_scores] of the updaters never lets
    an exception out, and it keeps the score of the first alliance if that
    lists the team, else of the second alliance if that does, classified by
    round 1 or not; a match with fewer than two alliances, with the team in
    neither of the first two, or without the "score" or the "round" field is
    left out (not counted as 0).  A record that is no object, however, ends
    the whole extraction with an exception. *)
Theorem extract_scores_red_blue (ms : list match_record) (team_id : Z) :
  Variants.extract_scores (map match_json ms) team_id
  = Some (Variants.scores_in Qualification team_id ms,
          Variants.scores_in Elimination team_id ms)
  /\ (forall rest, Variants.extract_scores (JNull :: rest) team_id = None).
Proof.
  split; [|reflexivity].
  unfold Variants.scores_in. induction ms as [|m ms IH]; [reflexivity|].
  cbn [map Variants.extract_scores flat_map]. rewrite IH.
  pose proof (red_blue_body_typed team_id m) as H.
  destruct (Variants.red_blue_score team_id m) as [[[|] s]|].
  - rewrite H. reflexivity.
  - rewrite H. reflexivity.
  - destruct H as [->|[->| ->]]; reflexivity.
Qed.

Lemma skill_score_of_encoded (r : skills_record) :
  Variants.skill_score_of (skill_json r)
  = match sk_score r with Some z => [JInt z] | None => [] end.
Proof. destruct r as [t [z|]]; reflexivity. Qed.

(** X11.  [extract_skills_scores] of spreadsheet-updater.py returns, in
    order, the score of every run that carries one, whatever the type of the
    run; a run without a score is left out. *)
Theorem extract_skills_scores_all_types (rs : list skills_record) :
  Variants.extract_skills_scores (map skill_json rs)
  = flat_map (fun r => match sk_score r with
                       | Some z => [JInt z]
                       | None => []
                       end) rs.
Proof.
  unfold Variants.extract_skills_scores.
  induction rs as [|r rs IH]; [reflexivity|].
  cbn [map flat_map]. now rewrite IH, skill_score_of_encoded.
Qed.

(** ** The sheet as a whole *)

Section SheetMoreFacts.

Import Sheet SheetMore.

Lemma dict_set_keys (d : list (string * TeamData)) (k : string) (t : TeamData) :
  map fst (dict_set d k t)
  = if existsb (String.eqb k) (map fst d) then map fst d else map fst d ++ [k].
Proof.
  induction d as [|[k' t'] d IH]; [reflexivity|].
  cbn [dict_set map fst existsb]. destruct (String.eqb_spec k k') as [->|Hne].
  - reflexivity.
  - cbn [map fst orb]. rewrite IH. now destruct (existsb (String.eqb k) (map fst d)).
Qed.

Lemma existsb_eqb_In (k : string) (ks : list string) :
  existsb (String.eqb k) ks = true <-> In k ks.
Proof.
  rewrite existsb_exists. split.
  - intros (x & Hin & E). apply String.eqb_eq in E. now subst.
  - intro Hin. exists k. split; [exact Hin|apply String.eqb_refl].
Qed.

Lemma dict_set_nodup (d : list (string * TeamData)) (k : string) (t : TeamData) :
  NoDup (map fst d) -> NoDup (map fst (dict_set d k t)).
Proof.
  intro H. rewrite dict_set_keys.
  destruct (existsb (String.eqb k) (map fst d)) eqn:E; [exact H|].
  apply NoDup_app; [exact H|repeat constructor; intros []|].
  intros x Hx [<-|[]]. apply existsb_eqb_In in Hx. congruence.
Qed.


Lemma dict_set_entries (P : string * TeamData -> Prop)
  (d : list (string * TeamData)) (k : string) (t : TeamData) :
  Forall P d -> P (k, t) -> Forall P (dict_set d k t).
Proof.
  induction 1 as [|[k' t'] d Hkt Hd IH]; intro Hnew; cbn [dict_set].
  - now repeat constructor.
  - destruct (String.eqb k k'); constructor; auto.
Qed.

(** Insert and look up. *)
Lemma dict_get_set (d : list (string * TeamData)) (k k' : string) (t : TeamData) :
  dict_get (dict_set d k t) k'
  = if String.eqb k' k then Some t else dict_get d k'.
Proof.
  induction d as [|[k0 t0] d IH]; cbn [dict_set dict_get].
  - reflexivity.
  - destruct (String.eqb_spec k k0) as [->|Hne]; cbn [dict_get].
    + now destruct (String.eqb k' k0).
    + rewrite IH. destruct (String.eqb_spec k' k0) as [->|Hne'];
        [|reflexivity].
      destruct (String.eqb_spec k0 k); [congruence|reflexivity].
Qed.

Lemma parse_line_team (float_of_str : string -> option Q) (line : string)
  (t : TeamData) :
  parse_line float_of_str line = Team t -> parsed_entry (code t, t).
Proof.
  unfold parse_line.
  destruct (split (strip line)) as [|p0 [|p1 [|p2 [|p3 [|p4 rest]]]]];
    try discriminate.
  destruct (starts_with_letters p0) eqn:El; [|discriminate]. cbn [negb].
  destruct (float_of_str p1); [|discriminate].
  destruct (int_of_str p2); [|discriminate].
  destruct (float_of_str p3); [|discriminate].
  destruct (float_of_str p4); [|discriminate].
  intros [= <-]. unfold parsed_entry. cbn. now rewrite El.
Qed.

Lemma parse_snoc (float_of_str : string -> option Q) (lines : list string)
  (line : string) :
  parse_existing_spreadsheet float_of_str (lines ++ [line])
  = match parse_line float_of_str line with
    | Team t => dict_set (parse_existing_spreadsheet float_of_str lines) (code t) t
    | _ => parse_existing_spreadsheet float_of_str lines
    end.
Proof.
  unfold parse_existing_spreadsheet. rewrite fold_left_app. reflexivity.
Qed.

End SheetMoreFacts.

(** X12.  Whatever the lines of the file are, the teams
    [parse_existing_spreadsheet] returns have pairwise distinct codes, each
    is filed under its own code, which begins with a letter, and carries
    nothing but the four statistics; a line read as a team replaces an
    earlier entry of the same code, so a look-up gives the team of the last
    such line. *)
Theorem parsed_sheet_invariant (float_of_str : string -> option Q)
  (lines : list string) :
  NoDup (map fst (Sheet.parse_existing_spreadsheet float_of_str lines))
  /\ Forall SheetMore.parsed_entry
       (Sheet.parse_existing_spreadsheet float_of_str lines)
  /\ (forall line t,
        Sheet.parse_line float_of_str line = Sheet.Team t ->
        SheetMore.dict_get
          (Sheet.parse_existing_spreadsheet float_of_str (lines ++ [line]))
          (code t) = Some t)
  /\ (forall line t k,
        Sheet.parse_line float_of_str line = Sheet.Team t ->
        k <> code t ->
        SheetMore.dict_get
          (Sheet.parse_existing_spreadsheet float_of_str (lines ++ [line])) k
        = SheetMore.dict_get
            (Sheet.parse_existing_spreadsheet float_of_str lines) k).
Proof.
  split; [|split; [|split]].
  - induction lines as [|line lines IH] using rev_ind; [constructor|].
    rewrite parse_snoc. destruct (Sheet.parse_line float_of_str line); auto.
    now apply dict_set_nodup.
  - induction lines as [|line lines IH] using rev_ind; [constructor|].
    rewrite parse_snoc.
    destruct (Sheet.parse_line float_of_str line) as [| |t] eqn:E; auto.
    apply dict_set_entries; [exact IH|]. exact (parse_line_team _ _ _ E).
  - intros line t E. rewrite parse_snoc, E, dict_get_set.
    now rewrite String.eqb_refl.
  - intros line t k E Hne. rewrite parse_snoc, E, dict_get_set.
    destruct (String.eqb_spec k (code t)); [congruence|reflexivity].
Qed.

Lemma parsed_sheet_invariant_witness :
  SheetMore.dict_get
    (Sheet.parse_existing_spreadsheet Sheet.sample_float_of_str
       (["A1 0 5 0 0"] ++ ["A1 20.0 30 0 0"]))
    "A1"
  = Some (mkTeam "A1" 20%Q 30 0%Q 0%Q [] [] [] [] [] "" 0).
Proof.
  exact (proj1 (proj2 (proj2 (parsed_sheet_invariant Sheet.sample_float_of_str
                                ["A1 0 5 0 0"])))
               "A1 20.0 30 0 0"
               (mkTeam "A1" 20%Q 30 0%Q 0%Q [] [] [] [] [] "" 0) eq_refl).
Defined.

Section SheetRows.

Import Sheet SheetMore.

Variables (float_str : Q -> string) (float_of_str : string -> option Q).




(** A blank between two pieces of text separates their words. *)
Lemma split_from_blank (a b cur : string) :
  split_from cur (a ++ String " " b) = split_from cur a ++ split b.
Proof.
  revert cur; induction a as [|c a IH]; intro cur.
  - cbn [append]. rewrite split_from_cons. change (is_space " ") with true.
    cbn [split_from]. now destruct (is_empty cur).
  - cbn [append]. rewrite !(split_from_cons cur c).
    destruct (is_space c); [|apply IH].
    destruct (is_empty cur); [apply IH|]. cbn [app]. now rewrite IH.
Qed.

Lemma split_blank (a b : string) : split (a ++ " " ++ b) = split a ++ split b.
Proof. unfold split at 1 2. apply split_from_blank. Qed.

Lemma split_word (w : string) : is_word w = true -> split w = [w].
Proof.
  unfold is_word, split. intro H. apply andb_prop in H as [He Hw].
  rewrite <- (append_empty w) at 1. rewrite (split_from_word w "" "" Hw).
  cbn. apply negb_true_iff in He. now rewrite He.
Qed.

Lemma no_space_app (a b : string) :
  no_space (a ++ b) = no_space a && no_space b.
Proof.
  induction a as [|c a IH]; [reflexivity|].
  cbn. rewrite IH. now rewrite andb_assoc.
Qed.

Lemma is_word_app (a b : string) :
  no_space a = true -> is_word b = true -> is_word (a ++ b) = true.
Proof.
  unfold is_word. intros Ha Hb. apply andb_prop in Hb as [He Hb].
  rewrite no_space_app, Ha, Hb. destruct a; cbn; [now rewrite He|reflexivity].
Qed.

Lemma int_str_no_space (z : Z) : no_space (int_str z) = true.
Proof.
  pose proof (int_str_word z) as H. unfold is_word in H.
  now apply andb_prop in H as [_ H].
Qed.

(** The rendering with two decimals is always one word. *)
Lemma format_2f_word (q : Q) : is_word (Stats.format_2f q) = true.
Proof.
  unfold Stats.format_2f. cbn zeta. unfold Stats.decimal. fold int_str.
  apply is_word_app; [now destruct (Qle_bool 0 q)|].
  apply is_word_app; [apply int_str_no_space|].
  apply is_word_app; [reflexivity|].
  apply is_word_app; [|apply int_str_word].
  now destruct (_ <? 10).
Qed.

End SheetRows.



(** X14.  The fields of a row of the calculator and of the updaters: seven
    words, then the words of the best-event name, then nine words.  The row
    has 16 fields plus one per word of the name, so the columns after the
    name keep their position only when the name is a single word. *)
Theorem row_fields (float_str : Q -> string) (t : TeamData) :
  Sheet.is_word (code t) = true ->
  Sheet.is_word (float_str (qual_avg t)) = true ->
  Sheet.is_word (float_str (elims_avg t)) = true ->
  Sheet.is_word (float_str (skill_avg t)) = true ->
  let c := code t in
  let qa := float_str (qual_avg t) in
  let bq := Sheet.int_str (best_qual t) in
  let ea := float_str (elims_avg t) in
  let sa := float_str (skill_avg t) in
  Sheet.split (Sheet.format_spreadsheet_row float_str t true)
  = [c; qa; bq; ea; sa; c; bq]
      ++ Sheet.split (best_event_name t)
      ++ [Sheet.int_str (best_event_score t); c; ea; c; ea; c; sa; c; sa]
  /\ List.length (Sheet.split (Sheet.format_spreadsheet_row float_str t true))
     = (16 + List.length (Sheet.split (best_event_name t)))%nat.
Proof.
  intros Hc Hq He Hs. cbn zeta.
  assert (E : Sheet.split (Sheet.format_spreadsheet_row float_str t true)
              = [code t; float_str (qual_avg t); Sheet.int_str (best_qual t);
                 float_str (elims_avg t); float_str (skill_avg t); code t;
                 Sheet.int_str (best_qual t)]
                  ++ Sheet.split (best_event_name t)
                  ++ [Sheet.int_str (best_event_score t); code t;
                      float_str (elims_avg t); code t; float_str (elims_avg t);
                      code t; float_str (skill_avg t); code t;
                      float_str (skill_avg t)]).
  { unfold Sheet.format_spreadsheet_row. cbn zeta iota.
    pose proof (int_str_word (best_qual t)) as Hb.
    pose proof (int_str_word (best_event_score t)) as Hbs.
    rewrite (split_word_blank _ _ Hc), (split_word_blank _ _ Hq),
      (split_word_blank _ _ Hb), (split_word_blank _ _ He),
      (split_word_blank _ _ Hs), (split_word_blank _ _ Hc),
      (split_word_blank _ _ Hb).
    rewrite split_blank.
    rewrite (split_word_blank _ _ Hbs), (split_word_blank _ _ Hc),
      (split_word_blank _ _ He), (split_word_blank _ _ Hc),
      (split_word_blank _ _ He), (split_word_blank _ _ Hc),
      (split_word_blank _ _ Hs), (split_word_blank _ _ Hc),
      (split_word _ Hs).
    reflexivity. }
  split; [exact E|]. rewrite E, !length_app. cbn [List.length]. lia.
Qed.

Lemma row_fields_witness :
  List.length
    (Sheet.split (Sheet.format_spreadsheet_row Sheet.sample_float_str
                    (Sheet.sample_team "A90241") true))
  = (16 + 2)%nat.
Proof.
  exact (proj2 (row_fields Sheet.sample_float_str (Sheet.sample_team "A90241")
                  eq_refl eq_refl eq_refl eq_refl)).
Defined.

(** X15.  A row of the updated accessor always has 17 fields when the team
    code is one word: the code, the three averages with two decimals and the
    best qualification score, in the fixed positions. *)
Theorem row_updated_fields (t : TeamData) :
  Sheet.is_word (code t) = true ->
  let c := code t in
  let qa := Stats.format_2f (qual_avg t) in
  let bq := Sheet.int_str (best_qual t) in
  let ea := Stats.format_2f (elims_avg t) in
  let sa := Stats.format_2f (skill_avg t) in
  Sheet.split (SheetMore.format_spreadsheet_row_updated t)
  = [c; qa; bq; ea; sa; c; bq; c; bq; c; ea; c; ea; c; sa; c; sa].
Proof.
  intros Hc. cbn zeta. unfold SheetMore.format_spreadsheet_row_updated. cbn zeta.
  pose proof (int_str_word (best_qual t)) as Hb.
  pose proof (format_2f_word (qual_avg t)) as Hq.
  pose proof (format_2f_word (elims_avg t)) as He.
  pose proof (format_2f_word (skill_avg t)) as Hs.
  rewrite (split_word_blank _ _ Hc), (split_word_blank _ _ Hq),
    (split_word_blank _ _ Hb), (split_word_blank _ _ He),
    (split_word_blank _ _ Hs), (split_word_blank _ _ Hc),
    (split_word_blank _ _ Hb), (split_word_blank _ _ Hc),
    (split_word_blank _ _ Hb), (split_word_blank _ _ Hc),
    (split_word_blank _ _ He), (split_word_blank _ _ Hc),
    (split_word_blank _ _ He), (split_word_blank _ _ Hc),
    (split_word_blank _ _ Hs), (split_word_blank _ _ Hc),
    (split_word _ Hs).
  reflexivity.
Qed.

Lemma row_updated_fields_witness :
  Sheet.split (SheetMore.format_spreadsheet_row_updated (Sheet.sample_team "90241A"))
  = ["90241A"; "20.00"; "30"; "0.00"; "0.00"; "90241A"; "30"; "90241A"; "30";
     "90241A"; "0.00"; "90241A"; "0.00"; "90241A"; "0.00"; "90241A"; "0.00"].
Proof.
  exact (row_updated_fields (Sheet.sample_team "90241A") eq_refl).
Defined.

(** ** The entry script *)

Section TeamCodes.

Import Sheet SheetMore.

Lemma split_on_from_piece (p cur s : string) :
  no_comma p = true ->
  split_on_from "," cur (p ++ s) = split_on_from "," (cur ++ p) s.
Proof.
  revert cur; induction p as [|c p IH]; intros cur H.
  - cbn. now rewrite append_empty.
  - cbn in H. apply andb_prop in H as [Hc Hp]. apply negb_true_iff in Hc.
    cbn [append split_on_from]. rewrite Hc, (IH _ Hp), append_assoc. reflexivity.
Qed.

Lemma split_on_piece_end (p : string) :
  no_comma p = true -> split_on "," p = [p].
Proof.
  intro H. unfold split_on. rewrite <- (append_empty p) at 1.
  now rewrite (split_on_from_piece p "" "" H).
Qed.

Lemma split_on_piece_comma (p s : string) :
  no_comma p = true -> split_on "," (p ++ "," ++ s) = p :: split_on "," s.
Proof.
  intro H. unfold split_on. now rewrite (split_on_from_piece p "" _ H).
Qed.

(** Splitting at the commas undoes joining with commas. *)
Lemma split_on_join (ps : list string) :
  ps <> [] -> Forall (fun p => no_comma p = true) ps ->
  split_on "," (String.concat "," ps) = ps.
Proof.
  induction ps as [|p ps IH]; intros Hne H; [congruence|].
  inversion H as [|? ? Hp Hps]; subst. destruct ps as [|q ps].
  - cbn [String.concat]. now apply split_on_piece_end.
  - cbn [String.concat]. rewrite (split_on_piece_comma _ _ Hp).
    f_equal. apply IH; [discriminate|exact Hps].
Qed.

Lemma strip_blank_word (w : string) : is_word w = true -> strip (" " ++ w) = w.
Proof.
  unfold is_word. intro H. apply andb_prop in H as [_ Hw].
  unfold strip. cbn [append lstrip]. change (is_space " ") with true. cbn iota.
  exact (strip_word w Hw).
Qed.

Lemma no_comma_blank (w : string) : no_comma w = true -> no_comma (" " ++ w) = true.
Proof. intro H. cbn. exact H. Qed.

End TeamCodes.

(** X16.  The entry scripts recover the team codes from the answer to the
    prompt: for codes that are single words without a comma, the answer that
    joins them with commas, with or without a blank after each comma, gives
    back exactly the list of codes; and the empty answer gives one empty
    code. *)
Theorem team_codes_of_answer (codes : list string) :
  codes <> [] ->
  Forall (fun c => Sheet.is_word c = true /\ SheetMore.no_comma c = true) codes ->
  SheetMore.team_codes (String.concat "," codes) = codes
  /\ SheetMore.team_codes
       (String.concat "," (hd "" codes :: map (append " ") (tl codes)))
     = codes
  /\ SheetMore.team_codes "" = [""].
Proof.
  intros Hne H. unfold SheetMore.team_codes. split; [|split; [|reflexivity]].
  - rewrite split_on_join; [|exact Hne|].
    + induction H as [|c cs [Hw _] _ IH]; [reflexivity|]. cbn [map].
      unfold Sheet.is_word in Hw. apply andb_prop in Hw as [_ Hw].
      rewrite (strip_word c Hw). f_equal.
      destruct cs; [reflexivity|]. apply IH. discriminate.
    + eapply Forall_impl; [|exact H]. now intros c [_ Hc].
  - destruct codes as [|c cs]; [congruence|]. cbn [hd tl].
    inversion H as [|? ? [Hw Hc] Hcs]; subst.
    rewrite split_on_join; [|discriminate|].
    + cbn [map]. unfold Sheet.is_word in Hw. apply andb_prop in Hw as [_ Hw].
      rewrite (strip_word c Hw). f_equal. clear - Hcs.
      induction Hcs as [|d ds [Hd _] _ IH]; [reflexivity|].
      cbn [map]. now rewrite (strip_blank_word d Hd), IH.
    + constructor; [exact Hc|]. clear - Hcs.
      induction Hcs as [|d ds [_ Hd] _ IH]; [constructor|].
      cbn [map]. constructor; [now apply no_comma_blank|exact IH].
Qed.

Lemma team_codes_of_answer_witness :
  SheetMore.team_codes "90241A, 1234B, 77C" = ["90241A"; "1234B"; "77C"].
Proof.
  assert (H : Forall (fun c => Sheet.is_word c = true /\ SheetMore.no_comma c = true)
                ["90241A"; "1234B"; "77C"])
    by (repeat constructor).
  exact (proj1 (proj2 (team_codes_of_answer ["90241A"; "1234B"; "77C"]
                         ltac:(discriminate) H))).
Defined.

(** ** The aggregation loop *)

Section AggregateFacts.

Import Aggregate.

Variables (extract : list json -> Z -> list json * list json) (team_id : Z).

Lemma fold_max_shift (q : list Z) (a y : Z) :
  fold_left Z.max q (Z.max y a) = Z.max y (fold_left Z.max q a).
Proof.
  revert a y; induction q as [|b q IH]; intros a y; cbn; [reflexivity|].
  rewrite <- Z.max_assoc. apply IH.
Qed.

(** The best of two runs of scores put together. *)
Lemma best_app (qs q : list Z) :
  q <> [] ->
  Z.max 0 (Skills.best (qs ++ q))
  = Z.max (Z.max 0 (Skills.best qs)) (Py.max_list q).
Proof.
  intro Hq. destruct q as [|b q]; [congruence|].
  destruct qs as [|x qs].
  - cbn [app Skills.best]. lia.
  - cbn [app Skills.best Py.max_list]. rewrite fold_left_app.
    cbn [fold_left]. rewrite fold_max_shift. lia.
Qed.

Lemma absorb_matches_tracked (names : list string) (t t' : TeamData)
  (name : string) (matches : list json) :
  tracked names t ->
  absorb_matches extract team_id t name matches = Some t' ->
  tracked (names ++ [name]) t' /\ code t' = code t.
Proof.
  intros (Hb & Hs & Hz & Hn) H. unfold absorb_matches in H.
  assert (Hkeep : tracked (names ++ [name]) t).
  { repeat split; auto. intro Hp. apply in_or_app. left. now apply Hn. }
  destruct matches as [|m ms]; [injection H as <-; now split|].
  destruct (extract (m :: ms) team_id) as [qj ej].
  destruct (Py.all_ints qj) as [quals|]; [|discriminate].
  destruct (Py.all_ints ej) as [elims|]; [|discriminate].
  cbn [bind_opt] in H. destruct quals as [|q quals].
  - injection H as <-. split; [|reflexivity]. unfold tracked, with_scores. cbn.
    rewrite app_nil_r. exact Hkeep.
  - cbn [with_scores best_event_score] in H. remember (q :: quals) as qs eqn:Eqs.
    assert (Hqs : qs <> []) by (subst qs; discriminate).
    pose proof (best_app (qual_scores t) qs Hqs) as Hbest.
    cbn [with_scores best_event_score] in H.
    destruct (Z.gtb_spec (Py.max_list qs) (best_event_score t)) as [Hgt|Hle];
      injection H as <-; (split; [|reflexivity]);
      unfold tracked, with_scores, with_best_event;
      cbn [best_qual best_event_score best_event_name qual_scores].
    + split; [exact Hb|]. split; [rewrite Hbest, <- Hs; lia|].
      split; [intro; lia|].
      intros _. apply in_or_app. right. now left.
    + split; [exact Hb|]. split; [rewrite Hbest, <- Hs; lia|]. split; [exact Hz|].
      intro Hp. apply in_or_app. left. now apply Hn.
Qed.

Lemma absorb_skills_tracked (names : list string) (t t' : TeamData)
  (skills : list json) :
  tracked names t -> absorb_skills t skills = Some t' ->
  tracked names t' /\ code t' = code t.
Proof.
  intros Ht H. unfold absorb_skills in H.
  destruct skills as [|s ss]; [injection H as <-; now split|].
  destruct (Skills.classify (s :: ss)) as [dj pj].
  destruct (Py.all_ints dj) as [d|]; [|discriminate].
  destruct (Py.all_ints pj) as [p|]; [|discriminate].
  injection H as <-. split; [exact Ht|reflexivity].
Qed.

Lemma process_events_tracked (fs : list fetched) :
  forall (names : list string) (a a' : accessor_team),
    tracked names (stats a) ->
    process_events extract team_id a fs = Some a' ->
    tracked (names ++ map (fun f => ev_name (f_event f)) fs) (stats a')
    /\ code (stats a') = code (stats a)
    /\ events a' = events a ++ map (fun f => stored_event (f_event f)) fs.
Proof.
  induction fs as [|f fs IH]; intros names a a' Ht H.
  - injection H as <-. cbn. now rewrite !app_nil_r.
  - cbn [process_events] in H. unfold process_event in H.
    destruct (absorb_matches extract team_id (stats a) (ev_name (f_event f))
                (f_matches f)) as [t1|] eqn:E1; [|discriminate].
    cbn [bind_opt] in H.
    destruct (absorb_skills t1 (f_skills f)) as [t2|] eqn:E2; [|discriminate].
    cbn [bind_opt] in H.
    destruct (absorb_matches_tracked names _ _ _ _ Ht E1) as [Ht1 Hc1].
    destruct (absorb_skills_tracked _ _ _ _ Ht1 E2) as [Ht2 Hc2].
    destruct (IH (names ++ [ev_name (f_event f)])
                 (mkAccessor t2 (events a ++ [stored_event (f_event f)])) a'
                 Ht2 H) as (Ht' & Hc' & He').
    cbn [stats events] in *. split; [|split].
    + cbn [map]. now rewrite <- app_assoc in Ht'.
    + congruence.
    + rewrite He'. cbn [map]. now rewrite <- app_assoc.
Qed.

End AggregateFacts.

(** X17.  In the aggregation loop of the two accessors the best event follows
    the qualification scores: after the final statistics the best-event score
    is the best qualification score, or 0 when that is not positive; the
    best-event name is empty while the score is 0 and is the name of one of
    the events otherwise; and one entry per event is stored, in order. *)
Theorem aggregate_best_event
  (extract : list json -> Z -> list json * list json) (team_id : Z)
  (team_code : string) (fs : list Aggregate.fetched)
  (a : Aggregate.accessor_team) :
  Aggregate.aggregate extract team_id team_code fs = Some a ->
  best_event_score (Aggregate.stats a) = Z.max 0 (best_qual (Aggregate.stats a))
  /\ (best_event_score (Aggregate.stats a) = 0 ->
      best_event_name (Aggregate.stats a) = "")
  /\ (0 < best_event_score (Aggregate.stats a) ->
      In (best_event_name (Aggregate.stats a))
         (map (fun f => Aggregate.ev_name (Aggregate.f_event f)) fs))
  /\ Aggregate.events a
     = map (fun f => Aggregate.stored_event (Aggregate.f_event f)) fs
  /\ code (Aggregate.stats a) = team_code.
Proof.
  unfold Aggregate.aggregate. intro H.
  destruct (Aggregate.process_events extract team_id
              (Aggregate.mkAccessor (new_team team_code) []) fs) as [a0|] eqn:E;
    [|discriminate].
  injection H as <-.
  assert (H0 : Aggregate.tracked [] (new_team team_code)).
  { unfold Aggregate.tracked. cbn. repeat split; auto; lia. }
  destruct (process_events_tracked extract team_id fs []
              (Aggregate.mkAccessor (new_team team_code) []) a0 H0 E)
    as ((Hb & Hs & Hz & Hn) & Hc & He).
  cbn [Aggregate.stats Aggregate.events app] in *.
  unfold Stats.calculate_stats. cbn [best_event_score best_qual best_event_name code].
  split; [|split; [exact Hz|split; [exact Hn|split; [exact He|exact Hc]]]].
  rewrite Hs. unfold Skills.best.
  destruct (qual_scores (Aggregate.stats a0)); [now rewrite Hb|reflexivity].
Qed.

Lemma aggregate_best_event_witness :
  exists a,
    Aggregate.aggregate Variants.extract_scores_from_matches_vexu 7 "90241A"
      Aggregate.two_events = Some a
    /\ best_event_score (Aggregate.stats a) = Z.max 0 (best_qual (Aggregate.stats a)).
Proof.
  eexists. split; [reflexivity|].
  exact (proj1 (aggregate_best_event Variants.extract_scores_from_matches_vexu 7
                  "90241A" Aggregate.two_events _ eq_refl)).
Defined.

(** ** Order of the report, bounds of the statistics *)

Lemma strongly_sorted_pair {A : Type} (R : A -> A -> Prop)
  (l1 l2 l3 : list A) (a b : A) :
  StronglySorted R (l1 ++ a :: l2 ++ b :: l3) -> R a b.
Proof.
  induction l1 as [|x l1 IH]; cbn; intro H.
  - apply StronglySorted_inv in H as [_ H]. rewrite Forall_forall in H.
    apply H. apply in_or_app. right. now left.
  - apply StronglySorted_inv in H as [H _]. now apply IH.
Qed.

(** X18.  In the report of the updated accessor no team without a positive
    qualification average comes before a team with one: of two teams in the
    output, if the later one has a positive average then so has the earlier
    one, and its average is at least as high; and two teams without a
    positive average come in descending order of their skill averages. *)
Theorem teams_without_matches_come_last (teams l1 l2 l3 : list TeamData)
  (a b : TeamData) :
  Report.sorted_teams_updated teams = l1 ++ a :: l2 ++ b :: l3 ->
  ((0 < qual_avg b)%Q -> (0 < qual_avg a)%Q /\ (qual_avg b <= qual_avg a)%Q)
  /\ ((qual_avg a <= 0)%Q -> (qual_avg b <= 0)%Q ->
      (skill_avg b <= skill_avg a)%Q).
Proof.
  intro E.
  destruct (descending_sort_spec
              (fun x y => Report.pair_leb (Report.sort_key x) (Report.sort_key y))
              (fun x y => pair_leb_total _ _)
              (fun x y z => pair_leb_trans _ _ _) teams) as (_ & HS & _).
  cbn zeta in HS.
  change (rev (Report.sort_by
                 (fun x y => Report.pair_leb (Report.sort_key x) (Report.sort_key y))
                 (rev teams)))
    with (Report.sorted_teams_updated teams) in HS.
  rewrite E in HS. apply strongly_sorted_pair in HS. cbn beta in HS.
  apply pair_leb_iff in HS. unfold Report.sort_key in HS.
  destruct (Qle_bool (qual_avg a) 0) eqn:Ea, (Qle_bool (qual_avg b) 0) eqn:Eb;
    cbn [negb fst snd] in HS;
    try (apply Qle_bool_iff in Ea); try (apply Qle_bool_iff in Eb);
    try (apply not_true_iff_false in Ea; rewrite Qle_bool_iff in Ea);
    try (apply not_true_iff_false in Eb; rewrite Qle_bool_iff in Eb);
    split; intros; try split; try lra; destruct HS as [HS|[HS1 HS2]]; lra.
Qed.

Lemma teams_without_matches_come_last_witness :
  Report.sorted_teams_updated MoreSamples.three_teams
  = [] ++ Report.team_b :: [Report.team_a] ++ MoreSamples.no_matches :: []
  /\ (qual_avg MoreSamples.no_matches <= 0)%Q.
Proof.
  split; [reflexivity|].
  destruct (teams_without_matches_come_last MoreSamples.three_teams []
              [Report.team_a] [] Report.team_b MoreSamples.no_matches eq_refl)
    as [_ H].
  cbn. lra.
Defined.





